(** * diskusage_mac.py: a shallow embedding and its verified properties

    The program lists the local APFS/HFS mounts of a macOS machine and prints
    one table line per mount.  Everything below is a translation of
    [diskusage_mac.py]:

    - Python [str] is [string]; a character is a code point below 256;
    - Python [int] is [Z];
    - Python [float] is a pair mantissa/exponent holding the exact value, with
      the binary64 rounding written out where the source rounds;
    - the operating system ([subprocess.check_output], [os.path.exists],
      [os.statvfs]) is an abstract world threaded through every call;
    - the label of a volume is any value of a property list: the source
      annotates it as [str] and does not check it;
    - an exception is a constructor of the result type. *)

From Stdlib Require Import ZArith QArith String Ascii List Lia Bool DecimalString.
From Stdlib Require Import Sorting.Sorted Sorting.Permutation.
From stdpp Require Import base strings gmap.

Import ListNotations.
Local Open Scope string_scope.
Local Open Scope Z_scope.

(** ** Strings, as the program uses them *)

Module PyStr.

(** [c * n] for a one-character string [c]. *)
Fixpoint repeat_char (c : ascii) (n : nat) : string :=
  match n with
  | O => EmptyString
  | S n' => String c (repeat_char c n')
  end.

(** Format spec [{s:w}] on a string: pad on the right up to width [w];
    a longer string is left as it is. *)
Definition ljust (w : nat) (s : string) : string :=
  s ++ repeat_char " " (w - String.length s).

(** Format spec [{s:>w}]: pad on the left up to width [w]. *)
Definition rjust (w : nat) (s : string) : string :=
  repeat_char " " (w - String.length s) ++ s.

(** The slice [s[:n]] for [0 <= n]. *)
Definition take (n : nat) (s : string) : string := substring 0 n s.

(** [str(n)] for an integer. *)
Definition of_Z (n : Z) : string := NilZero.string_of_int (Z.to_int n).

(** One decimal digit. *)
Definition digit (d : Z) : ascii := ascii_of_nat (48 + Z.to_nat d).

Definition is_digit (c : ascii) : bool :=
  let n := nat_of_ascii c in (48 <=? n)%nat && (n <=? 57)%nat.

Fixpoint all_chars (p : ascii -> bool) (s : string) : bool :=
  match s with
  | EmptyString => true
  | String c s' => p c && all_chars p s'
  end.

(** [c.lower()] on the code points below 256: the letters A-Z and the
    Latin-1 capitals 0xC0-0xDE (without the multiplication sign 0xD7) move
    up by 32. *)
Definition lower_char (c : ascii) : ascii :=
  let n := nat_of_ascii c in
  if ((65 <=? n) && (n <=? 90))%nat
     || ((192 <=? n) && (n <=? 222) && negb (n =? 215))%nat
  then ascii_of_nat (n + 32) else c.

Fixpoint lower (s : string) : string :=
  match s with
  | EmptyString => EmptyString
  | String c s' => String (lower_char c) (lower s')
  end.

(** [str.isspace] on the code points below 256; this is the class [\s] of
    [re] on a [str] pattern. *)
Definition is_space (c : ascii) : bool :=
  let n := nat_of_ascii c in
  ((9 <=? n) && (n <=? 13))%nat || ((28 <=? n) && (n <=? 32))%nat
  || (n =? 133)%nat || (n =? 160)%nat.

End PyStr.

(** ** Floating point

    A finite binary64 value is kept exactly, as [fm * 2 ^ fe].  The source
    rounds at three places: [float(bytes_)], the true division [used / size]
    of two integers and the product with [100.0]; each is the rounding of an
    exact rational to 53 significant bits, ties to even.  The exponent is
    left unbounded: [float_of_int] reports the overflow of [float()], and the
    quotient of two byte counts (products of two 64-bit counters) is never
    below 2^-128, so no result here is subnormal. *)

Record pyfloat := mkF { fm : Z; fe : Z }.

Module PyFloat.

(** [2 ^ e] for [0 <= e], and 1 below: the two halves of a power of two
    with an exponent of either sign, [2 ^ e = pow2 e / pow2 (- e)]. *)
Definition pow2 (e : Z) : Z := 2 ^ Z.max 0 e.

(** Numerator and denominator of the exact value. *)
Definition num (x : pyfloat) : Z := fm x * pow2 (fe x).
Definition den (x : pyfloat) : Z := pow2 (- fe x).

Definition to_Q (x : pyfloat) : Q := Qmake (num x) (Z.to_pos (den x)).

Definition ltb (x y : pyfloat) : bool := num x * den y <? num y * den x.

(** The integer nearest to [n / d] for [0 < d], ties to the even one. *)
Definition round_half_even (n d : Z) : Z :=
  let q := n / d in
  let r := n mod d in
  if 2 * r <? d then q
  else if d <? 2 * r then q + 1
  else if Z.even q then q else q + 1.

(** [floor (log2 (a / d))] for [0 < a] and [0 < d]. *)
Definition ilog2 (a d : Z) : Z :=
  let k := Z.log2 a - Z.log2 d in
  if d * pow2 k <=? a * pow2 (- k) then k else k - 1.

(** [a / d] scaled by [2 ^ (- e)] and rounded to an integer. *)
Definition scaled (a d e : Z) : Z :=
  round_half_even (a * pow2 (- e)) (d * pow2 e).

(** The binary64 nearest to [n / d], for [0 < d]. *)
Definition round53 (n d : Z) : pyfloat :=
  if n =? 0 then mkF 0 0
  else
    let a := Z.abs n in
    let e := ilog2 a d - 52 in
    mkF (Z.sgn n * scaled a d e) e.

Definition of_Z_exact (n : Z) : pyfloat := mkF n 0.

(** [float(n)]: [None] is the OverflowError of an integer that rounds to
    2^1024 or beyond. *)
Definition float_of_int (n : Z) : option pyfloat :=
  let x := round53 n 1 in
  if 2 ^ 1024 * den x <=? Z.abs (num x) then None else Some x.

(** [a / b] on two integers with [b <> 0]: the exact quotient, rounded
    once. *)
Definition int_truediv (a b : Z) : pyfloat :=
  round53 (a * Z.sgn b) (Z.abs b).

(** [x * y]. *)
Definition mul (x y : pyfloat) : pyfloat :=
  let e := fe x + fe y in
  round53 (fm x * fm y * pow2 e) (pow2 (- e)).

(** [x / 1024]: a division by a power of two only moves the exponent (the
    loop of [human] divides values of at least 1024, so nothing underflows). *)
Definition div1024 (x : pyfloat) : pyfloat := mkF (fm x) (fe x - 10).

(** [int(x)]: truncation toward zero. *)
Definition to_int (x : pyfloat) : Z := Z.quot (num x) (den x).

(** The format spec [.1f]: the value rounded to one decimal place, ties to
    even on the exact value, a minus sign for a negative value. *)
Definition tenths (x : pyfloat) : Z :=
  round_half_even (10 * Z.abs (num x)) (den x).

Definition format_1f (x : pyfloat) : string :=
  let t := tenths x in
  (if fm x <? 0 then "-" else "")
    ++ PyStr.of_Z (t / 10) ++ "." ++ String (PyStr.digit (t mod 10)) "".

End PyFloat.

(** ** [human] *)

Definition units : list string := ["B"; "KiB"; "MiB"; "GiB"; "TiB"; "PiB"].

(** The [for u in units] loop; [None] when the loop ends without a
    [return]. *)
Fixpoint human_loop (us : list string) (b : pyfloat) : option string :=
  match us with
  | [] => None
  | u :: us' =>
      if PyFloat.ltb b (PyFloat.of_Z_exact 1024) || (u =? "PiB")%string
      then Some (if (u =? "B")%string
                 then PyStr.of_Z (PyFloat.to_int b) ++ " B"
                 else PyFloat.format_1f b ++ " " ++ u)
      else human_loop us' (PyFloat.div1024 b)
  end.

(** [human(bytes_)]; [None] is the OverflowError of [float(bytes_)]. *)
Definition human (bytes_ : Z) : option string :=
  match PyFloat.float_of_int bytes_ with
  | None => None
  | Some b =>
      match human_loop units b with
      | Some s => Some s
      | None => Some (PyStr.of_Z bytes_ ++ " B")
      end
  end.

(** ** The line pattern

    [LINE_RE] is [^(?P<dev>\S+)\s+on\s+(?P<mp>.+?)\s+\((?P<fstype>[^,]+)].
    Every repetition of the pattern ranges over a class of single characters,
    so the backtracking matcher of [re] is four combinators in
    continuation-passing style: a repetition hands the text it matched and
    the rest of the subject to its continuation, and moves to its next
    candidate when the continuation fails.  The first success in that order
    is the match [re] reports. *)

Module Re.

Section Combinators.
Context {R : Type}.

(** [p*], greedy, after [acc] has been matched: the longest run first,
    one character less on every failure of [k]. *)
Fixpoint star_greedy (p : ascii -> bool) (k : string -> string -> option R)
    (acc s : string) : option R :=
  match s with
  | String c s' =>
      if p c then
        match star_greedy p k (acc ++ String c "") s' with
        | Some r => Some r
        | None => k acc s
        end
      else k acc s
  | EmptyString => k acc s
  end.

(** [p+], greedy. *)
Definition plus_greedy (p : ascii -> bool) (k : string -> string -> option R)
    (s : string) : option R :=
  match s with
  | String c s' => if p c then star_greedy p k (String c "") s' else None
  | EmptyString => None
  end.

(** [p*?], lazy, after [acc] has been matched: the shortest run first,
    one character more on every failure of [k]. *)
Fixpoint star_lazy (p : ascii -> bool) (k : string -> string -> option R)
    (acc s : string) : option R :=
  match k acc s with
  | Some r => Some r
  | None =>
      match s with
      | String c s' =>
          if p c then star_lazy p k (acc ++ String c "") s' else None
      | EmptyString => None
      end
  end.

(** [p+?], lazy. *)
Definition plus_lazy (p : ascii -> bool) (k : string -> string -> option R)
    (s : string) : option R :=
  match s with
  | String c s' => if p c then star_lazy p k (String c "") s' else None
  | EmptyString => None
  end.

(** The rest of [s] after the literal text [t]. *)
Fixpoint strip (t s : string) : option string :=
  match t with
  | EmptyString => Some s
  | String a t' =>
      match s with
      | String b s' => if Ascii.eqb a b then strip t' s' else None
      | EmptyString => None
      end
  end.

(** A literal. *)
Definition lit (t : string) (k : string -> option R) (s : string) : option R :=
  match strip t s with
  | Some s' => k s'
  | None => None
  end.

End Combinators.

(** The character classes of the pattern. *)
Definition space : ascii -> bool := PyStr.is_space.
Definition non_space (c : ascii) : bool := negb (PyStr.is_space c).
Definition dot (c : ascii) : bool := negb (Ascii.eqb c "010").
Definition non_comma (c : ascii) : bool := negb (Ascii.eqb c ",").

End Re.

(** [LINE_RE.match(line)] with the groups [dev], [mp] and [fstype]. *)
Definition LINE_RE (line : string) : option (string * string * string) :=
  Re.plus_greedy Re.non_space (fun dev r1 =>
  Re.plus_greedy Re.space (fun _ r2 =>
  Re.lit "on" (fun r3 =>
  Re.plus_greedy Re.space (fun _ r4 =>
  Re.plus_lazy Re.dot (fun mp r5 =>
  Re.plus_greedy Re.space (fun _ r6 =>
  Re.lit "(" (fun r7 =>
  Re.plus_greedy Re.non_comma (fun fstype _ =>
    Some (dev, mp, fstype)) r7) r6) r5) r4) r3) r2) r1) line.

(** The first lines of the loop body of [get_rows]: the match and the three
    groups, the type in lower case; [None] is the [continue] of a line that
    does not match. *)
Definition parse_line (line : string) : option (string * string * string) :=
  match LINE_RE line with
  | None => None
  | Some (dev, mp, fstype) => Some (dev, mp, PyStr.lower fstype)
  end.

(** ** The operating system

    The program reads the machine through [subprocess.check_output],
    [os.path.exists] and [os.statvfs].  Their answers are not in the
    repository: they are the fields of an interface over an abstract world,
    which every call may change. *)

(** What [subprocess.check_output] does: the output of the command, the
    FileNotFoundError of a missing executable, or any other exception (a
    non-zero exit status, a permission or decoding error). *)
Inductive proc_result :=
  | Output (out : string)
  | NotFound
  | Failed.

(** The fields of [os.statvfs_result] the program reads.  They are the
    unsigned 64-bit counters of the C structure. *)
Definition u64 (z : Z) : bool := (0 <=? z) && (z <? 2 ^ 64).

Record statvfs_result := mkStatvfs {
  f_bsize : Z;
  f_frsize : Z;
  f_blocks : Z;
  f_bfree : Z;
  f_bavail : Z;
  f_fields_u64 :
    u64 f_bsize && u64 f_frsize && u64 f_blocks && u64 f_bfree && u64 f_bavail
    = true
}.

(** The values of a property list, as [plistlib.loads] builds them: [str],
    [int], [float], [bool], [bytes], [datetime], [plistlib.UID], [list] and
    [dict].  A [float] that is NaN or an infinity is [PReal None]; the
    entries of a dictionary are listed with their keys, a later entry
    replacing an earlier one of the same key. *)
#[warnings="-register-all"] Inductive plist_value :=
  | PString (s : string)
  | PInteger (n : Z)
  | PReal (x : option pyfloat)
  | PBoolean (b : bool)
  | PData (d : string)
  | PDate (t : Z)
  | PUid (n : Z)
  | PArray (items : list plist_value)
  | PDictionary (entries : list (string * plist_value)).

(** [bool(v)], the test of [v or ""]: an empty string, sequence or
    dictionary, 0, 0.0 and False are false. *)
Definition py_truthy (v : plist_value) : bool :=
  match v with
  | PString s => negb (s =? "")%string
  | PInteger n => negb (n =? 0)
  | PReal (Some x) => negb (fm x =? 0)
  | PReal None => true
  | PBoolean b => b
  | PData d => negb (d =? "")%string
  | PDate _ => true
  | PUid _ => true
  | PArray items => match items with [] => false | _ :: _ => true end
  | PDictionary entries => match entries with [] => false | _ :: _ => true end
  end.

(** [len(v)]; [None] is the TypeError of a value that has no length. *)
Definition py_len (v : plist_value) : option nat :=
  match v with
  | PString s => Some (String.length s)
  | PData d => Some (String.length d)
  | PArray items => Some (List.length items)
  | PDictionary entries => Some (List.length (remove_dups (map fst entries)))
  | PInteger _ | PReal _ | PBoolean _ | PDate _ | PUid _ => None
  end.

(** What [plistlib.loads] returns on the output of [diskutil info -plist]:
    a dictionary, or a value of another type, on which [info.get] raises
    AttributeError. *)
Inductive plist :=
  | PlistDict (info : gmap string plist_value)
  | PlistOther.

Class OS (World : Type) := {
  (** [subprocess.check_output(argv)] *)
  check_output : list string -> World -> proc_result * World;
  (** [os.path.exists(path)] *)
  path_exists : string -> World -> bool * World;
  (** [os.statvfs(path)]; [None] is an OSError *)
  os_statvfs : string -> World -> option statvfs_result * World;
  (** [plistlib.loads(data)]; [None] is any exception it raises *)
  plist_loads : string -> option plist
}.

(** Exceptions that leave a function: the FileNotFoundError of
    [check_output], any other exception of [check_output] (a
    CalledProcessError, say), the OverflowError of [float()], and the
    TypeError of [len] and of a format spec on a value that does not take
    them. *)
Inductive exn :=
  | FileNotFoundError
  | CalledProcessError
  | OverflowError
  | TypeError.

Inductive result (A : Type) :=
  | Ok (a : A)
  | Raise (e : exn).
Arguments Ok {A} a.
Arguments Raise {A} e.

(** One line of the table: the tuple [(dev, name, mp, size, used, avail,
    pct)].  The source annotates the label [name] as [str], and
    [volume_name] can return any value of a property list: the record leaves
    the type of the label open. *)
Record row_of (L : Type) := mkRow {
  r_dev : string;
  r_name : L;
  r_mp : string;
  r_size : Z;
  r_used : Z;
  r_avail : Z;
  r_pct : pyfloat
}.
Arguments mkRow {L} _ _ _ _ _ _ _.
Arguments r_dev {L} _.
Arguments r_name {L} _.
Arguments r_mp {L} _.
Arguments r_size {L} _.
Arguments r_used {L} _.
Arguments r_avail {L} _.
Arguments r_pct {L} _.

(** A row as the source annotates it, [Tuple[str, str, str, int, int, int,
    float]], and a row as [get_rows] builds it. *)
Definition row : Type := row_of string.
Definition raw_row : Type := row_of plist_value.

(** The numbers [statvfs_row] computes from the answer of [os.statvfs]. *)
Definition statvfs_numbers (s : statvfs_result) : Z * Z * Z * pyfloat :=
  let bs := if f_frsize s =? 0 then f_bsize s else f_frsize s in
  let size := f_blocks s * bs in
  let used := (f_blocks s - f_bfree s) * bs in
  let avail := f_bavail s * bs in
  let pct :=
    if size =? 0 then mkF 0 0
    else PyFloat.mul (PyFloat.int_truediv used size) (PyFloat.of_Z_exact 100) in
  (size, used, avail, pct).

Definition LOCAL_FS : gset string := {[ "apfs"; "hfs"; "hfs+" ]}.

(** [str.splitlines()]: the line boundaries among the code points below 256
    are LF, VT, FF, CR, FS, GS, RS and NEL, and CR LF is one boundary. *)
Definition is_linebreak (c : ascii) : bool :=
  let n := nat_of_ascii c in
  ((10 <=? n) && (n <=? 13))%nat || ((28 <=? n) && (n <=? 30))%nat
  || (n =? 133)%nat.

Fixpoint splitlines_from (cur s : string) : list string :=
  match s with
  | EmptyString => if (cur =? "")%string then [] else [cur]
  | String c s' =>
      if is_linebreak c then
        match s' with
        | String c' s'' =>
            if Ascii.eqb c "013" && Ascii.eqb c' "010"
            then cur :: splitlines_from "" s''
            else cur :: splitlines_from "" s'
        | EmptyString => cur :: splitlines_from "" s'
        end
      else splitlines_from (cur ++ String c "") s'
  end.

Definition splitlines (s : string) : list string := splitlines_from "" s.

(** [rows.sort(key=lambda r: r[2].lower())]: a stable sort on the key, here
    by insertion from the left; a row goes behind every row whose key is not
    greater. *)
Definition sort_key {L : Type} (r : row_of L) : string := PyStr.lower (r_mp r).

Fixpoint insert_row {L : Type} (r : row_of L) (l : list (row_of L)) : list (row_of L) :=
  match l with
  | [] => [r]
  | x :: l' =>
      if String.ltb (sort_key r) (sort_key x) then r :: x :: l'
      else x :: insert_row r l'
  end.

Definition sort_rows {L : Type} (l : list (row_of L)) : list (row_of L) :=
  fold_left (fun acc r => insert_row r acc) l [].

(** The two local variables of the loop of [get_rows]. *)
Record loop_state := mkState {
  rows : list raw_row;
  seen_mps : gset string
}.

(** The first state of the loop: [rows = []], [seen_mps = set()]. *)
Definition first_state : loop_state := mkState [] ∅.

Section Program.

Context {World : Type} `{OS World}.

(** [volume_name(dev)]: [info.get("VolumeName") or ""] is the entry itself
    when it is there and true, of whatever type it is, and the empty string
    otherwise; any exception gives the empty string. *)
Definition volume_name (dev : string) (w : World) : plist_value * World :=
  let (r, w') := check_output ["/usr/sbin/diskutil"; "info"; "-plist"; dev] w in
  (match r with
   | Output out =>
       match plist_loads out with
       | Some (PlistDict info) =>
           match info !! "VolumeName" with
           | Some v => if py_truthy v then v else PString ""
           | None => PString ""
           end
       | Some PlistOther => PString ""
       | None => PString ""
       end
   | NotFound => PString ""
   | Failed => PString ""
   end, w').

(** [statvfs_row(mp)]; [None] is the OSError of [os.statvfs]. *)
Definition statvfs_row (mp : string) (w : World)
    : option (Z * Z * Z * pyfloat) * World :=
  let (s, w') := os_statvfs mp w in
  (option_map statvfs_numbers s, w').

(** The body of [for line in mount_output.splitlines()]. *)
Definition process_line (line : string) (st : loop_state) (w : World)
    : loop_state * World :=
  match parse_line line with
  | None => (st, w)
  | Some (dev, mp, fstype) =>
      if negb (bool_decide (fstype ∈ LOCAL_FS)) then (st, w)
      else if negb (String.prefix "/" mp) then (st, w)
      else if String.prefix "/System/" mp then (st, w)
      else if String.prefix "/Volumes/.time" mp then (st, w)
      else
        let (there, w1) := path_exists mp w in
        if negb there then (st, w1)
        else if bool_decide (mp ∈ seen_mps st) then (st, w1)
        else
          let seen := {[ mp ]} ∪ seen_mps st in
          let (numbers, w2) := statvfs_row mp w1 in
          match numbers with
          | None => (mkState (rows st) seen, w2)
          | Some (size, used, avail, pct) =>
              let (name, w3) := volume_name dev w2 in
              (mkState (rows st ++ [mkRow dev name mp size used avail pct])%list seen,
               w3)
          end
  end.

Fixpoint for_lines (lines : list string) (st : loop_state) (w : World)
    : loop_state * World :=
  match lines with
  | [] => (st, w)
  | line :: lines' =>
      let (st', w') := process_line line st w in
      for_lines lines' st' w'
  end.

(** The loop and the sort of [get_rows], on the lines of the listing. *)
Definition rows_of_lines (lines : list string) (w : World)
    : list raw_row * World :=
  let (st, w') := for_lines lines first_state w in
  (sort_rows (rows st), w').

(** [get_rows()] *)
Definition get_rows (w : World) : result (list raw_row) * World :=
  let (first, w1) := check_output ["/sbin/mount"] w in
  let (mount, w2) :=
    match first with
    | NotFound => check_output ["mount"] w1
    | _ => (first, w1)
    end in
  match mount with
  | Output mount_output =>
      let (rs, w3) := rows_of_lines (splitlines mount_output) w2 in
      (Ok rs, w3)
  | NotFound => (Raise FileNotFoundError, w2)
  | Failed => (Raise CalledProcessError, w2)
  end.

End Program.

(** ** [main] *)

Definition column_width (title : string) (cap : nat) (cells : list string) : nat :=
  Nat.min (list_max (String.length title :: map String.length cells)) cap.

Definition header_line (dev_w name_w mp_w : nat) : string :=
  PyStr.ljust dev_w "Device" ++ "  " ++ PyStr.ljust name_w "Volume name" ++ "  "
  ++ PyStr.ljust mp_w "Mount" ++ "  "
  ++ PyStr.rjust 12 "Total" ++ "  " ++ PyStr.rjust 12 "Used" ++ "  "
  ++ PyStr.rjust 12 "Free" ++ "  " ++ PyStr.rjust 6 "Use%".

Definition sep_line (dev_w name_w mp_w : nat) : string :=
  PyStr.ljust dev_w (PyStr.repeat_char "-" dev_w) ++ "  "
  ++ PyStr.ljust name_w (PyStr.repeat_char "-" name_w) ++ "  "
  ++ PyStr.ljust mp_w (PyStr.repeat_char "-" mp_w) ++ "  "
  ++ PyStr.rjust 12 (PyStr.repeat_char "-" 12) ++ "  "
  ++ PyStr.rjust 12 (PyStr.repeat_char "-" 12) ++ "  "
  ++ PyStr.rjust 12 (PyStr.repeat_char "-" 12) ++ "  "
  ++ PyStr.rjust 6 (PyStr.repeat_char "-" 6).

(** What [main] asks of a label: [len(name)] for the width of the column
    and [f"{name[:name_w]:{name_w}}"] for the cell; [None] is a TypeError.
    A [str] gives both.  Of the other values of a property list, [bytes],
    [list] and [dict] have a length; none of them has the cell: the
    [__format__] of [bytes] and [list] refuses a format spec that is not
    empty, and a [dict] refuses the slice (with a KeyError from Python 3.12
    on, where a slice can be hashed). *)
Class Label (L : Type) := {
  label_len : L -> option nat;
  label_cell : nat -> L -> option string
}.

(** [f"{s[:w]:{w}}"] on a string. *)
Definition text_cell (w : nat) (s : string) : string :=
  PyStr.ljust w (PyStr.take w s).

#[export] Instance text_label : Label string := {|
  label_len s := Some (String.length s);
  label_cell w s := Some (text_cell w s)
|}.

#[export] Instance value_label : Label plist_value := {|
  label_len := py_len;
  label_cell w v := match v with PString s => Some (text_cell w s) | _ => None end
|}.

(** [[len(r[1]) for r in rows]]; [None] is the TypeError of the first
    label without a length. *)
Fixpoint label_lens {L : Type} `{Label L} (labels : list L) : option (list nat) :=
  match labels with
  | [] => Some []
  | x :: rest =>
      match label_len x with
      | None => None
      | Some n =>
          match label_lens rest with
          | None => None
          | Some ns => Some (n :: ns)
          end
      end
  end.

(** Lines 98 and 100 for the labels: the width of the second column. *)
Definition label_width {L : Type} `{Label L} (labels : list L) : option nat :=
  match label_lens labels with
  | None => None
  | Some lens => Some (Nat.min (list_max (String.length "Volume name" :: lens)) 24)
  end.

(** The three cells on the left of a table line. *)
Definition dev_cell {L : Type} (dev_w : nat) (r : row_of L) : string :=
  PyStr.ljust dev_w (r_dev r).
Definition name_cell (name_w : nat) (r : row) : string :=
  PyStr.ljust name_w (PyStr.take name_w (r_name r)).
Definition mp_cell {L : Type} (mp_w : nat) (r : row_of L) : string :=
  PyStr.ljust mp_w (PyStr.take mp_w (r_mp r)).

(** One table line, the f-string of line 115, its fields from left to
    right: the TypeError of the label comes before the OverflowError of
    [human]. *)
Definition row_line {L : Type} `{Label L} (dev_w name_w mp_w : nat) (r : row_of L)
    : result string :=
  match label_cell name_w (r_name r) with
  | None => Raise TypeError
  | Some name =>
      match human (r_size r), human (r_used r), human (r_avail r) with
      | Some size, Some used, Some avail =>
          Ok (dev_cell dev_w r ++ "  " ++ name ++ "  "
              ++ mp_cell mp_w r ++ "  "
              ++ PyStr.rjust 12 size ++ "  " ++ PyStr.rjust 12 used ++ "  "
              ++ PyStr.rjust 12 avail ++ "  "
              ++ PyStr.rjust 6 (PyFloat.format_1f (r_pct r)) ++ "%")
      | _, _, _ => Raise OverflowError
      end
  end.

(** The [for ... in rows: print(...)] loop: the lines printed, and whether
    the loop was left by an exception. *)
Fixpoint print_rows {L : Type} `{Label L} (dev_w name_w mp_w : nat) (rs : list (row_of L))
    : list string * option exn :=
  match rs with
  | [] => ([], None)
  | r :: rs' =>
      match row_line dev_w name_w mp_w r with
      | Raise e => ([], Some e)
      | Ok line =>
          let (out, e) := print_rows dev_w name_w mp_w rs' in
          (line :: out, e)
      end
  end.

(** The part of [main] after [rows = get_rows()]: the lines printed and the
    value returned.  The widths are computed before the first [print], so a
    label without a length leaves nothing printed. *)
Definition report {L : Type} `{Label L} (rs : list (row_of L)) : list string * result Z :=
  let dev_w := column_width "Device" 18 (map r_dev rs) in
  match label_width (map r_name rs) with
  | None => ([], Raise TypeError)
  | Some name_w =>
      let mp_w := column_width "Mount" 40 (map r_mp rs) in
      let (body, e) := print_rows dev_w name_w mp_w rs in
      let table := header_line dev_w name_w mp_w :: sep_line dev_w name_w mp_w :: body in
      match e with
      | Some e => (table, Raise e)
      | None =>
          ((table ++ match rs with
                     | [] => ["(no local APFS/HFS mounts found)"]
                     | _ :: _ => []
                     end)%list,
           Ok 0)
      end
  end.

Section Main.

Context {World : Type} `{OS World}.

(** [main()] *)
Definition main (w : World) : (list string * result Z) * World :=
  let (rs, w') := get_rows w in
  match rs with
  | Raise e => (([], Raise e), w')
  | Ok rs => (report rs, w')
  end.

(** [sys.exit(main())]: the lines on standard output and the exit status
    of the process; an exception that nothing catches ends it with
    status 1. *)
Definition program (w : World) : (list string * Z) * World :=
  let '((out, r), w') := main w in
  match r with
  | Ok status => ((out, status), w')
  | Raise _ => ((out, 1), w')
  end.

End Main.

(** Machines to run the program on.  The world counts the calls of
    [os.statvfs] made so far; the listing is fixed text, every path exists
    and [diskutil] is not installed.  On [machine] every call of
    [os.statvfs] succeeds; on [flaky] the first one fails. *)
Module Example.

Definition stat1 : statvfs_result := mkStatvfs 4096 4096 1000 250 200 eq_refl.

Definition mount_only (text : string) (argv : list string) : proc_result :=
  match argv with
  | [prog] => if (prog =? "/sbin/mount")%string then Output text else NotFound
  | _ => NotFound
  end.

Definition machine (text : string) : OS nat := {|
  check_output argv w := (mount_only text argv, w);
  path_exists _ w := (true, w);
  os_statvfs _ w := (Some stat1, S w);
  plist_loads _ := None
|}.

Definition flaky (text : string) : OS nat := {|
  check_output argv w := (mount_only text argv, w);
  path_exists _ w := (true, w);
  os_statvfs _ w := (match w with O => None | S _ => Some stat1 end, S w);
  plist_loads _ := None
|}.

(** A machine on which [diskutil] answers, for every device, with a
    property list whose [VolumeName] is the integer 7:
    [<dict><key>VolumeName</key><integer>7</integer></dict>]. *)
Definition mount_and_diskutil (text : string) (argv : list string) : proc_result :=
  match argv with
  | [prog] => if (prog =? "/sbin/mount")%string then Output text else NotFound
  | prog :: _ => if (prog =? "/usr/sbin/diskutil")%string then Output "plist" else NotFound
  | [] => NotFound
  end.

Definition odd_label (text : string) : OS nat := {|
  check_output argv w := (mount_and_diskutil text argv, w);
  path_exists _ w := (true, w);
  os_statvfs _ w := (Some stat1, S w);
  plist_loads _ := Some (PlistDict {[ "VolumeName" := PInteger 7 ]})
|}.

(** A machine without [mount]. *)
Definition no_mount : OS nat := {|
  check_output _ w := (NotFound, w);
  path_exists _ w := (true, w);
  os_statvfs _ w := (Some stat1, S w);
  plist_loads _ := None
|}.

Definition line_root : string :=
  "/dev/disk3s1s1 on / (apfs, sealed, local, read-only, journaled)".
Definition line_data : string :=
  "/dev/disk4s2 on /Volumes/Data (hfs, local, nodev, nosuid, journaled)".
Definition line_vm : string :=
  "/dev/disk3s6 on /System/Volumes/VM (apfs, local, noexec, journaled, noatime, nobrowse)".
Definition line_data_again : string :=
  "/dev/disk7s1 on /Volumes/Data (apfs, local, journaled)".
Definition line_data_nfs : string :=
  "server:/export on /Volumes/Data (nfs, nodev, nosuid)".

(** Two mounts whose order depends on the case of a letter, and their
    listing with [/Volumes/C] first. *)
Definition line_upper : string :=
  "/dev/disk5s1 on /Volumes/C (apfs, local, journaled)".
Definition line_lower : string :=
  "/dev/disk6s1 on /Volumes/b (hfs, local, journaled)".
Definition listing_case : string :=
  line_upper ++ String "010" (line_lower ++ String "010" "").

(** An answer of [os.statvfs] with more free blocks than blocks. *)
Definition stat_overfree : statvfs_result := mkStatvfs 4096 4096 1 2 0 eq_refl.

(** A row of a snapshot mount: its device name has 43 characters. *)
Definition row_snapshot : row :=
  mkRow "com.apple.os.update-0123456789@/dev/disk3s1" "Macintosh HD" "/Volumes/Update"
        4096000 3072000 819200 (mkF 75 0).

(** The line of that mount in the listing. *)
Definition line_snapshot : string :=
  "com.apple.os.update-0123456789@/dev/disk3s1 on /Volumes/Update (apfs, local, journaled)".

(** The listing of the end-to-end scenario, one entry per line. *)
Definition listing : string :=
  line_data ++ String "010" (line_vm ++ String "010" (line_root ++ String "010" "")).

End Example.


(** ** Vocabulary of the statements *)

(** The float [x] holds [v / 1024 ^ j]. *)
Definition scaled_value (x : pyfloat) (v j : Z) : Prop :=
  PyFloat.num x * 1024 ^ j = v * PyFloat.den x.

(** The order of the sort: [a] may stand before [b]. *)
Definition key_le {L : Type} (a b : row_of L) : Prop :=
  String.ltb (sort_key b) (sort_key a) = false.

(** The order the spec asks for, in its own words: ascending by mount path
    under a comparison that does not regard case.  [a] may stand before [b]
    when the lower-case form of [a] is at most that of [b] in the order of
    strings (code point by code point, a proper prefix first). *)
Definition caseless_le (a b : string) : Prop :=
  String.leb (PyStr.lower a) (PyStr.lower b) = true.

(** The numbers of a row are those of some answer of [os.statvfs]. *)
Definition row_numbers_ok {L : Type} (r : row_of L) : Prop :=
  exists s, (r_size r, r_used r, r_avail r, r_pct r) = statvfs_numbers s.

(** What one turn of the loop of [get_rows] can do to its two variables:
    nothing, record the mount path only, or record it and append a row. *)
Inductive turn (line : string) (st st' : loop_state) : Prop :=
  | turn_skip : st' = st -> turn line st st'
  | turn_seen (dev mp fs : string) :
      parse_line line = Some (dev, mp, fs) ->
      mp ∉ seen_mps st ->
      rows st' = rows st ->
      seen_mps st' = {[ mp ]} ∪ seen_mps st ->
      turn line st st'
  | turn_row (dev mp fs : string) (r : raw_row) :
      parse_line line = Some (dev, mp, fs) ->
      mp ∉ seen_mps st ->
      rows st' = (rows st ++ [r])%list ->
      seen_mps st' = {[ mp ]} ∪ seen_mps st ->
      r_dev r = dev -> r_mp r = mp ->
      row_numbers_ok r ->
      turn line st st'.

(** The invariant of the loop: every row's mount path is in [seen_mps], no
    two rows share a mount path, and the numbers come from [os.statvfs]. *)
Definition loop_inv (st : loop_state) : Prop :=
  (forall r, In r (rows st) -> r_mp r ∈ seen_mps st)
  /\ NoDup (map r_mp (rows st))
  /\ Forall row_numbers_ok (rows st).

(** The four tests of the loop on the parsed fields: the type is a local
    one, and the mount path is absolute and outside the two hidden trees. *)
Definition passes_filters (mp fs : string) : bool :=
  bool_decide (fs ∈ LOCAL_FS)
  && String.prefix "/" mp
  && negb (String.prefix "/System/" mp)
  && negb (String.prefix "/Volumes/.time" mp).

(** The ways the label lookup of [volume_name] fails: [diskutil] is missing
    or exits with an error, its output is no property list, the property
    list is no dictionary, or the dictionary has no [VolumeName] or one that
    [or] takes for false (an empty string, 0, an empty list). *)
Definition label_lookup_fails {World : Type} `{OS World}
    (dev : string) (w : World) : Prop :=
  match fst (check_output ["/usr/sbin/diskutil"; "info"; "-plist"; dev] w) with
  | Output out =>
      match plist_loads out with
      | Some (PlistDict info) =>
          match info !! "VolumeName" with
          | None => True
          | Some v => py_truthy v = false
          end
      | Some PlistOther => True
      | None => True
      end
  | NotFound => True
  | Failed => True
  end.

(** The label is a [str]. *)
Definition is_text (v : plist_value) : bool :=
  match v with
  | PString _ => true
  | _ => false
  end.

(** The run of a character class ends at [s]: [s] is empty or starts with a
    character outside the class. *)
Definition stops (p : ascii -> bool) (s : string) : Prop :=
  match s with
  | EmptyString => True
  | String c _ => p c = false
  end.

(** [s] without the white space it starts with. *)
Fixpoint skip_spaces (s : string) : string :=
  match s with
  | EmptyString => EmptyString
  | String c s' => if PyStr.is_space c then skip_spaces s' else s
  end.

(** [s] reads white space, an opening parenthesis and a character other than
    a comma: the place where the pattern ends the mount path. *)
Definition paren_follows (s : string) : bool :=
  match s with
  | EmptyString => false
  | String c s' =>
      PyStr.is_space c &&
      match skip_spaces s' with
      | String c1 (String c2 _) => Ascii.eqb c1 "(" && negb (Ascii.eqb c2 ",")
      | _ => false
      end
  end.

(** A mount path can be read at the start of [s]: a text without a line
    feed, not empty, behind which [paren_follows]. *)
Definition mount_path_at (s : string) : Prop :=
  exists m q : string,
    s = m ++ q /\ m <> "" /\ PyStr.all_chars Re.dot m = true /\ paren_follows q = true.

(** The lines [LINE_RE] matches, with the three groups of the match: device,
    white space, [on], white space, mount path, white space, an opening
    parenthesis and the type, which ends at a comma or at the end of the
    line.  The mount path is the shortest that [paren_follows]; and it
    starts behind all the white space that follows [on], or, where no mount
    path can be read from there, at the last character of that white space
    from which one can. *)
Inductive mount_line : string -> string -> string -> string -> Prop :=
  | mount_line_intro (dev ws1 ws2 mp ws3 fs rest : string) :
      dev <> "" -> PyStr.all_chars Re.non_space dev = true ->
      ws1 <> "" -> PyStr.all_chars Re.space ws1 = true ->
      ws2 <> "" -> PyStr.all_chars Re.space ws2 = true ->
      mp <> "" -> PyStr.all_chars Re.dot mp = true ->
      ws3 <> "" -> PyStr.all_chars Re.space ws3 = true ->
      fs <> "" -> PyStr.all_chars Re.non_comma fs = true ->
      stops Re.non_comma rest ->
      (forall p q : string, mp = p ++ q -> p <> "" -> q <> "" ->
         paren_follows (q ++ ws3 ++ "(" ++ fs ++ rest) = false) ->
      (forall u v : string, mp ++ ws3 ++ "(" ++ fs ++ rest = u ++ v ->
         u <> "" -> PyStr.all_chars Re.space u = true -> ~ mount_path_at v) ->
      mount_line (dev ++ ws1 ++ "on" ++ ws2 ++ mp ++ ws3 ++ "(" ++ fs ++ rest)
                 dev mp fs.

(** [s] before its first [" ("]. *)
Fixpoint before_paren (s : string) : string :=
  match s with
  | EmptyString => EmptyString
  | String c s' =>
      if Ascii.eqb c " "
         && match s' with
            | String c' _ => Ascii.eqb c' "("
            | EmptyString => false
            end
      then EmptyString
      else String c (before_paren s')
  end.

(** The mount listing [get_rows] obtains: the output of [/sbin/mount], or of
    [mount] when [/sbin/mount] is not there; [None] when the call fails. *)
Definition mount_listing {World : Type} `{OS World} (w : World) : option string :=
  let (first, w1) := check_output ["/sbin/mount"] w in
  match first with
  | Output out => Some out
  | NotFound =>
      match fst (check_output ["mount"] w1) with
      | Output out => Some out
      | NotFound => None
      | Failed => None
      end
  | Failed => None
  end.

(** The part of [LINE_RE] behind the mount path: [\s+\((?P<fstype>[^,]+)],
    with the device and the mount path already matched. *)
Definition after_mp (dev mp : string) (s : string) : option (string * string * string) :=
  Re.plus_greedy Re.space (fun _ r6 =>
  Re.lit "(" (fun r7 =>
  Re.plus_greedy Re.non_comma (fun fstype _ =>
    Some (dev, mp, fstype)) r7) r6) s.

(** The float [x] is the rational [n / d], for [0 <= n] and [0 < d], up to a
    relative error of [2 ^ (- bits)]. *)
Definition close_to (x : pyfloat) (n d bits : Z) : Prop :=
  2 ^ bits * Z.abs (PyFloat.num x * d - n * PyFloat.den x) <= n * PyFloat.den x.


(** ** Vocabulary of the further properties *)

(** The line does not get past the tests on the parsed fields: it does not
    match [LINE_RE], or one of the four tests of [passes_filters] fails. *)
Definition rejected (line : string) : bool :=
  match parse_line line with
  | None => true
  | Some (_, mp, fs) => negb (passes_filters mp fs)
  end.

(** Where a row comes from: device and mount path are two groups of the
    match of [line], the type and the mount path pass the four tests, and
    there is a world in which [os.path.exists] answered yes, [os.statvfs]
    then gave the numbers of the row and [volume_name] then gave its
    label. *)
Definition row_of_line {World : Type} `{OS World} (line : string) (r : raw_row) : Prop :=
  exists (fs : string) (w0 : World) (s : statvfs_result),
    let w1 := snd (path_exists (r_mp r) w0) in
    let w2 := snd (os_statvfs (r_mp r) w1) in
    parse_line line = Some (r_dev r, r_mp r, fs)
    /\ fs ∈ LOCAL_FS
    /\ String.prefix "/" (r_mp r) = true
    /\ String.prefix "/System/" (r_mp r) = false
    /\ String.prefix "/Volumes/.time" (r_mp r) = false
    /\ fst (path_exists (r_mp r) w0) = true
    /\ fst (os_statvfs (r_mp r) w1) = Some s
    /\ (r_size r, r_used r, r_avail r, r_pct r) = statvfs_numbers s
    /\ r_name r = fst (volume_name (r_dev r) w2).

(** The rows of a list with the sort key [k], in the order of the list. *)
Definition with_key {L : Type} (k : string) (l : list (row_of L)) : list (row_of L) :=
  List.filter (fun r => (sort_key r =? k)%string) l.


(** The block size [statvfs_row] counts in: [s.f_frsize or s.f_bsize]. *)
Definition block_size (s : statvfs_result) : Z :=
  if f_frsize s =? 0 then f_bsize s else f_frsize s.

(** The percentage among the numbers of [statvfs_row]. *)
Definition percent_of (s : statvfs_result) : pyfloat :=
  let '(_, _, _, pct) := statvfs_numbers s in pct.

(** The text whose lines are [lines], each one closed by a line feed: what
    [mount] writes. *)
Definition text_of_lines (lines : list string) : string :=
  fold_right (fun l acc => l ++ String "010" acc) "" lines.

(** A character that is no line boundary of [str.splitlines]. *)
Definition no_break (c : ascii) : bool := negb (is_linebreak c).

(** The rows the print loop of [main] gets through before the first label
    that is no string. *)
Fixpoint rows_before_error (rs : list raw_row) : nat :=
  match rs with
  | [] => 0%nat
  | r :: rs' => if is_text (r_name r) then S (rows_before_error rs') else 0%nat
  end.

(** A row with a string for its label, as [get_rows] holds it. *)
Definition as_raw (r : row) : raw_row :=
  mkRow (r_dev r) (PString (r_name r)) (r_mp r) (r_size r) (r_used r) (r_avail r) (r_pct r).


(** * Rounding and [human] *)

(** Case analysis on the first [if] of the goal. *)
Ltac break_if :=
  match goal with
  | |- context [if ?b then _ else _] => destruct b eqn:?
  end.

Module PyFloatFacts.
Import PyFloat.

Lemma round_half_even_bounds n d : 0 < d -> n / d <= round_half_even n d <= n / d + 1.
Proof. intros Hd. unfold round_half_even. repeat break_if; lia. Qed.

Lemma round_half_even_le n d N : 0 < d -> n <= N * d -> round_half_even n d <= N.
Proof.
  intros Hd Hn. unfold round_half_even.
  pose proof (Z.div_mod n d ltac:(lia)) as E.
  pose proof (Z.mod_pos_bound n d Hd) as B.
  assert (n / d <= N) by (apply Z.div_le_upper_bound; lia).
  destruct (Z.eq_dec (n / d) N) as [Heq|].
  - rewrite Heq in *. rewrite (Z.mul_comm N d) in Hn.
    assert (Hr : n mod d = 0) by lia.
    rewrite Hr. replace (2 * 0 <? d) with true by (symmetry; apply Z.ltb_lt; lia). lia.
  - repeat break_if; lia.
Qed.

Lemma round_half_even_ge n d N : 0 < d -> N * d <= n -> N <= round_half_even n d.
Proof.
  intros Hd Hn.
  assert (N <= n / d) by (apply Z.div_le_lower_bound; lia).
  pose proof (round_half_even_bounds n d Hd). lia.
Qed.

Lemma round_half_even_exact n : round_half_even n 1 = n.
Proof.
  unfold round_half_even. rewrite Z.div_1_r, Z.mod_1_r. reflexivity.
Qed.

Lemma round_half_even_scale c n d : 0 < c -> 0 < d ->
  round_half_even (c * n) (c * d) = round_half_even n d.
Proof.
  intros Hc Hd. unfold round_half_even.
  rewrite Z.div_mul_cancel_l by lia.
  rewrite Z.mul_mod_distr_l by lia.
  replace (2 * (c * (n mod d)) <? c * d) with (2 * (n mod d) <? d).
  2:{ apply Bool.eq_true_iff_eq. rewrite !Z.ltb_lt. nia. }
  replace (c * d <? 2 * (c * (n mod d))) with (d <? 2 * (n mod d)).
  2:{ apply Bool.eq_true_iff_eq. rewrite !Z.ltb_lt. nia. }
  reflexivity.
Qed.

Lemma pow2_pos e : 0 < pow2 e.
Proof. unfold pow2. apply Z.pow_pos_nonneg; lia. Qed.

Lemma pow2_of_nonneg e : 0 <= e -> pow2 e = 2 ^ e.
Proof. intros. unfold pow2. rewrite Z.max_r by lia. reflexivity. Qed.

Lemma pow2_of_nonpos e : e <= 0 -> pow2 e = 1.
Proof. intros. unfold pow2. rewrite Z.max_l by lia. reflexivity. Qed.

(** 2^f / 2^e = 2^(f-e), without fractions *)
Lemma pow2_shift e f : e <= f ->
  pow2 f * pow2 (- e) = 2 ^ (f - e) * (pow2 e * pow2 (- f)).
Proof.
  intros Hef.
  destruct (Z.le_gt_cases 0 e); destruct (Z.le_gt_cases 0 f).
  - rewrite (pow2_of_nonneg e), (pow2_of_nonneg f), !pow2_of_nonpos by lia.
    rewrite ?Z.mul_1_r, ?Z.mul_1_l, <- Z.pow_add_r by lia. f_equal; lia.
  - lia.
  - rewrite (pow2_of_nonneg f), (pow2_of_nonneg (- e)), (pow2_of_nonpos e), (pow2_of_nonpos (- f)) by lia.
    rewrite ?Z.mul_1_r, ?Z.mul_1_l, <- Z.pow_add_r by lia. f_equal; lia.
  - rewrite (pow2_of_nonpos f), (pow2_of_nonneg (- e)), (pow2_of_nonpos e), (pow2_of_nonneg (- f)) by lia.
    rewrite ?Z.mul_1_r, ?Z.mul_1_l, <- Z.pow_add_r by lia. f_equal; lia.
Qed.

(** 2^x / 2^y as a quotient of two halves *)
Lemma pow2_quotient x y : 0 <= x -> 0 <= y ->
  2 ^ x * pow2 (- (x - y)) = 2 ^ y * pow2 (x - y).
Proof.
  intros Hx Hy.
  destruct (Z.le_gt_cases y x).
  - rewrite (pow2_of_nonneg (x - y)), pow2_of_nonpos by lia.
    rewrite ?Z.mul_1_r, <- Z.pow_add_r by lia. f_equal; lia.
  - rewrite (pow2_of_nonpos (x - y)), pow2_of_nonneg by lia.
    rewrite ?Z.mul_1_r, <- Z.pow_add_r by lia. f_equal; lia.
Qed.

Lemma ilog2_lower a d : 0 < a -> 0 < d ->
  d * pow2 (ilog2 a d) <= a * pow2 (- ilog2 a d).
Proof.
  intros Ha Hd. unfold ilog2.
  destruct (Z.leb_spec (d * pow2 (Z.log2 a - Z.log2 d))
                       (a * pow2 (- (Z.log2 a - Z.log2 d)))) as [Hle|Hgt]; [exact Hle|].
  pose proof (Z.log2_spec a Ha) as [La _].
  pose proof (Z.log2_spec d Hd) as [_ Ud].
  pose proof (Z.log2_nonneg a). pose proof (Z.log2_nonneg d).
  pose proof (pow2_quotient (Z.log2 a) (Z.succ (Z.log2 d)) ltac:(lia) ltac:(lia)) as E.
  replace (Z.log2 a - Z.succ (Z.log2 d)) with (Z.log2 a - Z.log2 d - 1) in E by lia.
  pose proof (pow2_pos (Z.log2 a - Z.log2 d - 1)).
  pose proof (pow2_pos (- (Z.log2 a - Z.log2 d - 1))).
  nia.
Qed.

Lemma ilog2_upper a d : 0 < a -> 0 < d ->
  a * pow2 (- (ilog2 a d + 1)) < d * pow2 (ilog2 a d + 1).
Proof.
  intros Ha Hd. unfold ilog2.
  destruct (Z.leb_spec (d * pow2 (Z.log2 a - Z.log2 d))
                       (a * pow2 (- (Z.log2 a - Z.log2 d)))) as [Hle|Hgt].
  - pose proof (Z.log2_spec a Ha) as [_ Ua].
    pose proof (Z.log2_spec d Hd) as [Ld _].
    pose proof (Z.log2_nonneg a). pose proof (Z.log2_nonneg d).
    pose proof (pow2_quotient (Z.succ (Z.log2 a)) (Z.log2 d) ltac:(lia) ltac:(lia)) as E.
    replace (Z.succ (Z.log2 a) - Z.log2 d) with (Z.log2 a - Z.log2 d + 1) in E by lia.
    pose proof (pow2_pos (Z.log2 a - Z.log2 d + 1)).
    pose proof (pow2_pos (- (Z.log2 a - Z.log2 d + 1))).
    nia.
  - replace (Z.log2 a - Z.log2 d - 1 + 1) with (Z.log2 a - Z.log2 d) by lia. exact Hgt.
Qed.


Lemma scaled_nonneg a d e : 0 <= a -> 0 < d -> 0 <= scaled a d e.
Proof.
  intros Ha Hd. unfold scaled.
  pose proof (pow2_pos e). pose proof (pow2_pos (- e)).
  apply (round_half_even_ge _ _ 0); nia.
Qed.

Lemma round53_nonneg n d : 0 <= n -> 0 < d -> 0 <= fm (round53 n d).
Proof.
  intros Hn Hd. unfold round53.
  destruct (Z.eqb_spec n 0) as [|Hne]; [simpl; lia|]. simpl.
  pose proof (scaled_nonneg (Z.abs n) d (ilog2 (Z.abs n) d - 52) ltac:(lia) Hd).
  rewrite Z.sgn_pos by lia. lia.
Qed.

(** Rounding never crosses an integer of at most 53 bits. *)
Lemma round53_le_int n d C : 0 < d -> 0 < C < 2 ^ 53 -> n <= C * d ->
  num (round53 n d) <= C * den (round53 n d).
Proof.
  intros Hd HC Hn. unfold round53.
  destruct (Z.eqb_spec n 0) as [|Hne].
  { unfold num, den; cbn [fm fe]. change (pow2 (- 0)) with 1. lia. }
  unfold num, den; cbn [fm fe].
  destruct (Z.lt_trichotomy n 0) as [Hneg|[?|Hpos]]; [|lia|].
  - set (k := ilog2 (Z.abs n) d).
    pose proof (pow2_pos (k - 52)) as P1. pose proof (pow2_pos (- (k - 52))) as P2.
    pose proof (scaled_nonneg (Z.abs n) d (k - 52) ltac:(lia) Hd) as Hs.
    rewrite Z.sgn_neg by lia.
    pose proof (Z.mul_nonneg_nonneg _ _ Hs (Z.lt_le_incl _ _ P1)).
    assert (0 <= C * pow2 (- (k - 52))) by (apply Z.mul_nonneg_nonneg; lia).
    lia.
  - rewrite Z.sgn_pos, Z.abs_eq by lia.
    set (k := ilog2 n d).
    pose proof (pow2_pos (k - 52)) as P1. pose proof (pow2_pos (- (k - 52))) as P2.
    pose proof (ilog2_lower n d Hpos Hd) as L. fold k in L.
    assert (Hk : k < 53).
    { destruct (Z.lt_ge_cases k 53) as [|Hge]; [assumption|exfalso].
      rewrite (pow2_of_nonneg k), (pow2_of_nonpos (- k)) in L by lia.
      assert (2 ^ 53 <= 2 ^ k) by (apply Z.pow_le_mono_r; lia).
      nia. }
    unfold scaled. rewrite (pow2_of_nonpos (k - 52)) by lia.
    rewrite !Z.mul_1_l, !Z.mul_1_r.
    apply round_half_even_le; [assumption|]. nia.
Qed.

Lemma ilog2_int n : 0 < n -> ilog2 n 1 = Z.log2 n.
Proof.
  intros Hn. unfold ilog2. change (Z.log2 1) with 0. rewrite Z.sub_0_r.
  pose proof (Z.log2_nonneg n). pose proof (Z.log2_spec n Hn) as [L _].
  rewrite pow2_of_nonneg, pow2_of_nonpos by lia.
  destruct (Z.leb_spec (1 * 2 ^ Z.log2 n) (n * 1)); lia.
Qed.

(** [float(n)] of a natural number below 2^1023: an integer [v], which is
    [n] itself below 2^53 and stays at or above 2^53 otherwise. *)
Lemma float_of_int_value n : 0 <= n < 2 ^ 1023 ->
  exists x v, float_of_int n = Some x /\ num x = v * den x /\ 0 <= v /\
    (n < 2 ^ 53 -> v = n) /\ (2 ^ 53 <= n -> 2 ^ 53 <= v).
Proof.
  intros [Hn0 Hn1]. unfold float_of_int, round53.
  destruct (Z.eqb_spec n 0) as [->|Hne].
  { exists (mkF 0 0), 0. cbn. repeat split; try lia. }
  assert (Hpos : 0 < n) by lia.
  rewrite ilog2_int, Z.sgn_pos, Z.abs_eq, Z.mul_1_l by lia.
  pose proof (Z.log2_spec n Hpos) as [L U].
  pose proof (Z.log2_nonneg n) as Hl.
  set (l := Z.log2 n) in *.
  unfold scaled. rewrite Z.mul_1_l.
  destruct (Z.le_gt_cases l 52) as [Hsmall|Hbig].
  - (* below 2^53: exact *)
    rewrite (pow2_of_nonpos (l - 52)), (pow2_of_nonneg (- (l - 52))) by lia.
    rewrite round_half_even_exact.
    assert (Hlt : n < 2 ^ 53).
    { assert (2 ^ Z.succ l <= 2 ^ 53) by (apply Z.pow_le_mono_r; lia). lia. }
    pose proof (Z.pow_pos_nonneg 2 (- (l - 52)) ltac:(lia) ltac:(lia)) as Pp.
    assert (E : 2 ^ 1024 = 2 ^ 53 * 2 ^ 971) by (rewrite <- Z.pow_add_r by lia; reflexivity).
    assert (0 < 2 ^ 971) by (apply Z.pow_pos_nonneg; lia).
    unfold num, den. cbn [fm fe].
    rewrite (pow2_of_nonpos (l - 52)), (pow2_of_nonneg (- (l - 52))) by lia.
    rewrite Z.mul_1_r.
    destruct (Z.leb_spec (2 ^ 1024 * 2 ^ (- (l - 52))) (Z.abs (n * 2 ^ (- (l - 52))))) as [Hov|_].
    { exfalso. rewrite Z.abs_eq in Hov by nia. nia. }
    eexists _, n. split; [reflexivity|]. cbn [fm fe].
    rewrite (pow2_of_nonpos (l - 52)), (pow2_of_nonneg (- (l - 52))) by lia.
    repeat split; try lia.
  - (* from 2^53 on: a multiple of 2^(l-52) *)
    rewrite (pow2_of_nonneg (l - 52)), (pow2_of_nonpos (- (l - 52))) by lia.
    rewrite Z.mul_1_r.
    pose proof (Z.pow_pos_nonneg 2 (l - 52) ltac:(lia) ltac:(lia)) as Pp.
    assert (E1 : 2 ^ l = 2 ^ 52 * 2 ^ (l - 52)).
    { rewrite <- Z.pow_add_r by lia. f_equal. lia. }
    assert (E2 : 2 ^ Z.succ l = 2 ^ 53 * 2 ^ (l - 52)).
    { rewrite <- Z.pow_add_r by lia. f_equal. lia. }
    pose proof (round_half_even_ge n (2 ^ (l - 52)) (2 ^ 52) Pp ltac:(lia)) as Glo.
    pose proof (round_half_even_le n (2 ^ (l - 52)) (2 ^ 53) Pp ltac:(lia)) as Ghi.
    set (m := round_half_even n (2 ^ (l - 52))) in *.
    assert (Hl1 : l <= 1022).
    { destruct (Z.le_gt_cases l 1022); [assumption|exfalso].
      assert (2 ^ 1023 <= 2 ^ l) by (apply Z.pow_le_mono_r; lia). lia. }
    assert (Hup : 2 ^ (l - 52) <= 2 ^ 970) by (apply Z.pow_le_mono_r; lia).
    assert (E : 2 ^ 1024 = 2 ^ 54 * 2 ^ 970) by (rewrite <- Z.pow_add_r by lia; reflexivity).
    assert (Hlo : 2 ^ 1 <= 2 ^ (l - 52)) by (apply Z.pow_le_mono_r; lia).
    unfold num, den. cbn [fm fe].
    rewrite (pow2_of_nonneg (l - 52)), (pow2_of_nonpos (- (l - 52))) by lia.
    destruct (Z.leb_spec (2 ^ 1024 * 1) (Z.abs (m * 2 ^ (l - 52)))) as [Hov|_].
    { exfalso. rewrite Z.abs_eq in Hov by nia.
      assert (m * 2 ^ (l - 52) <= 2 ^ 53 * 2 ^ 970) by (apply Z.mul_le_mono_nonneg; lia).
      assert (0 < 2 ^ 970) by (apply Z.pow_pos_nonneg; lia). change (2^54) with (2 * 2^53) in E. nia. }
    eexists _, (m * 2 ^ (l - 52)). split; [reflexivity|]. cbn [fm fe].
    rewrite (pow2_of_nonneg (l - 52)), (pow2_of_nonpos (- (l - 52))) by lia.
    assert (2 ^ 53 <= n).
    { assert (2 ^ 53 <= 2 ^ l) by (apply Z.pow_le_mono_r; lia). lia. }
    change (2 ^ 1) with 2 in Hlo.
    repeat split; try lia; try nia.
Qed.



Lemma div1024_value x v j : 0 <= j ->
  scaled_value x v j -> scaled_value (div1024 x) v (j + 1).
Proof.
  unfold scaled_value, div1024, num, den. cbn [fm fe]. intros Hj E.
  pose proof (pow2_shift (fe x - 10) (fe x) ltac:(lia)) as S.
  replace (fe x - (fe x - 10)) with 10 in S by lia.
  pose proof (pow2_pos (- fe x)) as P.
  rewrite Z.pow_add_r by lia. change (1024 ^ 1) with (2 ^ 10).
  apply (Z.mul_reg_r _ _ (pow2 (- fe x))); [lia|].
  transitivity (fm x * (2 ^ 10 * (pow2 (fe x - 10) * pow2 (- fe x))) * 1024 ^ j); [ring|].
  rewrite <- S.
  transitivity (fm x * pow2 (fe x) * 1024 ^ j * pow2 (- (fe x - 10))); [ring|].
  rewrite E. ring.
Qed.

Lemma ltb_value x v j : 0 <= j -> scaled_value x v j ->
  ltb x (of_Z_exact 1024) = (v <? 1024 ^ (j + 1)).
Proof.
  unfold scaled_value, ltb. intros Hj E.
  change (den (of_Z_exact 1024)) with 1. change (num (of_Z_exact 1024)) with 1024.
  assert (P : 0 < den x) by apply pow2_pos.
  assert (Q : 0 < 1024 ^ j) by (apply Z.pow_pos_nonneg; lia).
  rewrite Z.pow_add_r by lia. change (1024 ^ 1) with 1024.
  rewrite Z.mul_1_r.
  apply Bool.eq_true_iff_eq. rewrite !Z.ltb_lt. split; intros Hlt.
  - apply (Z.mul_lt_mono_pos_r (den x)); [assumption|]. rewrite <- E. nia.
  - apply (Z.mul_lt_mono_pos_r (1024 ^ j)); [assumption|]. rewrite E. nia.
Qed.

Lemma tenths_value x v j : 0 <= j -> 0 <= v -> scaled_value x v j ->
  tenths x = round_half_even (10 * v) (1024 ^ j).
Proof.
  unfold scaled_value, tenths. intros Hj Hv E.
  assert (P : 0 < den x) by apply pow2_pos.
  assert (Q : 0 < 1024 ^ j) by (apply Z.pow_pos_nonneg; lia).
  assert (0 <= num x) by nia.
  rewrite Z.abs_eq by assumption.
  rewrite <- (round_half_even_scale (1024 ^ j) (10 * num x) (den x)) by assumption.
  rewrite <- (round_half_even_scale (den x) (10 * v) (1024 ^ j)) by assumption.
  f_equal; [|ring].
  transitivity (10 * (num x * 1024 ^ j)); [ring|]. rewrite E. ring.
Qed.

Lemma to_int_value x v : scaled_value x v 0 -> to_int x = v.
Proof.
  unfold scaled_value, to_int. intros E. rewrite Z.mul_1_r in E.
  rewrite E. apply Z.quot_mul. pose proof (pow2_pos (- fe x)). unfold den. lia.
Qed.

Lemma round53_opp n d : n <> 0 ->
  round53 (- n) d = mkF (- fm (round53 n d)) (fe (round53 n d)).
Proof.
  intros Hn. unfold round53.
  destruct (Z.eqb_spec n 0); [contradiction|]. destruct (Z.eqb_spec (- n) 0); [lia|].
  cbn [fm fe]. rewrite Z.abs_opp, Z.sgn_opp. f_equal. ring.
Qed.

(** [float()] does not overflow below 2^1023, on either side of 0. *)
Lemma float_of_int_some n : Z.abs n < 2 ^ 1023 -> exists x, float_of_int n = Some x.
Proof.
  intros Hn. destruct (Z.le_gt_cases 0 n) as [Hpos|Hneg].
  - destruct (float_of_int_value n) as (x & _ & E & _); [lia|]. eauto.
  - destruct (float_of_int_value (- n)) as (x & v & E & _); [lia|].
    unfold float_of_int in *. replace n with (- - n) by lia.
    rewrite (round53_opp (- n)) by lia.
    set (y := round53 (- n) 1) in *.
    unfold num, den in *. cbn [fm fe].
    rewrite Z.mul_opp_l, Z.abs_opp.
    destruct (2 ^ 1024 * pow2 (- fe y) <=? Z.abs (fm y * pow2 (fe y))); [discriminate|].
    eauto.
Qed.

End PyFloatFacts.

Module PyStrFacts.
Import PyStr.

Lemma string_of_uint_digits d : all_chars is_digit (NilEmpty.string_of_uint d) = true.
Proof. induction d; simpl; auto. Qed.

Lemma of_Z_digits n : 0 <= n -> all_chars is_digit (of_Z n) = true.
Proof.
  intros Hn. unfold of_Z. destruct n as [|p|p]; [reflexivity| |lia].
  simpl. unfold NilZero.string_of_uint.
  destruct (Pos.to_uint p) eqn:E; [reflexivity|..]; rewrite <- E; apply string_of_uint_digits.
Qed.

Lemma digit_is_digit d : 0 <= d < 10 -> is_digit (digit d) = true.
Proof.
  intros Hd.
  assert (C : d = 0 \/ d = 1 \/ d = 2 \/ d = 3 \/ d = 4 \/ d = 5 \/ d = 6 \/ d = 7 \/ d = 8 \/ d = 9) by lia.
  repeat (destruct C as [->|C]; [reflexivity|]). subst. reflexivity.
Qed.

End PyStrFacts.


Lemma append_nil_l (s : string) : ("" ++ s)%string = s.
Proof. reflexivity. Qed.

Lemma append_cons (c : ascii) (s t : string) :
  (String c s ++ t)%string = String c (s ++ t).
Proof. reflexivity. Qed.

Lemma append_assoc (a b c : string) : ((a ++ b) ++ c = a ++ (b ++ c))%string.
Proof.
  induction a as [|x a IH]; [reflexivity|].
  rewrite !append_cons, IH. reflexivity.
Qed.

Lemma human_loop_step u us b :
  human_loop (u :: us) b =
    if PyFloat.ltb b (PyFloat.of_Z_exact 1024) || (u =? "PiB")%string
    then Some (if (u =? "B")%string
               then PyStr.of_Z (PyFloat.to_int b) ++ " B"
               else PyFloat.format_1f b ++ " " ++ u)%string
    else human_loop us (PyFloat.div1024 b).
Proof. reflexivity. Qed.

Lemma format_1f_value x v j u : 0 <= j -> 0 <= v -> scaled_value x v j ->
  let t := PyFloat.round_half_even (10 * v) (1024 ^ j) in
  (PyFloat.format_1f x ++ " " ++ u)%string
  = (PyStr.of_Z (t / 10) ++ "." ++ String (PyStr.digit (t mod 10)) (" " ++ u))%string
  /\ PyStr.all_chars PyStr.is_digit (PyStr.of_Z (t / 10)) = true
  /\ PyStr.is_digit (PyStr.digit (t mod 10)) = true.
Proof.
  intros Hj Hv E t.
  assert (Q : 0 < 1024 ^ j) by (apply Z.pow_pos_nonneg; lia).
  assert (Ht : 0 <= t) by (apply (PyFloatFacts.round_half_even_ge _ _ 0); lia).
  assert (Hm : 0 <= fm x).
  { unfold scaled_value, PyFloat.num in E.
    pose proof (PyFloatFacts.pow2_pos (fe x)). pose proof (PyFloatFacts.pow2_pos (- fe x)).
    unfold PyFloat.den in E. nia. }
  repeat split.
  - unfold PyFloat.format_1f.
    rewrite (PyFloatFacts.tenths_value x v j Hj Hv E). fold t.
    destruct (Z.ltb_spec (fm x) 0); [lia|]. rewrite append_nil_l.
    rewrite !append_assoc. reflexivity.
  - apply PyStrFacts.of_Z_digits. apply Z.div_pos; lia.
  - apply PyStrFacts.digit_is_digit. apply Z.mod_pos_bound. lia.
Qed.

(** [human] answers on every byte count that [float()] accepts. *)
Lemma human_some n : Z.abs n < 2 ^ 1023 -> exists s, human n = Some s.
Proof.
  intros Hn. destruct (PyFloatFacts.float_of_int_some n Hn) as [x E].
  unfold human. rewrite E. destruct (human_loop units x); eauto.
Qed.

(** C1: for a byte count [n] from 0 up to the range of [float()], [human]
    divides by 1024 through the units B, KiB, MiB, GiB, TiB, PiB and stops
    at the first unit [k] in which the value is under 1024, or at PiB.  In B
    the count is printed as an integer, digits only; in a larger unit the
    value is printed rounded to one decimal place, as digits, a point and
    one digit.  0 gives "0 B", 1023 "1023 B", 1024 "1.0 KiB", 1536
    "1.5 KiB" and 1073741824 "1.0 GiB". *)
Theorem human_units :
  (forall n : Z, 0 <= n < 2 ^ 1023 ->
     exists (x : pyfloat) (k : nat),
       PyFloat.float_of_int n = Some x /\
       (n < 2 ^ 53 -> PyFloat.to_int x = n) /\
       (k <= 5)%nat /\
       (k <> 0%nat -> 1024 ^ Z.of_nat k <= n) /\
       (k = 5%nat \/ n < 1024 ^ (Z.of_nat k + 1)) /\
       match k with
       | O => human n = Some (PyStr.of_Z n ++ " B")%string /\
              PyStr.all_chars PyStr.is_digit (PyStr.of_Z n) = true
       | S _ =>
           let t := PyFloat.round_half_even (10 * PyFloat.to_int x) (1024 ^ Z.of_nat k) in
           human n = Some (PyStr.of_Z (t / 10) ++ "."
                           ++ String (PyStr.digit (t mod 10)) (" " ++ nth k units ""))%string /\
           PyStr.all_chars PyStr.is_digit (PyStr.of_Z (t / 10)) = true /\
           PyStr.is_digit (PyStr.digit (t mod 10)) = true
       end) /\
  human 0 = Some "0 B" /\
  human 1023 = Some "1023 B" /\
  human 1024 = Some "1.0 KiB" /\
  human 1536 = Some "1.5 KiB" /\
  human 1073741824 = Some "1.0 GiB".
Proof.
  split; [|repeat split; reflexivity].
  intros n Hn.
  destruct (PyFloatFacts.float_of_int_value n Hn) as (x & v & Hx & Hv & Hv0 & Hsmall & Hbig).
  assert (S0 : scaled_value x v 0).
  { unfold scaled_value. rewrite Z.mul_1_r. exact Hv. }
  pose proof (PyFloatFacts.div1024_value _ _ 0 ltac:(lia) S0) as S1.
  pose proof (PyFloatFacts.div1024_value _ _ 1 ltac:(lia) S1) as S2.
  pose proof (PyFloatFacts.div1024_value _ _ 2 ltac:(lia) S2) as S3.
  pose proof (PyFloatFacts.div1024_value _ _ 3 ltac:(lia) S3) as S4.
  pose proof (PyFloatFacts.div1024_value _ _ 4 ltac:(lia) S4) as S5.
  change (0 + 1) with 1 in S1. change (1 + 1) with 2 in S2.
  change (2 + 1) with 3 in S3. change (3 + 1) with 4 in S4.
  change (4 + 1) with 5 in S5.
  pose proof (PyFloatFacts.to_int_value x v S0) as Hint.
  assert (Hcmp : forall T, T <= 2 ^ 53 -> (v <? T) = (n <? T)).
  { intros T HT. apply Bool.eq_true_iff_eq. rewrite !Z.ltb_lt.
    destruct (Z.lt_ge_cases n (2 ^ 53)); [rewrite Hsmall by assumption; tauto|].
    specialize (Hbig ltac:(assumption)). lia. }
  pose proof (PyFloatFacts.ltb_value _ _ 0 ltac:(lia) S0) as L0.
  pose proof (PyFloatFacts.ltb_value _ _ 1 ltac:(lia) S1) as L1.
  pose proof (PyFloatFacts.ltb_value _ _ 2 ltac:(lia) S2) as L2.
  pose proof (PyFloatFacts.ltb_value _ _ 3 ltac:(lia) S3) as L3.
  pose proof (PyFloatFacts.ltb_value _ _ 4 ltac:(lia) S4) as L4.
  rewrite Hcmp in L0, L1, L2, L3, L4 by (vm_compute; discriminate).
  change (0 + 1) with 1 in L0. change (1 + 1) with 2 in L1.
  change (2 + 1) with 3 in L2. change (3 + 1) with 4 in L3.
  change (4 + 1) with 5 in L4.
  assert (Hsm : n < 1024 ^ 5 -> v = n) by (intros; apply Hsmall; lia).
  subst v.
  unfold human. rewrite Hx. unfold units.
  exists x.
  rewrite human_loop_step, L0.
  destruct (Z.ltb_spec n (1024 ^ 1)) as [H1|H1].
  { exists 0%nat. rewrite Hsm by lia.
    repeat split; try lia. apply PyStrFacts.of_Z_digits; lia. }
  change (("B" =? "PiB")%string) with false. cbn [orb].
  rewrite human_loop_step, L1.
  destruct (Z.ltb_spec n (1024 ^ 2)) as [H2|H2].
  { exists 1%nat.
    destruct (format_1f_value _ _ 1 "KiB" ltac:(lia) Hv0 S1) as (F1 & F2 & F3).
    cbn [orb]. change (("KiB" =? "B")%string) with false. cbv iota.
    rewrite F1. repeat split; first [lia | assumption]. }
  change (("KiB" =? "PiB")%string) with false. cbn [orb].
  rewrite human_loop_step, L2.
  destruct (Z.ltb_spec n (1024 ^ 3)) as [H3|H3].
  { exists 2%nat.
    destruct (format_1f_value _ _ 2 "MiB" ltac:(lia) Hv0 S2) as (F1 & F2 & F3).
    cbn [orb]. change (("MiB" =? "B")%string) with false. cbv iota.
    rewrite F1. repeat split; first [lia | assumption]. }
  change (("MiB" =? "PiB")%string) with false. cbn [orb].
  rewrite human_loop_step, L3.
  destruct (Z.ltb_spec n (1024 ^ 4)) as [H4|H4].
  { exists 3%nat.
    destruct (format_1f_value _ _ 3 "GiB" ltac:(lia) Hv0 S3) as (F1 & F2 & F3).
    cbn [orb]. change (("GiB" =? "B")%string) with false. cbv iota.
    rewrite F1. repeat split; first [lia | assumption]. }
  change (("GiB" =? "PiB")%string) with false. cbn [orb].
  rewrite human_loop_step, L4.
  destruct (Z.ltb_spec n (1024 ^ 5)) as [H5|H5].
  { exists 4%nat.
    destruct (format_1f_value _ _ 4 "TiB" ltac:(lia) Hv0 S4) as (F1 & F2 & F3).
    cbn [orb]. change (("TiB" =? "B")%string) with false. cbv iota.
    rewrite F1. repeat split; first [lia | assumption]. }
  change (("TiB" =? "PiB")%string) with false. cbn [orb].
  rewrite human_loop_step.
  exists 5%nat.
  destruct (format_1f_value _ _ 5 "PiB" ltac:(lia) Hv0 S5) as (F1 & F2 & F3).
  change (("PiB" =? "PiB")%string) with true. rewrite orb_true_r.
  change (("PiB" =? "B")%string) with false. cbv iota.
  rewrite F1. repeat split; first [lia | assumption].
Qed.

(** * The loop of [get_rows] *)

Section LoopFacts.

Context {World : Type} `{OS World}.

Lemma process_line_turn line st w :
  turn line st (fst (process_line line st w)).
Proof.
  unfold process_line.
  destruct (parse_line line) as [[[dev mp] fs]|] eqn:E; [|now apply turn_skip].
  repeat (break_if; [now apply turn_skip|]).
  destruct (path_exists mp w) as [there w1].
  destruct there; cbn [negb]; [|now apply turn_skip].
  destruct (bool_decide (mp ∈ seen_mps st)) eqn:D; [now apply turn_skip|].
  apply bool_decide_eq_false in D.
  unfold statvfs_row.
  destruct (os_statvfs mp w1) as [[s|] w2]; cbn [option_map].
  - destruct (statvfs_numbers s) as [[[size used] avail] pct] eqn:N.
    destruct (volume_name dev w2) as [name w3]. cbn [fst].
    eapply turn_row; eauto; cbn; try reflexivity. exists s. symmetry. exact N.
  - cbn [fst]. eapply turn_seen; eauto.
Qed.

End LoopFacts.

(** * Sorting *)

Module SortFacts.

Section AnyLabel.

Context {L : Type}.
Implicit Types (a b c r x : row_of L) (l acc : list (row_of L)).

Lemma ltb_false_leb (s t : string) : String.ltb t s = false <-> String.leb s t = true.
Proof.
  unfold String.ltb, String.leb. rewrite (String.compare_antisym t s).
  destruct (String.compare s t); cbn; split; congruence.
Qed.

Lemma key_le_trans a b c : key_le a b -> key_le b c -> key_le a c.
Proof.
  unfold key_le. rewrite !ltb_false_leb. intros H1 H2.
  pose proof (@transitivity _ String.le _ (sort_key a) (sort_key b) (sort_key c)) as T.
  unfold String.le in T. apply Is_true_true. apply T; apply Is_true_true; assumption.
Qed.

Lemma key_le_total a b : key_le a b \/ key_le b a.
Proof.
  unfold key_le. rewrite !ltb_false_leb. apply String.leb_total.
Qed.

Lemma insert_row_perm r l : Permutation (insert_row r l) (r :: l).
Proof.
  induction l as [|x l IH]; cbn [insert_row]; [reflexivity|].
  destruct (String.ltb (sort_key r) (sort_key x)); [reflexivity|].
  rewrite IH. apply perm_swap.
Qed.

Lemma sort_from_perm l acc :
  Permutation (fold_left (fun acc r => insert_row r acc) l acc) (acc ++ l)%list.
Proof.
  revert acc. induction l as [|x l IH]; intros acc; cbn [fold_left].
  - rewrite app_nil_r. reflexivity.
  - rewrite IH, insert_row_perm. apply (Permutation_middle acc l x).
Qed.

Lemma sort_rows_perm l : Permutation (sort_rows l) l.
Proof. unfold sort_rows. apply (sort_from_perm l []). Qed.

Lemma insert_row_sorted r l :
  StronglySorted key_le l -> StronglySorted key_le (insert_row r l).
Proof.
  induction 1 as [|x l Hl IH Hx]; cbn [insert_row].
  - constructor; constructor.
  - destruct (String.ltb (sort_key r) (sort_key x)) eqn:E.
    + constructor; [constructor; assumption|].
      assert (Hrx : key_le r x).
      { destruct (key_le_total r x) as [|C]; [assumption|].
        unfold key_le in C. congruence. }
      constructor; [assumption|].
      eapply Forall_impl; [exact Hx|]. intros y Hy. eapply key_le_trans; eassumption.
    + constructor; [assumption|].
      eapply Permutation_Forall; [symmetry; apply insert_row_perm|].
      constructor; assumption.
Qed.

Lemma sort_from_sorted l acc :
  StronglySorted key_le acc ->
  StronglySorted key_le (fold_left (fun acc r => insert_row r acc) l acc).
Proof.
  revert acc. induction l as [|x l IH]; intros acc Hacc; cbn [fold_left]; [assumption|].
  apply IH, insert_row_sorted, Hacc.
Qed.

Lemma sort_rows_sorted l : StronglySorted key_le (sort_rows l).
Proof. apply sort_from_sorted. constructor. Qed.

End AnyLabel.

End SortFacts.

Section LoopInvariant.

Context {World : Type} `{OS World}.

Lemma for_lines_app l1 l2 st w :
  for_lines (l1 ++ l2) st w =
    let (st1, w1) := for_lines l1 st w in for_lines l2 st1 w1.
Proof.
  revert st w. induction l1 as [|x l1 IH]; intros st w; cbn [for_lines app].
  - reflexivity.
  - destruct (process_line x st w) as [st' w']. apply IH.
Qed.

Lemma turn_inv line st st' : turn line st st' -> loop_inv st -> loop_inv st'.
Proof.
  intros T (Hseen & Hnd & Hok). destruct T as [->|dev mp fs L N R S|dev mp fs r L N R S D M K].
  - repeat split; assumption.
  - unfold loop_inv. rewrite R, S. repeat split; try assumption.
    intros r Hr. apply elem_of_union_r. auto.
  - unfold loop_inv. rewrite R, S. repeat split.
    + intros r' Hr'. apply in_app_iff in Hr' as [Hr'|[<-|[]]].
      * apply elem_of_union_r. auto.
      * apply elem_of_union_l, elem_of_singleton. exact M.
    + rewrite map_app. cbn [map]. apply NoDup_app. repeat split.
      * exact Hnd.
      * intros x Hx Hx'. apply list_elem_of_singleton in Hx'. subst x.
        apply list_elem_of_In, in_map_iff in Hx as (r' & E & Hr').
        apply N. rewrite <- M, <- E. auto.
      * apply NoDup_singleton.
    + apply Forall_app. split; [assumption|]. constructor; [assumption|constructor].
Qed.

Lemma for_lines_inv lines st w :
  loop_inv st -> loop_inv (fst (for_lines lines st w)).
Proof.
  revert st w. induction lines as [|x l IH]; intros st w I; cbn [for_lines]; [assumption|].
  pose proof (process_line_turn x st w) as T.
  destruct (process_line x st w) as [st' w']. cbn [fst] in T.
  apply IH. eapply turn_inv; eassumption.
Qed.

Lemma first_state_inv : loop_inv first_state.
Proof.
  repeat split; cbn.
  - intros r [].
  - constructor.
  - constructor.
Qed.

(** Rows are only appended, and mount paths only added. *)
Lemma turn_grows line st st' : turn line st st' ->
  (exists new, rows st' = (rows st ++ new)%list) /\ seen_mps st ⊆ seen_mps st'.
Proof.
  intros [->|dev mp fs L N R S|dev mp fs r L N R S D M K].
  - split; [exists []; symmetry; apply app_nil_r | reflexivity].
  - split; [exists []; rewrite R; symmetry; apply app_nil_r |].
    rewrite S. apply union_subseteq_r.
  - split; [exists [r]; exact R |]. rewrite S. apply union_subseteq_r.
Qed.

Lemma for_lines_grows lines st w :
  (exists new, rows (fst (for_lines lines st w)) = (rows st ++ new)%list)
  /\ seen_mps st ⊆ seen_mps (fst (for_lines lines st w)).
Proof.
  revert st w. induction lines as [|x l IH]; intros st w; cbn [for_lines].
  - split; [exists []; symmetry; apply app_nil_r | reflexivity].
  - pose proof (process_line_turn x st w) as T.
    destruct (process_line x st w) as [st' w']. cbn [fst] in T.
    destruct (turn_grows _ _ _ T) as [[n1 E1] S1].
    destruct (IH st' w') as [[n2 E2] S2].
    split.
    + exists (n1 ++ n2)%list. rewrite E2, E1, app_assoc. reflexivity.
    + etransitivity; eassumption.
Qed.

(** A mount path that is in [seen_mps] gets no new row. *)
Lemma turn_no_new_row line st st' mp : turn line st st' ->
  mp ∈ seen_mps st ->
  forall r, In r (rows st') -> r_mp r = mp -> In r (rows st).
Proof.
  intros [->|dev mp' fs L N R S|dev mp' fs r' L N R S D M K] Hmp r Hr E.
  - assumption.
  - rewrite R in Hr. assumption.
  - rewrite R in Hr. apply in_app_iff in Hr as [Hr|[<-|[]]]; [assumption|].
    exfalso. apply N. rewrite <- M, E. exact Hmp.
Qed.

Lemma for_lines_no_new_row lines st w mp :
  mp ∈ seen_mps st ->
  forall r, In r (rows (fst (for_lines lines st w))) -> r_mp r = mp -> In r (rows st).
Proof.
  revert st w. induction lines as [|x l IH]; intros st w Hmp r Hr E; cbn [for_lines] in Hr.
  - assumption.
  - pose proof (process_line_turn x st w) as T.
    destruct (process_line x st w) as [st' w']. cbn [fst] in T.
    destruct (turn_grows _ _ _ T) as [_ S1].
    eapply turn_no_new_row; [exact T|exact Hmp| |exact E].
    eapply IH; [|exact Hr|exact E]. apply S1, Hmp.
Qed.

(** A mount path no line of the listing parses to is not in [seen_mps]. *)
Lemma turn_seen_parsed line st st' mp : turn line st st' ->
  mp ∈ seen_mps st' ->
  mp ∈ seen_mps st \/ exists dev fs, parse_line line = Some (dev, mp, fs).
Proof.
  intros [->|dev mp' fs L N R S|dev mp' fs r' L N R S D M K] Hmp.
  - left; assumption.
  - rewrite S in Hmp. apply elem_of_union in Hmp as [Hmp|Hmp]; [|left; assumption].
    apply elem_of_singleton in Hmp. rewrite Hmp. right. exists dev, fs. exact L.
  - rewrite S in Hmp. apply elem_of_union in Hmp as [Hmp|Hmp]; [|left; assumption].
    apply elem_of_singleton in Hmp. rewrite Hmp. right. exists dev, fs. exact L.
Qed.

Lemma for_lines_seen_parsed lines st w mp :
  mp ∈ seen_mps (fst (for_lines lines st w)) ->
  mp ∈ seen_mps st \/
  exists line dev fs, In line lines /\ parse_line line = Some (dev, mp, fs).
Proof.
  revert st w. induction lines as [|x l IH]; intros st w Hmp; cbn [for_lines] in Hmp.
  - left; assumption.
  - pose proof (process_line_turn x st w) as T.
    destruct (process_line x st w) as [st' w']. cbn [fst] in T.
    destruct (IH _ _ Hmp) as [Hst'|(line & dev & fs & Hin & L)].
    + destruct (turn_seen_parsed _ _ _ _ T Hst') as [?|(dev & fs & L)]; [left; assumption|].
      right. exists x, dev, fs. split; [left; reflexivity|exact L].
    + right. exists line, dev, fs. split; [right; exact Hin|exact L].
Qed.

End LoopInvariant.

Section LoopSteps.

Context {World : Type} `{OS World}.

Lemma passes_filters_true mp fs : passes_filters mp fs = true ->
  bool_decide (fs ∈ LOCAL_FS) = true /\ String.prefix "/" mp = true
  /\ String.prefix "/System/" mp = false /\ String.prefix "/Volumes/.time" mp = false.
Proof.
  unfold passes_filters. rewrite !andb_true_iff, !negb_true_iff. tauto.
Qed.

(** A line whose mount path is in [seen_mps] leaves the loop state as it
    is. *)
Lemma process_line_seen line st w dev mp fs :
  parse_line line = Some (dev, mp, fs) -> mp ∈ seen_mps st ->
  fst (process_line line st w) = st.
Proof.
  intros L S. unfold process_line. rewrite L.
  repeat (break_if; [reflexivity|]).
  destruct (path_exists mp w) as [there w1].
  destruct there; cbn [negb]; [|reflexivity].
  rewrite bool_decide_eq_true_2 by assumption. reflexivity.
Qed.

(** A line that does not match leaves everything as it is. *)
Lemma process_line_no_match line st w :
  parse_line line = None -> process_line line st w = (st, w).
Proof. intros L. unfold process_line. rewrite L. reflexivity. Qed.

(** A line that passes the tests, on a path that exists and is new. *)
Lemma process_line_new line st w dev mp fs w1 :
  parse_line line = Some (dev, mp, fs) -> passes_filters mp fs = true ->
  path_exists mp w = (true, w1) -> mp ∉ seen_mps st ->
  process_line line st w =
    match os_statvfs mp w1 with
    | (None, w2) => (mkState (rows st) ({[ mp ]} ∪ seen_mps st), w2)
    | (Some s, w2) =>
        let '(size, used, avail, pct) := statvfs_numbers s in
        (mkState (rows st ++ [mkRow dev (fst (volume_name dev w2)) mp size used avail pct])%list
                 ({[ mp ]} ∪ seen_mps st),
         snd (volume_name dev w2))
    end.
Proof.
  intros L F E S. apply passes_filters_true in F as (F1 & F2 & F3 & F4).
  unfold process_line. rewrite L, F1, F2, F3, F4, E. cbn [negb].
  rewrite bool_decide_eq_false_2 by assumption.
  unfold statvfs_row. destruct (os_statvfs mp w1) as [[s|] w2]; cbn [option_map]; [|reflexivity].
  destruct (statvfs_numbers s) as [[[size used] avail] pct].
  destruct (volume_name dev w2) as [name w3]. reflexivity.
Qed.

(** A line that passes the tests on a path that exists puts the path in
    [seen_mps], whatever [os.statvfs] answers. *)
Lemma process_line_marks line st w dev mp fs w1 :
  parse_line line = Some (dev, mp, fs) -> passes_filters mp fs = true ->
  path_exists mp w = (true, w1) ->
  mp ∈ seen_mps (fst (process_line line st w)).
Proof.
  intros L F E.
  destruct (decide (mp ∈ seen_mps st)) as [S|S].
  - rewrite (process_line_seen _ _ _ _ _ _ L S). exact S.
  - rewrite (process_line_new _ _ _ _ _ _ _ L F E S).
    destruct (os_statvfs mp w1) as [[s|] w2].
    + destruct (statvfs_numbers s) as [[[size used] avail] pct]. cbn.
      apply elem_of_union_l, elem_of_singleton. reflexivity.
    + cbn. apply elem_of_union_l, elem_of_singleton. reflexivity.
Qed.

Lemma rows_of_lines_perm lines w :
  Permutation (fst (rows_of_lines lines w)) (rows (fst (for_lines lines first_state w))).
Proof.
  unfold rows_of_lines. destruct (for_lines lines first_state w) as [st w']. cbn [fst].
  apply SortFacts.sort_rows_perm.
Qed.

Lemma rows_of_lines_In lines w r :
  In r (fst (rows_of_lines lines w)) <-> In r (rows (fst (for_lines lines first_state w))).
Proof.
  split; apply Permutation_in; [|symmetry]; apply rows_of_lines_perm.
Qed.

End LoopSteps.

(** * The loop of [get_rows]: the claims *)

Section LoopClaims.

Context {World : Type} `{OS World}.

Lemma process_line_filtered line st w dev mp fs :
  parse_line line = Some (dev, mp, fs) -> passes_filters mp fs = false ->
  process_line line st w = (st, w).
Proof.
  intros L F. unfold process_line. rewrite L. unfold passes_filters in F.
  destruct (bool_decide (fs ∈ LOCAL_FS)); cbn [negb]; [|reflexivity].
  destruct (String.prefix "/" mp); cbn [negb]; [|reflexivity].
  destruct (String.prefix "/System/" mp); [reflexivity|].
  destruct (String.prefix "/Volumes/.time" mp); [reflexivity|].
  discriminate F.
Qed.

Lemma not_seen_before (l1 : list string) (mp : string) (w : World) :
  (forall l dev fs, In l l1 -> parse_line l <> Some (dev, mp, fs)) ->
  mp ∉ seen_mps (fst (for_lines l1 first_state w)).
Proof.
  intros Hfirst Hin.
  apply for_lines_seen_parsed in Hin as [Hin|(l & dev & fs & Hl & L)].
  - cbn in Hin. apply elem_of_empty in Hin. exact Hin.
  - exact (Hfirst l dev fs Hl L).
Qed.

(** C10: the mount path is recorded in [seen_mps] before [os.statvfs] is
    asked.  When the first entry of the listing for a mount path passes the
    tests and [os.statvfs] fails on it, the path is in [seen_mps] although no
    row was appended, and whatever the later entries are and whatever
    [os.statvfs] answers for them, the report has no row for that path. *)
Theorem seen_before_statvfs (l1 l2 : list string) (line dev mp fs : string)
    (w w1 w2 w3 : World) (st1 : loop_state) :
  (forall l dev' fs', In l l1 -> parse_line l <> Some (dev', mp, fs')) ->
  for_lines l1 first_state w = (st1, w1) ->
  parse_line line = Some (dev, mp, fs) ->
  passes_filters mp fs = true ->
  path_exists mp w1 = (true, w2) ->
  os_statvfs mp w2 = (None, w3) ->
  process_line line st1 w1 = (mkState (rows st1) ({[ mp ]} ∪ seen_mps st1), w3)
  /\ forall r, In r (fst (rows_of_lines (l1 ++ line :: l2) w)) -> r_mp r <> mp.
Proof.
  intros Hfirst E1 L F Ex St.
  pose proof (not_seen_before l1 mp w Hfirst) as Hnew. rewrite E1 in Hnew. cbn [fst] in Hnew.
  pose proof (process_line_new line st1 w1 dev mp fs w2 L F Ex Hnew) as P.
  rewrite St in P. split; [exact P|].
  intros r Hr Hmp.
  apply rows_of_lines_In in Hr.
  rewrite for_lines_app, E1 in Hr. cbn [for_lines] in Hr. rewrite P in Hr.
  apply (for_lines_no_new_row l2 _ w3 mp) in Hr.
  - cbn [rows] in Hr.
    pose proof (for_lines_inv l1 first_state w first_state_inv) as (I & _ & _).
    rewrite E1 in I. cbn [fst] in I. apply Hnew. rewrite <- Hmp. apply I, Hr.
  - cbn [seen_mps]. apply elem_of_union_l, elem_of_singleton. reflexivity.
  - exact Hmp.
Qed.

(** C6, as amended: no two rows of a report share a mount path; and once an
    entry has passed the tests on an existing path, a later entry with the
    same mount path changes neither the rows nor [seen_mps]. *)
Theorem mount_paths_unique :
  (forall (lines : list string) (w : World),
      NoDup (map r_mp (fst (rows_of_lines lines w))))
  /\ (forall (l1 l2 : list string) (a b dev_a dev_b mp fs_a fs_b : string)
        (w w1 w1' w2 : World) (st1 st2 : loop_state),
        for_lines l1 first_state w = (st1, w1) ->
        parse_line a = Some (dev_a, mp, fs_a) ->
        passes_filters mp fs_a = true ->
        path_exists mp w1 = (true, w1') ->
        parse_line b = Some (dev_b, mp, fs_b) ->
        for_lines (l1 ++ a :: l2) first_state w = (st2, w2) ->
        fst (process_line b st2 w2) = st2).
Proof.
  split.
  - intros lines w.
    pose proof (for_lines_inv lines first_state w first_state_inv) as (_ & N & _).
    pose proof (Permutation_map r_mp (rows_of_lines_perm lines w)) as P.
    rewrite P. exact N.
  - intros l1 l2 a b dev_a dev_b mp fs_a fs_b w w1 w1' w2 st1 st2 E1 La F Ex Lb E2.
    apply (process_line_seen b st2 w2 dev_b mp fs_b Lb).
    rewrite for_lines_app, E1 in E2. cbn [for_lines] in E2.
    pose proof (process_line_marks a st1 w1 dev_a mp fs_a w1' La F Ex) as M.
    destruct (process_line a st1 w1) as [sta wa]. cbn [fst] in M.
    pose proof (for_lines_grows l2 sta wa) as [_ G]. rewrite E2 in G. cbn [fst] in G.
    apply G, M.
Qed.

Lemma volume_name_of_failure dev w :
  label_lookup_fails dev w -> fst (volume_name dev w) = PString "".
Proof.
  unfold label_lookup_fails, volume_name.
  destruct (check_output _ w) as [[out| |] w']; cbn [fst]; try reflexivity.
  destruct (plist_loads out) as [[info|]|]; try reflexivity.
  destruct (info !! "VolumeName") as [v|]; [|reflexivity].
  intros ->. reflexivity.
Qed.

(** When the lookup does not fail, the label is the entry [VolumeName]
    itself, of whatever type it is. *)
Lemma volume_name_of_entry dev w out info v w' :
  check_output ["/usr/sbin/diskutil"; "info"; "-plist"; dev] w = (Output out, w') ->
  plist_loads out = Some (PlistDict info) ->
  info !! "VolumeName" = Some v -> py_truthy v = true ->
  volume_name dev w = (v, w').
Proof.
  intros E P L T. unfold volume_name. rewrite E, P, L, T. reflexivity.
Qed.

(** A failed lookup leaves the row of the entry in place, with the empty
    string as its label. *)
Lemma process_line_empty_label line dev mp fs st w w1 w2 s :
  parse_line line = Some (dev, mp, fs) ->
  passes_filters mp fs = true ->
  path_exists mp w = (true, w1) ->
  mp ∉ seen_mps st ->
  os_statvfs mp w1 = (Some s, w2) ->
  label_lookup_fails dev w2 ->
  let '(size, used, avail, pct) := statvfs_numbers s in
  rows (fst (process_line line st w))
  = (rows st ++ [mkRow dev (PString "") mp size used avail pct])%list.
Proof.
  intros L F Ex New St Fail.
  rewrite (process_line_new line st w dev mp fs w1 L F Ex New), St.
  rewrite (volume_name_of_failure dev w2 Fail).
  destruct (statvfs_numbers s) as [[[size used] avail] pct]. reflexivity.
Qed.

(** A row once appended is in the report. *)
Lemma appended_row_reported (l1 l2 : list string) (w : World) (r : raw_row) :
  In r (rows (fst (for_lines l1 first_state w))) ->
  In r (fst (rows_of_lines (l1 ++ l2) w)).
Proof.
  intros Hr. apply rows_of_lines_In. rewrite for_lines_app.
  destruct (for_lines l1 first_state w) as [st1 w1]. cbn [fst] in Hr.
  destruct (for_lines_grows l2 st1 w1) as [[new E] _]. rewrite E.
  apply in_app_iff. left. exact Hr.
Qed.

Lemma get_rows_ok w rs w' : get_rows w = (Ok rs, w') ->
  exists lines w0, (rs, w') = rows_of_lines lines w0.
Proof.
  unfold get_rows. destruct (check_output ["/sbin/mount"] w) as [first w1].
  destruct first as [out| |].
  - destruct (rows_of_lines (splitlines out) w1) as [rs0 w3] eqn:E.
    intros [= <- <-]. eauto.
  - destruct (check_output ["mount"] w1) as [[out| |] w2]; try discriminate.
    destruct (rows_of_lines (splitlines out) w2) as [rs0 w3] eqn:E.
    intros [= <- <-]. eauto.
  - discriminate.
Qed.

End LoopClaims.

(** * The end-to-end scenario *)

Lemma splitlines_listing :
  splitlines Example.listing = [Example.line_data; Example.line_vm; Example.line_root].
Proof. vm_compute. reflexivity. Qed.

Lemma splitlines_listing_case :
  splitlines Example.listing_case = [Example.line_upper; Example.line_lower].
Proof. vm_compute. reflexivity. Qed.

Section Scenario.

Context {World : Type} `{OS World}.

(** A line that passes the tests, on a machine where every path exists and
    [os.statvfs] succeeds, appends a row with its device and mount path. *)
Lemma process_line_appends line st w dev mp fs :
  (forall p w, fst (path_exists p w) = true) ->
  (forall p w, fst (os_statvfs p w) <> None) ->
  parse_line line = Some (dev, mp, fs) -> passes_filters mp fs = true ->
  mp ∉ seen_mps st ->
  exists r w',
    process_line line st w = (mkState (rows st ++ [r])%list ({[ mp ]} ∪ seen_mps st), w')
    /\ r_dev r = dev /\ r_mp r = mp.
Proof.
  intros Hex Hst L F New.
  destruct (path_exists mp w) as [there w1] eqn:E.
  pose proof (Hex mp w) as Et. rewrite E in Et. cbn [fst] in Et. subst there.
  rewrite (process_line_new line st w dev mp fs w1 L F E New).
  destruct (os_statvfs mp w1) as [[s|] w2] eqn:S.
  - destruct (statvfs_numbers s) as [[[size used] avail] pct].
    eexists _, _. split; [reflexivity|]. split; reflexivity.
  - exfalso. apply (Hst mp w1). rewrite S. reflexivity.
Qed.

(** The order of the sort is the order of the spec. *)
Lemma sorted_caseless (l : list raw_row) :
  StronglySorted key_le l ->
  StronglySorted (fun a b => caseless_le (r_mp a) (r_mp b)) l.
Proof.
  induction 1 as [|x l Hl IH Hx]; constructor; [exact IH|].
  eapply List.Forall_impl; [|exact Hx]. intros y Hy.
  unfold key_le, sort_key in Hy. apply SortFacts.ltb_false_leb in Hy. exact Hy.
Qed.

(** The rows of two lines that pass the tests on two mount paths, on a
    machine where every path exists and [os.statvfs] succeeds. *)
Lemma two_lines_rows (a b : string) (dev_a mp_a fs_a dev_b mp_b fs_b : string) (w : World) :
  (forall p w, fst (path_exists p w) = true) ->
  (forall p w, fst (os_statvfs p w) <> None) ->
  parse_line a = Some (dev_a, mp_a, fs_a) -> passes_filters mp_a fs_a = true ->
  parse_line b = Some (dev_b, mp_b, fs_b) -> passes_filters mp_b fs_b = true ->
  mp_a <> mp_b ->
  exists r1 r2 w',
    for_lines [a; b] first_state w = (mkState [r1; r2] ({[ mp_b ]} ∪ ({[ mp_a ]} ∪ ∅)), w')
    /\ r_dev r1 = dev_a /\ r_mp r1 = mp_a /\ r_dev r2 = dev_b /\ r_mp r2 = mp_b.
Proof.
  intros Hex Hst La Fa Lb Fb Hne. cbn [for_lines].
  destruct (process_line_appends a first_state w dev_a mp_a fs_a Hex Hst La Fa)
    as (r1 & w1 & P1 & D1 & M1); [apply not_elem_of_empty|].
  rewrite P1.
  destruct (process_line_appends b
              (mkState (rows first_state ++ [r1])%list ({[ mp_a ]} ∪ seen_mps first_state)) w1
              dev_b mp_b fs_b Hex Hst Lb Fb)
    as (r2 & w2 & P2 & D2 & M2).
  { cbn [seen_mps first_state]. intros Hin.
    apply elem_of_union in Hin as [Hin|Hin].
    - apply elem_of_singleton in Hin. congruence.
    - apply elem_of_empty in Hin. exact Hin. }
  rewrite P2. cbn [rows seen_mps first_state app].
  exists r1, r2, w2. repeat split; assumption.
Qed.

(** C7: the rows [get_rows] returns are in ascending order of the mount
    path under the comparison that does not regard case, stated in the
    words of the spec and not through the key of the program.  On the
    listing with an hfs mount at [/Volumes/Data], an apfs entry under
    [/System/Volumes/VM] and an apfs mount at [/], in this order, the report
    has exactly two rows, [/] before [/Volumes/Data]; and on the listing
    with [/Volumes/C] before [/Volumes/b] the report has [/Volumes/b]
    first, where the order of the code points would keep [/Volumes/C]
    first (both on every machine where the paths exist and [os.statvfs]
    succeeds). *)
Theorem rows_sorted_by_mount_path :
  (forall (w w' : World) (rs : list raw_row),
      get_rows w = (Ok rs, w') ->
      StronglySorted (fun a b => caseless_le (r_mp a) (r_mp b)) rs)
  /\ (forall (w w1 : World),
        check_output ["/sbin/mount"] w = (Output Example.listing, w1) ->
        (forall p w, fst (path_exists p w) = true) ->
        (forall p w, fst (os_statvfs p w) <> None) ->
        exists (rs : list raw_row) (w' : World),
          get_rows w = (Ok rs, w')
          /\ map r_mp rs = ["/"; "/Volumes/Data"]
          /\ map r_dev rs = ["/dev/disk3s1s1"; "/dev/disk4s2"])
  /\ (forall (w w1 : World),
        check_output ["/sbin/mount"] w = (Output Example.listing_case, w1) ->
        (forall p w, fst (path_exists p w) = true) ->
        (forall p w, fst (os_statvfs p w) <> None) ->
        exists (rs : list raw_row) (w' : World),
          get_rows w = (Ok rs, w')
          /\ map r_mp rs = ["/Volumes/b"; "/Volumes/C"]
          /\ map r_dev rs = ["/dev/disk6s1"; "/dev/disk5s1"]
          /\ String.ltb "/Volumes/C" "/Volumes/b" = true).
Proof.
  split; [|split].
  - intros w w' rs E. apply get_rows_ok in E as (lines & w0 & E).
    pose proof (SortFacts.sort_rows_sorted (rows (fst (for_lines lines first_state w0)))) as S.
    unfold rows_of_lines in E. destruct (for_lines lines first_state w0) as [st w2].
    injection E as -> _. apply sorted_caseless. exact S.
  - intros w w1 Em Hex Hst.
    unfold get_rows. rewrite Em, splitlines_listing. unfold rows_of_lines.
    cbn [for_lines].
    destruct (process_line_appends Example.line_data first_state w1
                "/dev/disk4s2" "/Volumes/Data" "hfs" Hex Hst)
      as (r1 & w2 & P1 & D1 & M1);
      [vm_compute; reflexivity | vm_compute; reflexivity | apply not_elem_of_empty |].
    rewrite P1.
    rewrite (process_line_filtered Example.line_vm _ w2
               "/dev/disk3s6" "/System/Volumes/VM" "apfs")
      by (vm_compute; reflexivity).
    destruct (process_line_appends Example.line_root
                (mkState (rows first_state ++ [r1])%list ({[ "/Volumes/Data" ]} ∪ seen_mps first_state)) w2
                "/dev/disk3s1s1" "/" "apfs" Hex Hst)
      as (r2 & w3 & P2 & D2 & M2);
      [vm_compute; reflexivity | vm_compute; reflexivity | |].
    { cbn [seen_mps first_state]. intros Hin.
      apply elem_of_union in Hin as [Hin|Hin].
      - apply elem_of_singleton in Hin. discriminate Hin.
      - apply elem_of_empty in Hin. exact Hin. }
    rewrite P2. cbn [rows first_state app].
    eexists _, _. split; [reflexivity|].
    unfold sort_rows. cbn [fold_left insert_row].
    unfold sort_key. rewrite M1, M2.
    change (String.ltb (PyStr.lower "/") (PyStr.lower "/Volumes/Data")) with true.
    cbn [map]. rewrite M1, M2, D1, D2. split; reflexivity.
  - intros w w1 Em Hex Hst.
    unfold get_rows. rewrite Em, splitlines_listing_case. unfold rows_of_lines.
    destruct (two_lines_rows Example.line_upper Example.line_lower
                "/dev/disk5s1" "/Volumes/C" "apfs" "/dev/disk6s1" "/Volumes/b" "hfs" w1 Hex Hst)
      as (r1 & r2 & w2 & P & D1 & M1 & D2 & M2);
      [vm_compute; reflexivity | vm_compute; reflexivity | vm_compute; reflexivity
       | vm_compute; reflexivity | discriminate |].
    rewrite P. cbn [rows].
    eexists _, _. split; [reflexivity|].
    unfold sort_rows. cbn [fold_left insert_row].
    unfold sort_key. rewrite M1, M2.
    change (String.ltb (PyStr.lower "/Volumes/b") (PyStr.lower "/Volumes/C")) with true.
    cbn [map]. rewrite M1, M2, D1, D2. repeat split; reflexivity.
Qed.

End Scenario.

(** * [statvfs_row] *)

Module StatFacts.
Import PyFloat PyFloatFacts.

Lemma u64_bounds z : u64 z = true -> 0 <= z < 2 ^ 64.
Proof. unfold u64. rewrite andb_true_iff, Z.leb_le, Z.ltb_lt. tauto. Qed.

Lemma statvfs_fields (s : statvfs_result) :
  0 <= f_bsize s < 2 ^ 64 /\ 0 <= f_frsize s < 2 ^ 64 /\ 0 <= f_blocks s < 2 ^ 64
  /\ 0 <= f_bfree s < 2 ^ 64 /\ 0 <= f_bavail s < 2 ^ 64.
Proof.
  pose proof (f_fields_u64 s) as F. rewrite !andb_true_iff in F.
  destruct F as ((((F1 & F2) & F3) & F4) & F5).
  repeat split; apply u64_bounds; assumption.
Qed.

Lemma to_Q_bounds x C : 0 < C ->
  0 <= num x -> num x <= C * den x -> (0 <= to_Q x <= inject_Z C)%Q.
Proof.
  intros HC Hlo Hhi. unfold to_Q, Qle, inject_Z. cbn [Qnum Qden].
  rewrite Z2Pos.id by apply pow2_pos. lia.
Qed.

Lemma num_nonneg x : 0 <= fm x -> 0 <= num x.
Proof. intros. unfold num. pose proof (pow2_pos (fe x)). nia. Qed.

(** The percentage of a part of a whole lies between 0 and 100. *)
Lemma percent_bounds used size : 0 <= used <= size -> 0 < size ->
  let pct := mul (int_truediv used size) (of_Z_exact 100) in
  0 <= num pct /\ num pct <= 100 * den pct.
Proof.
  intros Hu Hs. cbv zeta.
  unfold int_truediv. rewrite Z.sgn_pos, Z.mul_1_r, Z.abs_eq by lia.
  pose proof (round53_nonneg used size ltac:(lia) Hs) as Y0.
  pose proof (round53_le_int used size 1 Hs ltac:(lia) ltac:(lia)) as Y1.
  set (y := round53 used size) in *.
  unfold num, den in Y1.
  pose proof (pow2_pos (fe y)) as P1. pose proof (pow2_pos (- fe y)) as P2.
  unfold mul. cbn [fm fe of_Z_exact]. rewrite Z.add_0_r.
  split.
  - apply num_nonneg, round53_nonneg; [nia|assumption].
  - apply round53_le_int; [assumption|lia|nia].
Qed.

End StatFacts.

Module AccuracyFacts.
Import PyFloat PyFloatFacts.

Lemma round_half_even_half n d : 0 < d ->
  Z.abs (2 * (round_half_even n d * d) - 2 * n) <= d.
Proof.
  intros Hd. unfold round_half_even.
  pose proof (Z.div_mod n d ltac:(lia)) as E.
  pose proof (Z.mod_pos_bound n d Hd) as B.
  set (q := n / d) in *. set (r := n mod d) in *.
  destruct (Z.ltb_spec (2 * r) d); [|destruct (Z.ltb_spec d (2 * r)); [|destruct (Z.even q)]];
    apply Z.abs_le; nia.
Qed.

(** The mantissa of a rounded positive rational has at least 53 bits. *)
Lemma scaled_normal n d : 0 < n -> 0 < d ->
  2 ^ 52 * (d * pow2 (ilog2 n d - 52)) <= n * pow2 (- (ilog2 n d - 52)).
Proof.
  intros Hn Hd. set (k := ilog2 n d).
  pose proof (ilog2_lower n d Hn Hd) as L. fold k in L.
  pose proof (pow2_shift (k - 52) k ltac:(lia)) as S.
  replace (k - (k - 52)) with 52 in S by lia.
  pose proof (pow2_pos k). pose proof (pow2_pos (- k)).
  pose proof (pow2_pos (k - 52)). pose proof (pow2_pos (- (k - 52))).
  apply (Z.mul_le_mono_pos_r _ _ (pow2 (- k))); [assumption|].
  transitivity (d * (2 ^ 52 * (pow2 (k - 52) * pow2 (- k)))); [apply Z.eq_le_incl; ring|].
  rewrite <- S.
  transitivity (d * pow2 k * pow2 (- (k - 52))); [apply Z.eq_le_incl; ring|].
  transitivity (n * pow2 (- k) * pow2 (- (k - 52))); [|apply Z.eq_le_incl; ring].
  apply Z.mul_le_mono_nonneg_r; lia.
Qed.

(** One rounding: a relative error of at most 2^-53. *)
Lemma round53_close n d : 0 <= n -> 0 < d -> close_to (round53 n d) n d 53.
Proof.
  intros Hn Hd. unfold close_to, round53.
  destruct (Z.eqb_spec n 0) as [->|Hne].
  { unfold num, den. cbn [fm fe]. rewrite !Z.mul_0_l. cbn. lia. }
  assert (Hpos : 0 < n) by lia.
  rewrite Z.sgn_pos, (Z.abs_eq n), Z.mul_1_l by lia.
  set (e := ilog2 n d - 52).
  unfold num, den. cbn [fm fe]. unfold scaled.
  pose proof (scaled_normal n d Hpos Hd) as Nrm. fold e in Nrm.
  pose proof (pow2_pos e) as P1. pose proof (pow2_pos (- e)) as P2.
  set (D := d * pow2 e) in *. set (N := n * pow2 (- e)) in *.
  assert (HD : 0 < D) by (subst D; nia).
  pose proof (round_half_even_half N D HD) as Hh.
  set (m := round_half_even N D) in *.
  replace (m * pow2 e * d - N) with (m * D - N) by (subst D; ring).
  assert (Hab : 2 * Z.abs (m * D - N) <= D).
  { replace (2 * (m * D) - 2 * N) with (2 * (m * D - N)) in Hh by ring.
    rewrite Z.abs_mul in Hh. exact Hh. }
  change (2 ^ 53) with 9007199254740992.
  change (2 ^ 52) with 4503599627370496 in Nrm.
  set (a := Z.abs (m * D - N)) in *. lia.
Qed.

(** Two roundings in a row, the second after a product with 100: a
    relative error of at most 2^-51. *)
Lemma percent_close used size : 0 <= used -> 0 < size ->
  close_to (mul (int_truediv used size) (of_Z_exact 100)) (100 * used) size 51.
Proof.
  intros Hu Hs.
  unfold int_truediv. rewrite Z.sgn_pos, Z.mul_1_r, Z.abs_eq by lia.
  pose proof (round53_nonneg used size Hu Hs) as Y0.
  pose proof (round53_close used size Hu Hs) as Y1.
  set (y := round53 used size) in *.
  unfold mul. cbn [fm fe of_Z_exact]. rewrite Z.add_0_r.
  assert (Hny : 0 <= num y) by (apply StatFacts.num_nonneg; exact Y0).
  assert (Hdy : 0 < den y) by apply pow2_pos.
  replace (fm y * 100 * pow2 (fe y)) with (100 * num y) by (unfold num; ring).
  change (pow2 (- fe y)) with (den y).
  pose proof (round53_close (100 * num y) (den y) ltac:(lia) Hdy) as P1.
  set (p := round53 (100 * num y) (den y)) in *.
  assert (Hdp : 0 < den p) by apply pow2_pos.
  unfold close_to in *.
  set (A := num p * den y - 100 * num y * den p) in *.
  set (B := num y * size - used * den y) in *.
  assert (HA : 0 <= Z.abs A) by apply Z.abs_nonneg.
  assert (HB : 0 <= Z.abs B) by apply Z.abs_nonneg.
  (* (num p * size - 100 * used * den p) * den y = A * size + 100 * den p * B *)
  assert (E : (num p * size - 100 * used * den p) * den y = A * size + 100 * den p * B)
    by (subst A B; ring).
  assert (Habs : Z.abs (num p * size - 100 * used * den p) * den y
                 <= Z.abs A * size + 100 * den p * Z.abs B).
  { rewrite <- (Z.abs_eq (den y)) at 1 by lia. rewrite <- Z.abs_mul, E.
    eapply Z.le_trans; [apply Z.abs_triangle|].
    rewrite !Z.abs_mul, (Z.abs_eq size), (Z.abs_eq (den p)) by lia.
    change (Z.abs 100) with 100. lia. }
  (* num y * size <= used * den y + |B| *)
  assert (HyB : num y * size <= used * den y + Z.abs B).
  { unfold B. lia. }
  apply (Z.mul_le_mono_pos_r _ _ (den y)); [assumption|].
  apply (Z.mul_le_mono_pos_r _ _ (2 ^ 53 * 2 ^ 53)); [reflexivity|].
  change (2 ^ 51) with 2251799813685248. change (2 ^ 53) with 9007199254740992 in *.
  nia.
Qed.

End AccuracyFacts.

Section StatvfsRow.

Context {World : Type} `{OS World}.

(** C5, as amended: on a mount whose statistics query succeeds the
    percentage is [used / size * 100.0] in floating point when the size is
    not 0 and the float 0 when it is; when the size is greater than 0 and
    the answer has no more free blocks than blocks, the percentage lies in
    [0, 100] and is the exact quotient [100 * used / size] up to a relative
    error of [2 ^ (- 51)]. *)
Theorem percent_used (mp : string) (w w' : World) (s : statvfs_result) :
  os_statvfs mp w = (Some s, w') ->
  let '(size, used, avail, pct) := statvfs_numbers s in
  statvfs_row mp w = (Some (size, used, avail, pct), w')
  /\ (size = 0 -> pct = mkF 0 0)
  /\ (0 < size ->
      pct = PyFloat.mul (PyFloat.int_truediv used size) (PyFloat.of_Z_exact 100))
  /\ (0 < size -> f_bfree s <= f_blocks s ->
      (0 <= PyFloat.to_Q pct <= 100)%Q /\ close_to pct (100 * used) size 51).
Proof.
  intros E. unfold statvfs_row. rewrite E. cbn [option_map].
  unfold statvfs_numbers.
  set (bs := if f_frsize s =? 0 then f_bsize s else f_frsize s).
  set (size := f_blocks s * bs). set (used := (f_blocks s - f_bfree s) * bs).
  split; [reflexivity|]. split; [|split].
  - intros ->. reflexivity.
  - intros Hs. destruct (Z.eqb_spec size 0); [lia|reflexivity].
  - intros Hs Hfree. destruct (Z.eqb_spec size 0); [lia|].
    pose proof (StatFacts.statvfs_fields s) as (B1 & B2 & B3 & B4 & B5).
    assert (Hbs : 0 <= bs) by (subst bs; destruct (f_frsize s =? 0); lia).
    assert (Hu : 0 <= used <= size) by (subst used size; nia).
    destruct (StatFacts.percent_bounds used size Hu Hs) as [Lo Hi].
    split; [apply (StatFacts.to_Q_bounds _ 100); [lia|assumption|assumption]|].
    apply AccuracyFacts.percent_close; lia.
Qed.

End StatvfsRow.

(** The percentage of [Example.stat_overfree] is -100. *)
Lemma percent_used_below_zero :
  let '(size, used, avail, pct) := statvfs_numbers Example.stat_overfree in
  0 < size /\ used = -4096 /\ (PyFloat.to_Q pct < 0)%Q
  /\ PyFloat.format_1f pct = "-100.0".
Proof. vm_compute. repeat split; reflexivity. Qed.

(** [percent_used] on [Example.machine]: 750 of 1000 blocks are used. *)
Lemma percent_used_witness :
  @statvfs_row nat (Example.machine "") "/" 0%nat
  = (Some (4096000, 3072000, 819200,
           PyFloat.mul (PyFloat.int_truediv 3072000 4096000) (PyFloat.of_Z_exact 100)), 1%nat)
  /\ (0 <= PyFloat.to_Q (PyFloat.mul (PyFloat.int_truediv 3072000 4096000)
                                     (PyFloat.of_Z_exact 100)) <= 100)%Q
  /\ close_to (PyFloat.mul (PyFloat.int_truediv 3072000 4096000) (PyFloat.of_Z_exact 100))
              (100 * 3072000) 4096000 51.
Proof.
  pose proof (@percent_used nat (Example.machine "") "/" 0%nat 1%nat Example.stat1 eq_refl)
    as (E & _ & _ & B).
  split; [exact E|]. apply B; [reflexivity|discriminate].
Defined.

(** * [main] *)

Module ReportFacts.
Import PyFloat PyFloatFacts.

Lemma length_append (s t : string) :
  String.length (s ++ t) = (String.length s + String.length t)%nat.
Proof.
  induction s as [|c s IH]; [reflexivity|].
  rewrite append_cons. cbn [String.length]. rewrite IH. reflexivity.
Qed.

Lemma length_repeat_char c n : String.length (PyStr.repeat_char c n) = n.
Proof. induction n as [|n IH]; cbn; congruence. Qed.

Lemma length_take n s : String.length (PyStr.take n s) = Nat.min n (String.length s).
Proof.
  unfold PyStr.take. revert s. induction n as [|n IH]; intros [|c s]; cbn; try reflexivity.
  rewrite IH. reflexivity.
Qed.

Lemma length_ljust w s : String.length (PyStr.ljust w s) = Nat.max w (String.length s).
Proof. unfold PyStr.ljust. rewrite length_append, length_repeat_char. lia. Qed.

Section AnyLabel.

Context {L : Type} `{Label L}.

(** The byte counts of a row are below 2^128 in absolute value. *)
Lemma row_numbers_bounds (r : row_of L) : row_numbers_ok r ->
  Z.abs (r_size r) < 2 ^ 1023 /\ Z.abs (r_used r) < 2 ^ 1023 /\ Z.abs (r_avail r) < 2 ^ 1023.
Proof.
  intros [s E]. unfold statvfs_numbers in E.
  pose proof (StatFacts.statvfs_fields s) as (B1 & B2 & B3 & B4 & B5).
  set (bs := if f_frsize s =? 0 then f_bsize s else f_frsize s) in *.
  assert (Hbs : 0 <= bs < 2 ^ 64) by (subst bs; destruct (f_frsize s =? 0); lia).
  injection E as -> -> -> _.
  assert (Hbig : 2 ^ 64 * 2 ^ 64 < 2 ^ 1023) by (vm_compute; reflexivity).
  repeat split; apply Z.abs_lt; nia.
Qed.

(** With the numbers of [os.statvfs], a table line fails only on its
    label. *)
Lemma row_line_some dev_w name_w mp_w (r : row_of L) : row_numbers_ok r ->
  match label_cell name_w (r_name r) with
  | Some _ => exists line, row_line dev_w name_w mp_w r = Ok line
  | None => row_line dev_w name_w mp_w r = Raise TypeError
  end.
Proof.
  intros Hr. destruct (row_numbers_bounds r Hr) as (B1 & B2 & B3).
  destruct (human_some _ B1) as [s1 E1]. destruct (human_some _ B2) as [s2 E2].
  destruct (human_some _ B3) as [s3 E3].
  unfold row_line. destruct (label_cell name_w (r_name r)); [|reflexivity].
  rewrite E1, E2, E3. eauto.
Qed.

(** The print loop runs through when every label has its cell. *)
Lemma print_rows_ok dev_w name_w mp_w (rs : list (row_of L)) :
  Forall row_numbers_ok rs ->
  Forall (fun r => label_cell name_w (r_name r) <> None) rs ->
  snd (print_rows dev_w name_w mp_w rs) = None
  /\ length (fst (print_rows dev_w name_w mp_w rs)) = length rs.
Proof.
  induction 1 as [|r rs Hr Hrs IH]; intros Hc; cbn [print_rows]; [split; reflexivity|].
  apply List.Forall_cons_iff in Hc as [Hc1 Hc2]. destruct (IH Hc2) as [IH1 IH2].
  pose proof (row_line_some dev_w name_w mp_w r Hr) as E.
  destruct (label_cell name_w (r_name r)); [|contradiction].
  destruct E as [line E]. rewrite E.
  destruct (print_rows dev_w name_w mp_w rs) as [out e]. cbn [fst snd] in *.
  subst e. split; [reflexivity|]. cbn [length]. congruence.
Qed.

End AnyLabel.

(** The labels that are strings have their lengths and their cells. *)
Lemma text_label_lens (labels : list string) :
  label_lens labels = Some (map String.length labels).
Proof.
  induction labels as [|x labels IH]; [reflexivity|].
  cbn [label_lens map]. cbn [label_len text_label]. rewrite IH. reflexivity.
Qed.

Lemma text_label_width (labels : list string) :
  label_width labels = Some (column_width "Volume name" 24 labels).
Proof. unfold label_width. rewrite text_label_lens. reflexivity. Qed.

(** [report] on rows with strings for labels, as the source annotates
    them: the widths are there. *)
Lemma report_text (rs : list row) :
  report rs =
    let dev_w := column_width "Device" 18 (map r_dev rs) in
    let name_w := column_width "Volume name" 24 (map r_name rs) in
    let mp_w := column_width "Mount" 40 (map r_mp rs) in
    let (body, e) := print_rows dev_w name_w mp_w rs in
    let table := header_line dev_w name_w mp_w :: sep_line dev_w name_w mp_w :: body in
    match e with
    | Some e => (table, Raise e)
    | None =>
        ((table ++ match rs with
                   | [] => ["(no local APFS/HFS mounts found)"]
                   | _ :: _ => []
                   end)%list,
         Ok 0)
    end.
Proof. unfold report. rewrite text_label_width. reflexivity. Qed.

(** [main] does with a string inside a property list what it does with
    the string: the rows of [get_rows] whose labels are strings give the
    table of the same rows as the source annotates them. *)
Lemma label_lens_as_raw (rs : list row) :
  label_lens (map r_name (map as_raw rs)) = label_lens (map r_name rs).
Proof.
  induction rs as [|r rs IH]; [reflexivity|].
  cbn [map label_lens]. rewrite IH. reflexivity.
Qed.

Lemma print_rows_as_raw dev_w name_w mp_w (rs : list row) :
  print_rows dev_w name_w mp_w (map as_raw rs) = print_rows dev_w name_w mp_w rs.
Proof.
  induction rs as [|r rs IH]; [reflexivity|].
  cbn [map print_rows]. rewrite IH. reflexivity.
Qed.

Lemma report_as_raw (rs : list row) : report (map as_raw rs) = report rs.
Proof.
  unfold report, label_width. rewrite label_lens_as_raw.
  assert (E1 : map r_dev (map as_raw rs) = map r_dev rs) by (rewrite map_map; reflexivity).
  assert (E2 : map r_mp (map as_raw rs) = map r_mp rs) by (rewrite map_map; reflexivity).
  rewrite E1, E2.
  destruct (label_lens (map r_name rs)); [|reflexivity].
  rewrite print_rows_as_raw. destruct rs; reflexivity.
Qed.

(** The labels of a property list: those that are strings, and the width
    they give. *)
Lemma value_label_lens (rs : list raw_row) :
  forallb (fun r => is_text (r_name r)) rs = true ->
  exists lens, label_lens (map r_name rs) = Some lens.
Proof.
  induction rs as [|r rs IH]; cbn [forallb map]; [eauto|].
  intros F. apply andb_true_iff in F as [Fx F]. destruct (IH F) as [lens E].
  destruct (r_name r); try discriminate Fx.
  cbn [label_lens label_len value_label py_len]. rewrite E. eauto.
Qed.

(** The print loop on rows of [get_rows]: it runs through when every label
    is a string and is left by a TypeError at the first label that is
    none. *)
Lemma print_rows_values dev_w name_w mp_w (rs : list raw_row) :
  Forall row_numbers_ok rs ->
  snd (print_rows dev_w name_w mp_w rs)
  = if forallb (fun r => is_text (r_name r)) rs then None else Some TypeError.
Proof.
  induction 1 as [|r rs Hr Hrs IH]; cbn [print_rows forallb]; [reflexivity|].
  pose proof (row_line_some dev_w name_w mp_w r Hr) as E.
  destruct (r_name r) as [s| | | | | | | |] eqn:N;
    cbn [label_cell value_label is_text] in *; try (rewrite E; reflexivity).
  destruct E as [line E]. rewrite E.
  destruct (print_rows dev_w name_w mp_w rs) as [out e]. cbn [fst snd andb] in *.
  exact IH.
Qed.

(** What [main] returns on rows of [get_rows]: 0, or the TypeError of a
    label that is no string. *)
Lemma report_values (rs : list raw_row) : Forall row_numbers_ok rs ->
  snd (report rs)
  = if forallb (fun r => is_text (r_name r)) rs then Ok 0 else Raise TypeError.
Proof.
  intros F. unfold report.
  destruct (label_width (map r_name rs)) as [name_w|] eqn:W.
  - pose proof (print_rows_values (column_width "Device" 18 (map r_dev rs)) name_w
                  (column_width "Mount" 40 (map r_mp rs)) rs F) as P.
    destruct (print_rows _ _ _ rs) as [body e]. cbn [snd] in P. subst e.
    destruct (forallb (fun r => is_text (r_name r)) rs); reflexivity.
  - cbn [snd]. destruct (forallb (fun r => is_text (r_name r)) rs) eqn:T; [|reflexivity].
    exfalso. unfold label_width in W.
    destruct (value_label_lens rs T) as [lens E].
    rewrite E in W. discriminate W.
Qed.

End ReportFacts.

Section MainClaims.

Context {World : Type} `{OS World}.

Lemma rows_of_lines_numbers lines w :
  Forall row_numbers_ok (fst (rows_of_lines lines w)).
Proof.
  pose proof (for_lines_inv lines first_state w first_state_inv) as (_ & _ & F).
  eapply Permutation_Forall; [symmetry; apply rows_of_lines_perm|exact F].
Qed.

Lemma get_rows_numbers w rs w' : get_rows w = (Ok rs, w') -> Forall row_numbers_ok rs.
Proof.
  intros E. apply get_rows_ok in E as (lines & w0 & E).
  pose proof (rows_of_lines_numbers lines w0) as F. rewrite <- E in F. exact F.
Qed.

Lemma get_rows_listing w :
  match mount_listing w with
  | Some _ => exists rs, fst (get_rows w) = Ok rs
  | None => exists e, fst (get_rows w) = Raise e
  end.
Proof.
  unfold mount_listing, get_rows.
  destruct (check_output ["/sbin/mount"] w) as [[out| |] w1].
  - destruct (rows_of_lines (splitlines out) w1) as [rs w3]. eauto.
  - destruct (check_output ["mount"] w1) as [[out| |] w2]; cbn [fst]; eauto.
    destruct (rows_of_lines (splitlines out) w2) as [rs w3]. eauto.
  - eauto.
Qed.

(** The listing is obtained exactly when [get_rows] returns. *)
Lemma get_rows_returns w :
  (exists rs, fst (get_rows w) = Ok rs) <-> mount_listing w <> None.
Proof.
  pose proof (get_rows_listing w) as G.
  destruct (mount_listing w).
  - split; [discriminate|]. intros _. exact G.
  - destruct G as [e G]. split; [|congruence]. intros [rs E]. congruence.
Qed.

(** C8: the exit status of the program.  It is 1 when the mount listing
    is not obtained.  When it is obtained the status is 0 exactly when every
    label of the rows is a string, whatever [os.path.exists] and
    [os.statvfs] do: a label that is no string makes [main] raise a
    TypeError, at [len] or at the format spec, and the status is then 1.
    On [Example.odd_label], where [diskutil] reports the integer 7 as
    [VolumeName], the listing is obtained, nothing is printed and the status
    is 1. *)
Theorem exit_status :
  (forall w : World,
      snd (fst (program w)) =
        match fst (get_rows w) with
        | Ok rs => if forallb (fun r => is_text (r_name r)) rs then 0 else 1
        | Raise _ => 1
        end)
  /\ (forall w : World, (exists rs, fst (get_rows w) = Ok rs) <-> mount_listing w <> None)
  /\ @mount_listing nat (Example.odd_label Example.line_root) 0%nat = Some Example.line_root
  /\ map r_name (rows (fst (@for_lines nat (Example.odd_label Example.line_root)
                              [Example.line_root] first_state 0%nat))) = [PInteger 7]
  /\ fst (@program nat (Example.odd_label Example.line_root) 0%nat) = ([], 1).
Proof.
  split; [|split; [exact get_rows_returns|repeat split; vm_compute; reflexivity]].
  intros w. unfold program, main.
  destruct (get_rows w) as [[rs|e] w'] eqn:E; cbn [fst]; [|reflexivity].
  pose proof (get_rows_numbers w rs w' E) as F.
  pose proof (ReportFacts.report_values rs F) as R.
  destruct (report rs) as [out res]. cbn [snd] in R. subst res.
  destruct (forallb (fun r => is_text (r_name r)) rs); reflexivity.
Qed.

(** C9: what [volume_name] returns.  When the lookup fails in a way the
    function catches ([diskutil] missing or failing, output that is no
    property list or no dictionary, no [VolumeName], or one that [or] takes
    for false) the label is the empty string, the row of the entry is kept
    with that label and is in the report.  An entry [VolumeName] that is
    there and true is returned as it is, also when it is no string, against
    the annotation [-> str]: on [Example.odd_label], where the entry is the
    integer 7, [volume_name] returns 7, the row carries 7 as its label and
    [main] raises at [len(r[1])] before it prints anything. *)
Theorem label_lookup_result :
  (forall (dev : string) (w : World),
      label_lookup_fails dev w -> fst (volume_name dev w) = PString "")
  /\ (forall (line dev mp fs : string) (st : loop_state) (w w1 w2 : World)
        (s : statvfs_result),
        parse_line line = Some (dev, mp, fs) ->
        passes_filters mp fs = true ->
        path_exists mp w = (true, w1) ->
        mp ∉ seen_mps st ->
        os_statvfs mp w1 = (Some s, w2) ->
        label_lookup_fails dev w2 ->
        let '(size, used, avail, pct) := statvfs_numbers s in
        rows (fst (process_line line st w))
        = (rows st ++ [mkRow dev (PString "") mp size used avail pct])%list)
  /\ (forall (l1 l2 : list string) (w : World) (r : raw_row),
        In r (rows (fst (for_lines l1 first_state w))) ->
        In r (fst (rows_of_lines (l1 ++ l2) w)))
  /\ (forall (dev out : string) (info : gmap string plist_value) (v : plist_value)
        (w w' : World),
        check_output ["/usr/sbin/diskutil"; "info"; "-plist"; dev] w = (Output out, w') ->
        plist_loads out = Some (PlistDict info) ->
        info !! "VolumeName" = Some v -> py_truthy v = true ->
        volume_name dev w = (v, w'))
  /\ fst (@volume_name nat (Example.odd_label Example.line_root) "/dev/disk3s1s1" 0%nat)
     = PInteger 7
  /\ fst (@get_rows nat (Example.odd_label Example.line_root) 0%nat)
     = Ok [mkRow "/dev/disk3s1s1" (PInteger 7) "/" 4096000 3072000 819200
             (PyFloat.mul (PyFloat.int_truediv 3072000 4096000) (PyFloat.of_Z_exact 100))]
  /\ label_len (PInteger 7) = None
  /\ fst (@program nat (Example.odd_label Example.line_root) 0%nat) = ([], 1).
Proof.
  split; [exact volume_name_of_failure|].
  split; [intros line dev mp fs st w w1 w2 s; apply process_line_empty_label|].
  split; [exact appended_row_reported|].
  split; [intros dev out info v w w'; apply volume_name_of_entry|].
  repeat split; vm_compute; reflexivity.
Qed.

(** C3, as amended: when [get_rows] returns no row, the program prints the
    header, the separator and then the line saying that no mount was found,
    and ends with status 0. *)
Theorem report_of_no_rows (w w' : World) :
  get_rows w = (Ok [], w') ->
  program w =
    (["Device  Volume name  Mount         Total          Used          Free    Use%";
      "------  -----------  -----  ------------  ------------  ------------  ------";
      "(no local APFS/HFS mounts found)"], 0, w').
Proof. intros E. unfold program, main. rewrite E. reflexivity. Qed.

End MainClaims.

(** C4: the name and mount cells of a table line are cut to the column
    width and padded to it; the device cell is padded only, so a device name
    longer than the width of its column is printed in full.  On
    [Example.row_snapshot] the column is 18 wide and the cell 43, and the
    program run on the listing [Example.line_snapshot] prints the line out
    of alignment. *)
Theorem device_cell_not_cut :
  (forall (w : nat) (r : row),
      String.length (name_cell w r) = w
      /\ String.length (mp_cell w r) = w
      /\ String.length (dev_cell w r) = Nat.max w (String.length (r_dev r)))
  /\ column_width "Device" 18 (map r_dev [Example.row_snapshot]) = 18%nat
  /\ dev_cell 18 Example.row_snapshot = "com.apple.os.update-0123456789@/dev/disk3s1"
  /\ String.length (dev_cell 18 Example.row_snapshot) = 43%nat
  /\ fst (report [Example.row_snapshot]) =
       ["Device              Volume name   Mount                   Total          Used          Free    Use%";
        "------------------  ------------  ---------------  ------------  ------------  ------------  ------";
        "com.apple.os.update-0123456789@/dev/disk3s1  Macintosh HD  /Volumes/Update       3.9 MiB       2.9 MiB     800.0 KiB    75.0%"]
  /\ fst (fst (@program nat (Example.machine Example.line_snapshot) 0%nat)) =
       ["Device              Volume name  Mount                   Total          Used          Free    Use%";
        "------------------  -----------  ---------------  ------------  ------------  ------------  ------";
        "com.apple.os.update-0123456789@/dev/disk3s1               /Volumes/Update       3.9 MiB       2.9 MiB     800.0 KiB    75.0%"].
Proof.
  split; [|repeat split; vm_compute; reflexivity].
  intros w r. unfold name_cell, mp_cell, dev_cell.
  rewrite !ReportFacts.length_ljust, !ReportFacts.length_take. repeat split; lia.
Qed.

(** * The line pattern *)

Module ReFacts.
Import PyStr Re.

Lemma append_nil_r (s : string) : s ++ "" = s.
Proof.
  induction s as [|c s IH]; [reflexivity|]. rewrite append_cons, IH. reflexivity.
Qed.

Lemma append_snoc (acc : string) (c : ascii) (a : string) :
  (acc ++ String c "") ++ a = acc ++ String c a.
Proof. rewrite append_assoc. reflexivity. Qed.

Lemma all_chars_app p a b :
  all_chars p (a ++ b) = all_chars p a && all_chars p b.
Proof.
  induction a as [|c a IH]; [reflexivity|].
  rewrite append_cons. cbn [all_chars]. rewrite IH, andb_assoc. reflexivity.
Qed.

Section CombinatorFacts.

Context {R : Type}.
Implicit Types (p : ascii -> bool) (k : string -> string -> option R).

Lemma star_greedy_sound p k s : forall acc r,
  star_greedy p k acc s = Some r ->
  exists a b, s = a ++ b /\ all_chars p a = true /\ k (acc ++ a) b = Some r.
Proof.
  induction s as [|c s IH]; intros acc r E; cbn [star_greedy] in E.
  - exists "", "". rewrite (append_nil_r acc). repeat split; try reflexivity; assumption.
  - destruct (p c) eqn:Pc.
    + destruct (star_greedy p k (acc ++ String c "") s) as [r'|] eqn:G.
      * injection E as ->. apply IH in G as (a & b & -> & Ha & Hk).
        exists (String c a), b. rewrite append_snoc in Hk.
        cbn [all_chars]. rewrite Pc, Ha. repeat split; try reflexivity; assumption.
      * exists "", (String c s). rewrite (append_nil_r acc). repeat split; try reflexivity; assumption.
    + exists "", (String c s). rewrite (append_nil_r acc). repeat split; try reflexivity; assumption.
Qed.

Lemma star_greedy_first p k a : forall acc b r,
  all_chars p a = true -> stops p b -> k (acc ++ a) b = Some r ->
  star_greedy p k acc (a ++ b) = Some r.
Proof.
  induction a as [|c a IH]; intros acc b r Ha Hb Hk.
  - rewrite append_nil_r in Hk. rewrite append_nil_l.
    destruct b as [|c b]; cbn [star_greedy]; [exact Hk|].
    cbn [stops] in Hb. rewrite Hb. exact Hk.
  - cbn [all_chars] in Ha. apply andb_true_iff in Ha as [Pc Ha].
    rewrite append_cons. cbn [star_greedy]. rewrite Pc.
    rewrite (IH (acc ++ String c "") b r Ha Hb); [reflexivity|].
    rewrite append_snoc. exact Hk.
Qed.

(** A greedy run that fails has tried every run. *)
Lemma star_greedy_none p k s : forall acc,
  star_greedy p k acc s = None ->
  forall u v, s = u ++ v -> all_chars p u = true -> k (acc ++ u) v = None.
Proof.
  induction s as [|c s IH]; intros acc E u v Es Hu; cbn [star_greedy] in E.
  - destruct u; [|discriminate]. rewrite append_nil_l in Es. subst v.
    rewrite append_nil_r. exact E.
  - destruct u as [|x u].
    + rewrite append_nil_l in Es. subst v. rewrite append_nil_r.
      destruct (p c); [|exact E].
      destruct (star_greedy p k (acc ++ String c "") s); [discriminate|exact E].
    + rewrite append_cons in Es. injection Es as <- ->.
      cbn [all_chars] in Hu. apply andb_true_iff in Hu as [Pc Hu]. rewrite Pc in E.
      destruct (star_greedy p k (acc ++ String c "") (u ++ v)) eqn:G; [discriminate|].
      rewrite <- append_snoc. exact (IH _ G u v eq_refl Hu).
Qed.

(** The run a greedy repetition settles on is the longest one behind which
    the continuation succeeds. *)
Lemma star_greedy_max p k s : forall acc r,
  star_greedy p k acc s = Some r ->
  exists a b, s = a ++ b /\ all_chars p a = true /\ k (acc ++ a) b = Some r
    /\ forall u v, b = u ++ v -> u <> "" -> all_chars p u = true ->
         k (acc ++ a ++ u) v = None.
Proof.
  induction s as [|c s IH]; intros acc r E; cbn [star_greedy] in E.
  - exists "", "". rewrite (append_nil_r acc). repeat split; try reflexivity; [assumption|].
    intros u v Eb Hu _. destruct u; [contradiction|discriminate].
  - destruct (p c) eqn:Pc.
    + destruct (star_greedy p k (acc ++ String c "") s) as [r'|] eqn:G.
      * injection E as ->. apply IH in G as (a & b & -> & Ha & Hk & Hmax).
        exists (String c a), b. rewrite append_snoc in Hk.
        cbn [all_chars]. rewrite Pc, Ha. repeat split; try reflexivity; [assumption|].
        intros u v Eb Hu Au. rewrite append_cons, <- append_snoc. exact (Hmax u v Eb Hu Au).
      * exists "", (String c s). rewrite (append_nil_r acc).
        repeat split; try reflexivity; [assumption|].
        intros u v Eb Hu Au. rewrite append_nil_l.
        destruct u as [|x u]; [contradiction|].
        rewrite append_cons in Eb. injection Eb as <- ->.
        cbn [all_chars] in Au. apply andb_true_iff in Au as [_ Au].
        rewrite <- append_snoc. exact (star_greedy_none p k _ _ G u v eq_refl Au).
    + exists "", (String c s). rewrite (append_nil_r acc).
      repeat split; try reflexivity; [assumption|].
      intros u v Eb Hu Au. destruct u as [|x u]; [contradiction|].
      rewrite append_cons in Eb. injection Eb as <- ->.
      cbn [all_chars] in Au. rewrite Pc in Au. discriminate.
Qed.

(** When no longer run lets the continuation succeed, the greedy
    repetition comes back to the run that does. *)
Lemma star_greedy_fallback p k b : forall acc,
  (forall u v, b = u ++ v -> u <> "" -> all_chars p u = true -> k (acc ++ u) v = None) ->
  star_greedy p k acc b = k acc b.
Proof.
  induction b as [|c b IH]; intros acc Hmax; cbn [star_greedy]; [reflexivity|].
  destruct (p c) eqn:Pc; [|reflexivity].
  rewrite IH.
  - rewrite (Hmax (String c "") b eq_refl ltac:(discriminate)); [reflexivity|].
    cbn [all_chars]. rewrite Pc. reflexivity.
  - intros u v Eb Hu Au. rewrite append_snoc.
    apply (Hmax (String c u) v); [rewrite append_cons, Eb; reflexivity|discriminate|].
    cbn [all_chars]. rewrite Pc. exact Au.
Qed.

Lemma star_greedy_back p k a : forall acc b r,
  all_chars p a = true -> k (acc ++ a) b = Some r ->
  (forall u v, b = u ++ v -> u <> "" -> all_chars p u = true ->
     k (acc ++ a ++ u) v = None) ->
  star_greedy p k acc (a ++ b) = Some r.
Proof.
  induction a as [|c a IH]; intros acc b r Ha Hk Hmax.
  - rewrite append_nil_r in Hk. rewrite append_nil_l, star_greedy_fallback; [exact Hk|].
    intros u v Eb Hu Au. rewrite <- (append_nil_l u). exact (Hmax u v Eb Hu Au).
  - cbn [all_chars] in Ha. apply andb_true_iff in Ha as [Pc Ha].
    rewrite append_cons. cbn [star_greedy]. rewrite Pc.
    rewrite (IH (acc ++ String c "") b r Ha); [reflexivity| |].
    + rewrite append_snoc. exact Hk.
    + intros u v Eb Hu Au. rewrite (append_snoc acc c (a ++ u)).
      exact (Hmax u v Eb Hu Au).
Qed.

Lemma plus_greedy_max p k s r :
  plus_greedy p k s = Some r ->
  exists a b, s = a ++ b /\ a <> "" /\ all_chars p a = true /\ k a b = Some r
    /\ forall u v, b = u ++ v -> u <> "" -> all_chars p u = true -> k (a ++ u) v = None.
Proof.
  unfold plus_greedy. destruct s as [|c s]; [discriminate|].
  destruct (p c) eqn:Pc; [|discriminate]. intros E.
  apply star_greedy_max in E as (a & b & -> & Ha & Hk & Hmax).
  exists (String c a), b. cbn [all_chars]. rewrite Pc, Ha.
  repeat split; [discriminate|exact Hk|].
  intros u v Eb Hu Au. rewrite append_cons. exact (Hmax u v Eb Hu Au).
Qed.

Lemma plus_greedy_back p k a b r :
  a <> "" -> all_chars p a = true -> k a b = Some r ->
  (forall u v, b = u ++ v -> u <> "" -> all_chars p u = true -> k (a ++ u) v = None) ->
  plus_greedy p k (a ++ b) = Some r.
Proof.
  destruct a as [|c a]; [contradiction|]. intros _ Ha Hk Hmax.
  cbn [all_chars] in Ha. apply andb_true_iff in Ha as [Pc Ha].
  rewrite append_cons. unfold plus_greedy. rewrite Pc.
  apply star_greedy_back; [exact Ha|exact Hk|].
  intros u v Eb Hu Au. exact (Hmax u v Eb Hu Au).
Qed.

Lemma plus_greedy_sound p k s r :
  plus_greedy p k s = Some r ->
  exists a b, s = a ++ b /\ a <> "" /\ all_chars p a = true /\ k a b = Some r.
Proof.
  unfold plus_greedy. destruct s as [|c s]; [discriminate|].
  destruct (p c) eqn:Pc; [|discriminate]. intros E.
  apply star_greedy_sound in E as (a & b & -> & Ha & Hk).
  exists (String c a), b. cbn [all_chars]. rewrite Pc, Ha.
  repeat split; [discriminate|exact Hk].
Qed.

Lemma plus_greedy_first p k a b r :
  a <> "" -> all_chars p a = true -> stops p b -> k a b = Some r ->
  plus_greedy p k (a ++ b) = Some r.
Proof.
  destruct a as [|c a]; [contradiction|]. intros _ Ha Hb Hk.
  cbn [all_chars] in Ha. apply andb_true_iff in Ha as [Pc Ha].
  rewrite append_cons. unfold plus_greedy. rewrite Pc.
  apply star_greedy_first; assumption.
Qed.

Lemma star_lazy_eq p k acc s :
  star_lazy p k acc s =
    match k acc s with
    | Some r => Some r
    | None =>
        match s with
        | String c s' => if p c then star_lazy p k (acc ++ String c "") s' else None
        | EmptyString => None
        end
    end.
Proof. destruct s; reflexivity. Qed.

Lemma star_lazy_sound p k s : forall acc r,
  star_lazy p k acc s = Some r ->
  exists a b, s = a ++ b /\ all_chars p a = true /\ k (acc ++ a) b = Some r
    /\ forall a1 a2, a = a1 ++ a2 -> a2 <> "" -> k (acc ++ a1) (a2 ++ b) = None.
Proof.
  induction s as [|c s IH]; intros acc r E; rewrite star_lazy_eq in E.
  - destruct (k acc "") as [r'|] eqn:K; [|discriminate]. injection E as ->.
    exists "", "". rewrite (append_nil_r acc). repeat split; try reflexivity; try assumption.
    intros a1 a2 Ea Hne. destruct a1; [|discriminate]. rewrite append_nil_l in Ea.
    congruence.
  - destruct (k acc (String c s)) as [r'|] eqn:K.
    + injection E as ->. exists "", (String c s). rewrite (append_nil_r acc).
      repeat split; try reflexivity; try assumption.
      intros a1 a2 Ea Hne. destruct a1; [|discriminate]. rewrite append_nil_l in Ea.
      congruence.
    + destruct (p c) eqn:Pc; [|discriminate].
      apply IH in E as (a & b & -> & Ha & Hk & Hmin).
      exists (String c a), b. rewrite append_snoc in Hk.
      cbn [all_chars]. rewrite Pc, Ha. repeat split; try reflexivity; try assumption.
      intros a1 a2 Ea Hne. destruct a1 as [|c1 a1].
      * rewrite append_nil_l in Ea. subst a2. rewrite append_nil_r, append_cons. exact K.
      * rewrite append_cons in Ea. injection Ea as <- ->.
        rewrite <- append_snoc. apply Hmin; auto.
Qed.

Lemma star_lazy_first p k a : forall acc b r,
  all_chars p a = true -> k (acc ++ a) b = Some r ->
  (forall a1 a2, a = a1 ++ a2 -> a2 <> "" -> k (acc ++ a1) (a2 ++ b) = None) ->
  star_lazy p k acc (a ++ b) = Some r.
Proof.
  induction a as [|c a IH]; intros acc b r Ha Hk Hmin; rewrite star_lazy_eq.
  - rewrite append_nil_r in Hk. rewrite append_nil_l, Hk. reflexivity.
  - cbn [all_chars] in Ha. apply andb_true_iff in Ha as [Pc Ha].
    pose proof (Hmin "" (String c a) eq_refl ltac:(discriminate)) as K0.
    rewrite append_nil_r in K0. rewrite K0, append_cons, Pc.
    apply IH; [exact Ha| rewrite append_snoc; exact Hk |].
    intros a1 a2 Ea Hne. rewrite append_snoc. apply Hmin; [|exact Hne].
    rewrite append_cons, Ea. reflexivity.
Qed.

(** A lazy run that fails has tried every run. *)
Lemma star_lazy_none p k s : forall acc,
  star_lazy p k acc s = None ->
  forall a b, s = a ++ b -> all_chars p a = true -> k (acc ++ a) b = None.
Proof.
  induction s as [|c s IH]; intros acc E a b Es Ha; rewrite star_lazy_eq in E.
  - destruct a; [|discriminate]. rewrite append_nil_l in Es. subst b.
    rewrite append_nil_r. destruct (k acc ""); [discriminate|reflexivity].
  - destruct (k acc (String c s)) eqn:K; [discriminate|].
    destruct a as [|x a].
    + rewrite append_nil_l in Es. subst b. rewrite append_nil_r. exact K.
    + rewrite append_cons in Es. injection Es as <- ->.
      cbn [all_chars] in Ha. apply andb_true_iff in Ha as [Pc Ha]. rewrite Pc in E.
      rewrite <- append_snoc. exact (IH _ E a b eq_refl Ha).
Qed.

Lemma plus_lazy_none p k s :
  plus_lazy p k s = None ->
  forall a b, s = a ++ b -> a <> "" -> all_chars p a = true -> k a b = None.
Proof.
  unfold plus_lazy. intros E a b Es Hne Ha.
  destruct a as [|x a]; [contradiction|].
  rewrite append_cons in Es. subst s.
  cbn [all_chars] in Ha. apply andb_true_iff in Ha as [Pc Ha]. rewrite Pc in E.
  exact (star_lazy_none p k _ _ E a b eq_refl Ha).
Qed.

Lemma plus_lazy_sound p k s r :
  plus_lazy p k s = Some r ->
  exists a b, s = a ++ b /\ a <> "" /\ all_chars p a = true /\ k a b = Some r
    /\ forall a1 a2, a = a1 ++ a2 -> a1 <> "" -> a2 <> "" -> k a1 (a2 ++ b) = None.
Proof.
  unfold plus_lazy. destruct s as [|c s]; [discriminate|].
  destruct (p c) eqn:Pc; [|discriminate]. intros E.
  apply star_lazy_sound in E as (a & b & -> & Ha & Hk & Hmin).
  exists (String c a), b. cbn [all_chars]. rewrite Pc, Ha.
  repeat split; [discriminate|exact Hk|].
  intros a1 a2 Ea H1 H2. destruct a1 as [|c1 a1]; [contradiction|].
  rewrite append_cons in Ea. injection Ea as <- ->. apply (Hmin a1 a2); auto.
Qed.

Lemma plus_lazy_first p k a b r :
  a <> "" -> all_chars p a = true -> k a b = Some r ->
  (forall a1 a2, a = a1 ++ a2 -> a1 <> "" -> a2 <> "" -> k a1 (a2 ++ b) = None) ->
  plus_lazy p k (a ++ b) = Some r.
Proof.
  destruct a as [|c a]; [contradiction|]. intros _ Ha Hk Hmin.
  cbn [all_chars] in Ha. apply andb_true_iff in Ha as [Pc Ha].
  rewrite append_cons. unfold plus_lazy. rewrite Pc.
  apply star_lazy_first; [exact Ha|exact Hk|].
  intros a1 a2 Ea Hne. apply (Hmin (String c a1) a2); [|discriminate|exact Hne].
  rewrite append_cons, Ea. reflexivity.
Qed.

Lemma strip_spec t s r : strip t s = Some r <-> s = t ++ r.
Proof.
  revert s. induction t as [|a t IH]; intros s; cbn [strip].
  - rewrite append_nil_l. split; congruence.
  - rewrite append_cons. destruct s as [|b s]; [split; discriminate|].
    destruct (Ascii.eqb_spec a b) as [->|Hne].
    + rewrite IH. split; congruence.
    + split; [discriminate|]. intros [= E _]. congruence.
Qed.

Lemma lit_sound t (k : string -> option R) s r :
  lit t k s = Some r -> exists s', s = t ++ s' /\ k s' = Some r.
Proof.
  unfold lit. destruct (strip t s) as [s'|] eqn:E; [|discriminate].
  apply strip_spec in E. eauto.
Qed.

Lemma lit_app t (k : string -> option R) s : lit t k (t ++ s) = k s.
Proof.
  unfold lit. replace (strip t (t ++ s)) with (Some s); [reflexivity|].
  symmetry. apply strip_spec. reflexivity.
Qed.

End CombinatorFacts.

End ReFacts.

Module LineFacts.
Import PyStr Re ReFacts.

Lemma LINE_RE_eq line :
  LINE_RE line =
    plus_greedy non_space (fun dev r1 =>
    plus_greedy space (fun _ r2 =>
    lit "on" (fun r3 =>
    plus_greedy space (fun _ r4 =>
    plus_lazy dot (after_mp dev) r4) r3) r2) r1) line.
Proof. reflexivity. Qed.

(** A greedy run whose continuation always succeeds is the longest run. *)
Lemma star_greedy_longest {R : Type} p (k : string -> string -> option R) s :
  (forall x y, k x y <> None) ->
  forall acc r, star_greedy p k acc s = Some r ->
  exists a b, s = a ++ b /\ all_chars p a = true /\ stops p b /\ k (acc ++ a) b = Some r.
Proof.
  intros Hk. induction s as [|c s IH]; intros acc r E; cbn [star_greedy] in E.
  - exists "", "". rewrite (append_nil_r acc). repeat split; try reflexivity; assumption.
  - destruct (p c) eqn:Pc.
    + destruct (star_greedy p k (acc ++ String c "") s) as [r'|] eqn:G.
      * injection E as ->. apply IH in G as (a & b & -> & Ha & Hb & Hr).
        exists (String c a), b. rewrite append_snoc in Hr.
        cbn [all_chars]. rewrite Pc, Ha. repeat split; try reflexivity; assumption.
      * exfalso. clear E IH. revert acc G. induction s as [|c' s IH]; intros acc G; cbn [star_greedy] in G.
        -- exact (Hk _ _ G).
        -- destruct (p c').
           ++ destruct (star_greedy p k ((acc ++ String c "") ++ String c' "") s) eqn:G'; [discriminate|].
              exact (Hk _ _ G).
           ++ exact (Hk _ _ G).
    + exists "", (String c s). rewrite (append_nil_r acc).
      repeat split; try reflexivity; assumption.
Qed.

Lemma span_exists p s :
  exists a b, s = a ++ b /\ all_chars p a = true /\ stops p b.
Proof.
  induction s as [|c s (a & b & -> & Ha & Hb)].
  - exists "", "". repeat split.
  - destruct (p c) eqn:Pc.
    + exists (String c a), b. cbn [all_chars]. rewrite Pc, Ha. repeat split. exact Hb.
    + exists "", (String c (a ++ b)). repeat split. exact Pc.
Qed.

Lemma after_mp_sound dev mp s t :
  after_mp dev mp s = Some t ->
  exists ws fs rest, t = (dev, mp, fs) /\ s = ws ++ "(" ++ fs ++ rest
    /\ ws <> "" /\ all_chars space ws = true
    /\ fs <> "" /\ all_chars non_comma fs = true /\ stops non_comma rest.
Proof.
  unfold after_mp. intros E.
  apply plus_greedy_sound in E as (ws & r6 & -> & Hws & Aws & E).
  apply lit_sound in E as (r7 & -> & E).
  unfold plus_greedy in E. destruct r7 as [|c r7]; [discriminate|].
  destruct (non_comma c) eqn:Pc; [|discriminate].
  apply star_greedy_longest in E as (a & rest & -> & Ha & Hrest & E); [|discriminate].
  injection E as <-. exists ws, (String c a), rest.
  cbn [all_chars]. rewrite Pc, Ha. repeat split; try assumption; discriminate.
Qed.

Lemma after_mp_complete dev mp ws fs rest :
  ws <> "" -> all_chars space ws = true ->
  fs <> "" -> all_chars non_comma fs = true -> stops non_comma rest ->
  after_mp dev mp (ws ++ "(" ++ fs ++ rest) = Some (dev, mp, fs).
Proof.
  intros Hws Aws Hfs Afs Hrest. unfold after_mp.
  apply plus_greedy_first; [assumption|assumption|reflexivity|].
  rewrite lit_app. apply plus_greedy_first; [assumption|assumption|assumption|reflexivity].
Qed.

Lemma skip_spaces_app ws s :
  all_chars space ws = true -> stops space s -> skip_spaces (ws ++ s) = s.
Proof.
  intros Aws Hs. induction ws as [|c ws IH].
  - rewrite append_nil_l. destruct s as [|c s]; [reflexivity|].
    cbn [skip_spaces]. cbn [stops] in Hs. unfold space in Hs. rewrite Hs. reflexivity.
  - cbn [all_chars] in Aws. apply andb_true_iff in Aws as [Pc Aws].
    rewrite append_cons. cbn [skip_spaces]. unfold space in Pc. rewrite Pc. apply IH, Aws.
Qed.

Lemma skip_spaces_split s :
  exists ws, s = ws ++ skip_spaces s /\ all_chars space ws = true.
Proof.
  induction s as [|c s (ws & E & Aws)].
  - exists "". split; reflexivity.
  - cbn [skip_spaces]. destruct (is_space c) eqn:Pc.
    + exists (String c ws). rewrite append_cons, <- E. cbn [all_chars].
      unfold space at 1. rewrite Pc, Aws. split; reflexivity.
    + exists "". split; reflexivity.
Qed.

Lemma paren_follows_app ws c t :
  ws <> "" -> all_chars space ws = true ->
  paren_follows (ws ++ String "(" (String c t)) = non_comma c.
Proof.
  destruct ws as [|x ws]; [contradiction|]. intros _ Aws.
  cbn [all_chars] in Aws. apply andb_true_iff in Aws as [Px Aws].
  rewrite append_cons. cbn [paren_follows]. unfold space in Px. rewrite Px.
  rewrite skip_spaces_app by (assumption || reflexivity). reflexivity.
Qed.

(** The pattern goes on behind the mount path exactly where
    [paren_follows]. *)
Lemma after_mp_none dev mp s : after_mp dev mp s = None <-> paren_follows s = false.
Proof.
  split.
  - intros E. destruct (paren_follows s) eqn:P; [exfalso|reflexivity].
    destruct s as [|x s]; [discriminate|]. cbn [paren_follows] in P.
    apply andb_true_iff in P as [Px P].
    destruct (skip_spaces_split s) as (ws & Es & Aws).
    destruct (skip_spaces s) as [|c1 [|c2 t]]; try discriminate.
    apply andb_true_iff in P as [P1 P2].
    apply Ascii.eqb_eq in P1. subst c1.
    destruct (span_exists non_comma (String c2 t)) as (fs & rest & Efs & Afs & Hrest).
    rewrite Es, Efs in E.
    change (String x (ws ++ String "(" (fs ++ rest)))
      with (String x ws ++ "(" ++ fs ++ rest) in E.
    rewrite (after_mp_complete dev mp (String x ws) fs rest) in E.
    + discriminate.
    + discriminate.
    + cbn [all_chars]. unfold space at 1. rewrite Px. exact Aws.
    + intros ->. rewrite append_nil_l in Efs. subst rest. cbn [stops] in Hrest.
      unfold non_comma in Hrest. rewrite Hrest in P2. discriminate.
    + exact Afs.
    + exact Hrest.
  - intros P. destruct (after_mp dev mp s) as [t|] eqn:E; [exfalso|reflexivity].
    apply after_mp_sound in E as (ws & fs & rest & _ & -> & Hws & Aws & Hfs & Afs & _).
    destruct fs as [|c fs]; [contradiction|].
    cbn [all_chars] in Afs. apply andb_true_iff in Afs as [Pc _].
    change (ws ++ "(" ++ String c fs ++ rest) with (ws ++ String "(" (String c (fs ++ rest))) in P.
    rewrite paren_follows_app in P by assumption. congruence.
Qed.

Lemma stops_space_head ws s : ws <> "" -> all_chars space ws = true ->
  stops non_space (ws ++ s).
Proof.
  destruct ws as [|c ws]; [contradiction|]. intros _ Aws.
  cbn [all_chars] in Aws. apply andb_true_iff in Aws as [Pc _].
  rewrite append_cons. cbn [stops]. unfold non_space. unfold space in Pc. rewrite Pc. reflexivity.
Qed.

(** Where the pattern can go on with a mount path. *)
Lemma mount_path_at_lazy dev s :
  plus_lazy dot (after_mp dev) s <> None <-> mount_path_at s.
Proof.
  split.
  - intros E. destruct (plus_lazy dot (after_mp dev) s) as [t|] eqn:P; [|contradiction].
    apply plus_lazy_sound in P as (m & q & -> & Hm & Am & K & _).
    exists m, q. repeat split; try assumption.
    destruct (paren_follows q) eqn:F; [reflexivity|].
    apply (proj2 (after_mp_none dev m q)) in F. rewrite F in K. discriminate K.
  - intros (m & q & -> & Hm & Am & F) E.
    pose proof (plus_lazy_none _ _ _ E m q eq_refl Hm Am) as K.
    apply (proj1 (after_mp_none dev m q)) in K. congruence.
Qed.

Lemma LINE_RE_sound line dev mp fs :
  LINE_RE line = Some (dev, mp, fs) -> mount_line line dev mp fs.
Proof.
  rewrite LINE_RE_eq. intros E.
  apply plus_greedy_sound in E as (dev' & r1 & -> & Hdev & Adev & E).
  apply plus_greedy_sound in E as (ws1 & r2 & -> & Hws1 & Aws1 & E).
  apply lit_sound in E as (r3 & -> & E).
  apply plus_greedy_max in E as (ws2 & r4 & -> & Hws2 & Aws2 & E & Hmax).
  apply plus_lazy_sound in E as (mp' & r5 & -> & Hmp & Amp & E & Hmin).
  apply after_mp_sound in E as (ws3 & fs' & rest & [= <- <- <-] & -> & Hws3 & Aws3 & Hfs & Afs & Hrest).
  apply mount_line_intro; try assumption.
  - intros p q Emp Hp Hq. eapply (proj1 (after_mp_none _ _ _)). apply Hmin; eassumption.
  - intros u v Euv Hu Au Hv. apply (mount_path_at_lazy dev v) in Hv. apply Hv.
    exact (Hmax u v Euv Hu Au).
Qed.

Lemma LINE_RE_complete line dev mp fs :
  mount_line line dev mp fs -> LINE_RE line = Some (dev, mp, fs).
Proof.
  intros M. destruct M as [dev ws1 ws2 mp ws3 fs rest
    Hdev Adev Hws1 Aws1 Hws2 Aws2 Hmp Amp Hws3 Aws3 Hfs Afs Hrest Hmin Hmax].
  rewrite LINE_RE_eq.
  apply plus_greedy_first; [assumption|assumption|apply stops_space_head; assumption|].
  apply plus_greedy_first; [assumption|assumption|reflexivity|].
  rewrite lit_app.
  apply plus_greedy_back; [assumption|assumption| |].
  - apply plus_lazy_first; [assumption|assumption| |].
    + apply after_mp_complete; assumption.
    + intros p q Emp Hp Hq. apply after_mp_none. apply (Hmin p q); assumption.
  - intros u v Euv Hu Au.
    destruct (plus_lazy dot (after_mp dev) v) as [t|] eqn:P; [exfalso|reflexivity].
    apply (Hmax u v Euv Hu Au). apply (mount_path_at_lazy dev v). rewrite P. discriminate.
Qed.

(** A mount path starts with a character that is no white space, or it is
    one character of white space. *)
Lemma mount_line_head line dev mp fs :
  mount_line line dev mp fs ->
  stops space mp \/ exists c, mp = String c "" /\ is_space c = true.
Proof.
  intros M. destruct M as [dev ws1 ws2 mp ws3 fs rest
    Hdev Adev Hws1 Aws1 Hws2 Aws2 Hmp Amp Hws3 Aws3 Hfs Afs Hrest Hmin Hmax].
  destruct mp as [|c mp]; [contradiction|]. cbn [stops].
  destruct (space c) eqn:Pc; [right|left; reflexivity].
  exists c. split; [|exact Pc]. destruct mp as [|c' mp]; [reflexivity|exfalso].
  apply (Hmax (String c "") (String c' mp ++ ws3 ++ "(" ++ fs ++ rest)).
  - reflexivity.
  - discriminate.
  - cbn [all_chars]. rewrite Pc. reflexivity.
  - exists (String c' mp), (ws3 ++ "(" ++ fs ++ rest).
    cbn [all_chars] in Amp. apply andb_true_iff in Amp as [_ Amp].
    repeat split; [discriminate|exact Amp|].
    destruct fs as [|f fs]; [contradiction|].
    cbn [all_chars] in Afs. apply andb_true_iff in Afs as [Pf _].
    change (ws3 ++ "(" ++ String f fs ++ rest) with (ws3 ++ String "(" (String f (fs ++ rest))).
    rewrite paren_follows_app by assumption. exact Pf.
Qed.

End LineFacts.

(** C2, as amended: [parse_line] accepts exactly the lines of the grammar
    [mount_line], with the device, the mount path and the type in lower
    case as its three fields: a line it accepts is a [mount_line] with these
    fields, a [mount_line] is accepted with its fields, and a line it does
    not accept is no [mount_line] and leaves the loop state and the world as
    they are.  The mount path of a [mount_line] starts with a character
    that is no white space, or it is a single character of white space (the
    pattern gives back white space behind [on] where nothing but white space
    stands before the parenthesis). *)
Theorem parse_line_grammar :
  (forall line dev mp fstype : string,
      parse_line line = Some (dev, mp, fstype) ->
      exists fs, fstype = PyStr.lower fs /\ mount_line line dev mp fs)
  /\ (forall line dev mp fs : string,
        mount_line line dev mp fs ->
        parse_line line = Some (dev, mp, PyStr.lower fs))
  /\ (forall line : string,
        parse_line line = None <-> forall dev mp fs, ~ mount_line line dev mp fs)
  /\ (forall line dev mp fs : string,
        mount_line line dev mp fs ->
        stops Re.space mp \/ exists c, mp = String c "" /\ PyStr.is_space c = true)
  /\ (forall (World : Type) (os : OS World) (line : string)
             (st : loop_state) (w : World),
        parse_line line = None -> process_line line st w = (st, w)).
Proof.
  assert (Sound : forall line dev mp fstype : string,
             parse_line line = Some (dev, mp, fstype) ->
             exists fs, fstype = PyStr.lower fs /\ mount_line line dev mp fs).
  { intros line dev mp fstype E. unfold parse_line in E.
    destruct (LINE_RE line) as [[[d m] f]|] eqn:L; [|discriminate].
    injection E as -> -> <-. exists f. split; [reflexivity|].
    apply LineFacts.LINE_RE_sound, L. }
  assert (Complete : forall line dev mp fs : string,
             mount_line line dev mp fs ->
             parse_line line = Some (dev, mp, PyStr.lower fs)).
  { intros line dev mp fs M. unfold parse_line.
    rewrite (LineFacts.LINE_RE_complete line dev mp fs M). reflexivity. }
  split; [exact Sound|]. split; [exact Complete|]. split; [|split].
  - intros line. split.
    + intros E dev mp fs M. rewrite (Complete line dev mp fs M) in E. discriminate E.
    + intros N. destruct (parse_line line) as [[[dev mp] fstype]|] eqn:E; [exfalso|reflexivity].
      destruct (Sound line dev mp fstype E) as (fs & _ & M). exact (N dev mp fs M).
  - exact LineFacts.mount_line_head.
  - intros World os line st w E. apply process_line_no_match, E.
Qed.

(** The mount path of a volume named [Backup (, old)] is read in full,
    beyond its first [" ("]; a line whose parenthesis holds no comma is
    accepted as well; and where only white space stands between [on] and
    the parenthesis, the mount path is one space. *)
Lemma parse_line_beyond_first_paren :
  parse_line "/dev/disk5s1 on /Volumes/Backup (, old) (apfs, local)"
  = Some ("/dev/disk5s1", "/Volumes/Backup (, old)", "apfs")
  /\ before_paren "/Volumes/Backup (, old) (apfs, local)" = "/Volumes/Backup"
  /\ parse_line "/dev/disk5s1 on /Volumes/Backup (APFS"
     = Some ("/dev/disk5s1", "/Volumes/Backup", "apfs")
  /\ parse_line "dev on   (apfs, local)" = Some ("dev", " ", "apfs").
Proof. repeat split; vm_compute; reflexivity. Qed.

(** * The claims on the example machines *)

(** [human_units] at 1536 bytes: one division, one decimal. *)
Lemma human_units_witness :
  exists (x : pyfloat) (k : nat),
    PyFloat.float_of_int 1536 = Some x /\ PyFloat.to_int x = 1536 /\ k = 1%nat
    /\ human 1536 = Some "1.5 KiB".
Proof.
  destruct (proj1 human_units 1536) as (x & k & Ex & Ev & Hk & Hlo & Hhi & Hs).
  { split; [discriminate|reflexivity]. }
  exists x, k. split; [exact Ex|]. split; [apply Ev; reflexivity|].
  split; [|reflexivity].
  destruct k as [|[|k]]; [| reflexivity |].
  - destruct Hhi as [Hk0|Hlt]; [discriminate Hk0|]. exfalso. revert Hlt. vm_compute. discriminate.
  - exfalso. assert (Hle : 1024 ^ 2 <= 1024 ^ Z.of_nat (S (S k))).
    { apply Z.pow_le_mono_r; lia. }
    specialize (Hlo ltac:(discriminate)). revert Hlo Hle. change (1024 ^ 2) with 1048576. lia.
Defined.

(** [parse_line_grammar] on the line of the root volume. *)
Lemma parse_line_grammar_witness :
  exists fs : string,
    "apfs" = PyStr.lower fs /\ mount_line Example.line_root "/dev/disk3s1s1" "/" fs.
Proof.
  apply (proj1 parse_line_grammar Example.line_root "/dev/disk3s1s1" "/" "apfs").
  vm_compute. reflexivity.
Defined.

(** [report_of_no_rows] on a machine whose listing is empty. *)
Lemma report_of_no_rows_witness :
  @get_rows nat (Example.machine "") 0%nat = (Ok [], 0%nat)
  /\ @program nat (Example.machine "") 0%nat =
       (["Device  Volume name  Mount         Total          Used          Free    Use%";
         "------  -----------  -----  ------------  ------------  ------------  ------";
         "(no local APFS/HFS mounts found)"], 0, 0%nat).
Proof.
  split; [reflexivity|].
  apply (@report_of_no_rows nat (Example.machine "") 0%nat 0%nat). reflexivity.
Defined.

(** With no row the program prints three lines, and the first two are the
    header and the separator of the table. *)
Lemma empty_report_has_table_head :
  length (fst (report [])) = 3%nat
  /\ nth 0 (fst (report [])) "" = header_line 6 11 5
  /\ nth 1 (fst (report [])) "" = sep_line 6 11 5
  /\ nth 2 (fst (report [])) "" = "(no local APFS/HFS mounts found)".
Proof. repeat split; vm_compute; reflexivity. Qed.

(** An nfs entry and an apfs entry on the same mount path: the row of the
    report is the one of the second entry. *)
Lemma later_entry_retained :
  parse_line Example.line_data_nfs = Some ("server:/export", "/Volumes/Data", "nfs")
  /\ parse_line Example.line_data_again = Some ("/dev/disk7s1", "/Volumes/Data", "apfs")
  /\ map r_dev (fst (@rows_of_lines nat (Example.machine "")
                       [Example.line_data_nfs; Example.line_data_again] 0%nat))
     = ["/dev/disk7s1"].
Proof. repeat split; vm_compute; reflexivity. Qed.

(** [mount_paths_unique] on two entries for [/Volumes/Data]: the second one
    changes nothing. *)
Lemma mount_paths_unique_witness :
  let st := fst (@for_lines nat (Example.machine "") [Example.line_data] first_state 0%nat) in
  fst (@process_line nat (Example.machine "") Example.line_data_again st 1%nat) = st.
Proof.
  apply (proj2 (@mount_paths_unique nat (Example.machine ""))
           [] [] Example.line_data Example.line_data_again
           "/dev/disk4s2" "/dev/disk7s1" "/Volumes/Data" "hfs" "apfs"
           0%nat 0%nat 0%nat 1%nat first_state).
  - reflexivity.
  - vm_compute. reflexivity.
  - vm_compute. reflexivity.
  - reflexivity.
  - vm_compute. reflexivity.
  - reflexivity.
Defined.

(** [rows_sorted_by_mount_path] on [Example.machine], with the listing in
    which the case of a letter decides. *)
Lemma rows_sorted_by_mount_path_witness :
  exists (rs : list raw_row) (w' : nat),
    @get_rows nat (Example.machine Example.listing_case) 0%nat = (Ok rs, w')
    /\ map r_mp rs = ["/Volumes/b"; "/Volumes/C"]
    /\ map r_dev rs = ["/dev/disk6s1"; "/dev/disk5s1"]
    /\ String.ltb "/Volumes/C" "/Volumes/b" = true.
Proof.
  apply (proj2 (proj2 (@rows_sorted_by_mount_path nat (Example.machine Example.listing_case)))
           0%nat 0%nat).
  - reflexivity.
  - intros p w. reflexivity.
  - intros p w. discriminate.
Defined.

(** [seen_before_statvfs] on [Example.flaky]: [os.statvfs] fails on the
    first entry for [/Volumes/Data] and would succeed on the second. *)
Lemma seen_before_statvfs_witness :
  fst (@os_statvfs nat (Example.flaky "") "/Volumes/Data" 0%nat) = None
  /\ fst (@os_statvfs nat (Example.flaky "") "/Volumes/Data" 1%nat) = Some Example.stat1
  /\ Forall (fun r => r_mp r <> "/Volumes/Data")
       (fst (@rows_of_lines nat (Example.flaky "")
               [Example.line_data; Example.line_data_again] 0%nat)).
Proof.
  split; [reflexivity|]. split; [reflexivity|].
  apply List.Forall_forall.
  apply (proj2 (@seen_before_statvfs nat (Example.flaky "")
                  [] [Example.line_data_again] Example.line_data
                  "/dev/disk4s2" "/Volumes/Data" "hfs"
                  0%nat 0%nat 0%nat 1%nat first_state
                  ltac:(intros l dev' fs' [])
                  eq_refl ltac:(vm_compute; reflexivity) ltac:(vm_compute; reflexivity)
                  eq_refl eq_refl)).
Defined.

(** * Further properties of the code *)

(** ** Rounding keeps the order *)

Module RoundingFacts.
Import PyFloat PyFloatFacts.

Lemma round_half_even_mono n1 n2 d : 0 < d -> n1 <= n2 ->
  round_half_even n1 d <= round_half_even n2 d.
Proof.
  intros Hd Hn.
  pose proof (Z.div_le_mono n1 n2 d Hd Hn) as Hq.
  pose proof (round_half_even_bounds n1 d Hd) as B1.
  pose proof (round_half_even_bounds n2 d Hd) as B2.
  destruct (Z.eq_dec (n1 / d) (n2 / d)) as [E|]; [|lia].
  pose proof (Z.div_mod n1 d ltac:(lia)) as E1.
  pose proof (Z.div_mod n2 d ltac:(lia)) as E2.
  assert (Hr : n1 mod d <= n2 mod d) by (rewrite E in E1; lia).
  unfold round_half_even. rewrite E.
  destruct (Z.ltb_spec (2 * (n1 mod d)) d); destruct (Z.ltb_spec (2 * (n2 mod d)) d);
    destruct (Z.ltb_spec d (2 * (n1 mod d))); destruct (Z.ltb_spec d (2 * (n2 mod d)));
    destruct (Z.even (n2 / d)); lia.
Qed.

(** The same for two fractions with denominators of their own. *)
Lemma round_half_even_mono_frac n1 d1 n2 d2 : 0 < d1 -> 0 < d2 ->
  n1 * d2 <= n2 * d1 -> round_half_even n1 d1 <= round_half_even n2 d2.
Proof.
  intros H1 H2 Hn.
  rewrite <- (round_half_even_scale d2 n1 d1), <- (round_half_even_scale d1 n2 d2) by assumption.
  rewrite (Z.mul_comm d2 d1).
  apply round_half_even_mono; [nia|lia].
Qed.

(** The mantissa of a rounded positive rational has at most 54 bits, and 54
    only when it is 2^53. *)
Lemma scaled_upper n d : 0 < n -> 0 < d ->
  n * pow2 (- (ilog2 n d - 52)) <= 2 ^ 53 * (d * pow2 (ilog2 n d - 52)).
Proof.
  intros Hn Hd. set (k := ilog2 n d).
  pose proof (ilog2_upper n d Hn Hd) as U. fold k in U.
  pose proof (pow2_shift (k - 52) (k + 1) ltac:(lia)) as S.
  replace (k + 1 - (k - 52)) with 53 in S by lia.
  pose proof (pow2_pos (k + 1)). pose proof (pow2_pos (- (k + 1))).
  pose proof (pow2_pos (k - 52)). pose proof (pow2_pos (- (k - 52))).
  apply (Z.mul_le_mono_pos_r _ _ (pow2 (- (k + 1)))); [assumption|].
  transitivity (d * (2 ^ 53 * (pow2 (k - 52) * pow2 (- (k + 1))))); [|apply Z.eq_le_incl; ring].
  rewrite <- S.
  transitivity (n * pow2 (- (k + 1)) * pow2 (- (k - 52))); [apply Z.eq_le_incl; ring|].
  transitivity (d * pow2 (k + 1) * pow2 (- (k - 52))); [|apply Z.eq_le_incl; ring].
  apply Z.mul_le_mono_nonneg_r; lia.
Qed.

(** The larger fraction has the larger exponent. *)
Lemma ilog2_mono n1 d1 n2 d2 : 0 < n1 -> 0 < d1 -> 0 < d2 ->
  n1 * d2 <= n2 * d1 -> ilog2 n1 d1 <= ilog2 n2 d2.
Proof.
  intros Hn1 Hd1 Hd2 Hle.
  assert (Hn2 : 0 < n2) by nia.
  set (k1 := ilog2 n1 d1). set (k2 := ilog2 n2 d2).
  destruct (Z.le_gt_cases k1 k2) as [|Hgt]; [assumption|exfalso].
  pose proof (ilog2_lower n1 d1 Hn1 Hd1) as L. fold k1 in L.
  pose proof (ilog2_upper n2 d2 Hn2 Hd2) as U. fold k2 in U.
  pose proof (pow2_shift (k2 + 1) k1 ltac:(lia)) as S.
  pose proof (pow2_pos k1) as P1. pose proof (pow2_pos (- k1)) as P2.
  pose proof (pow2_pos (k2 + 1)) as P3. pose proof (pow2_pos (- (k2 + 1))) as P4.
  assert (Hp : 1 <= 2 ^ (k1 - (k2 + 1))).
  { pose proof (Z.pow_pos_nonneg 2 (k1 - (k2 + 1)) ltac:(lia) ltac:(lia)). lia. }
  set (A := pow2 k1) in *. set (B := pow2 (- k1)) in *.
  set (C := pow2 (k2 + 1)) in *. set (D := pow2 (- (k2 + 1))) in *.
  set (T := 2 ^ (k1 - (k2 + 1))) in *.
  (* d1 d2 A D <= n1 d2 B D <= n2 d1 B D < d1 d2 C B <= d1 d2 A D *)
  assert (X1 : d1 * A * (d2 * D) <= n1 * B * (d2 * D)) by (apply Z.mul_le_mono_nonneg_r; nia).
  assert (X2 : n1 * d2 * (B * D) <= n2 * d1 * (B * D)) by (apply Z.mul_le_mono_nonneg_r; nia).
  assert (X3 : n2 * D * (d1 * B) < d2 * C * (d1 * B)) by (apply Z.mul_lt_mono_pos_r; nia).
  assert (X4 : C * B <= A * D).
  { rewrite (Z.mul_comm A D), (Z.mul_comm D A), S.
    assert (0 < C * B) by nia. nia. }
  assert (X5 : d1 * d2 * (C * B) <= d1 * d2 * (A * D)) by (apply Z.mul_le_mono_nonneg_l; nia).
  nia.
Qed.

(** The value of [round53 n d] for [0 < n]: mantissa and exponent. *)
Lemma round53_pos n d : 0 < n ->
  round53 n d = mkF (scaled n d (ilog2 n d - 52)) (ilog2 n d - 52).
Proof.
  intros Hn. unfold round53.
  destruct (Z.eqb_spec n 0); [lia|].
  rewrite Z.sgn_pos, Z.abs_eq, Z.mul_1_l by lia. reflexivity.
Qed.

(** Rounding to binary64 keeps the order of two fractions. *)
Lemma round53_mono n1 d1 n2 d2 : 0 <= n1 -> 0 < d1 -> 0 < d2 ->
  n1 * d2 <= n2 * d1 ->
  num (round53 n1 d1) * den (round53 n2 d2) <= num (round53 n2 d2) * den (round53 n1 d1).
Proof.
  intros Hn1 Hd1 Hd2 Hle.
  assert (Hn2 : 0 <= n2) by nia.
  pose proof (round53_nonneg n2 d2 Hn2 Hd2) as N2.
  destruct (Z.eq_dec n1 0) as [->|Hne].
  { change (round53 0 d1) with (mkF 0 0). unfold num at 1. cbn [fm].
    unfold num, den. pose proof (pow2_pos (fe (round53 n2 d2))).
    change (pow2 (- fe (mkF 0 0))) with 1. nia. }
  assert (Hp1 : 0 < n1) by lia. assert (Hp2 : 0 < n2) by nia.
  pose proof (ilog2_mono n1 d1 n2 d2 Hp1 Hd1 Hd2 Hle) as Hk.
  pose proof (scaled_upper n1 d1 Hp1 Hd1) as U1.
  pose proof (AccuracyFacts.scaled_normal n2 d2 Hp2 Hd2) as L2.
  rewrite (round53_pos n1 d1 Hp1), (round53_pos n2 d2 Hp2).
  unfold num, den. cbn [fm fe].
  set (e1 := ilog2 n1 d1 - 52) in *. set (e2 := ilog2 n2 d2 - 52) in *.
  pose proof (pow2_pos e1) as P1. pose proof (pow2_pos (- e1)) as P2.
  pose proof (pow2_pos e2) as P3. pose proof (pow2_pos (- e2)) as P4.
  destruct (Z.eq_dec e1 e2) as [E|Hlt].
  - rewrite <- E in *.
    assert (M : scaled n1 d1 e1 <= scaled n2 d2 e1).
    { unfold scaled. apply round_half_even_mono_frac; [nia|nia|].
      replace (n1 * pow2 (- e1) * (d2 * pow2 e1)) with (n1 * d2 * (pow2 (- e1) * pow2 e1)) by ring.
      replace (n2 * pow2 (- e1) * (d1 * pow2 e1)) with (n2 * d1 * (pow2 (- e1) * pow2 e1)) by ring.
      apply Z.mul_le_mono_nonneg_r; nia. }
    apply Z.mul_le_mono_nonneg_r; [lia|].
    apply Z.mul_le_mono_nonneg_r; lia.
  - assert (He : e1 + 1 <= e2) by (subst e1 e2; lia).
    assert (M1 : scaled n1 d1 e1 <= 2 ^ 53).
    { unfold scaled. apply round_half_even_le; [nia|]. lia. }
    assert (M2 : 2 ^ 52 <= scaled n2 d2 e2).
    { unfold scaled. apply round_half_even_ge; [nia|]. lia. }
    pose proof (scaled_nonneg n1 d1 e1 ltac:(lia) Hd1) as M0.
    pose proof (pow2_shift e1 e2 ltac:(lia)) as S.
    assert (Hp : 2 <= 2 ^ (e2 - e1)).
    { change 2 with (2 ^ 1) at 1. apply Z.pow_le_mono_r; lia. }
    set (m1 := scaled n1 d1 e1) in *. set (m2 := scaled n2 d2 e2) in *.
    set (X := pow2 e1 * pow2 (- e2)) in *.
    assert (HX : 0 < X) by (subst X; nia).
    transitivity (2 ^ 53 * X).
    { replace (m1 * pow2 e1 * pow2 (- e2)) with (m1 * X) by (subst X; ring).
      apply Z.mul_le_mono_nonneg_r; lia. }
    replace (m2 * pow2 e2 * pow2 (- e1)) with (m2 * (pow2 e2 * pow2 (- e1))) by ring.
    rewrite S.
    change (2 ^ 53) with (2 * 2 ^ 52).
    transitivity (2 ^ 52 * (2 ^ (e2 - e1) * X)).
    { assert (0 < 2 ^ 52) by (apply Z.pow_pos_nonneg; lia). nia. }
    apply Z.mul_le_mono_nonneg_r; [nia|lia].
Qed.

(** [float()] keeps the order of two natural numbers. *)
Lemma float_of_int_mono n1 n2 x1 x2 : 0 <= n1 <= n2 ->
  float_of_int n1 = Some x1 -> float_of_int n2 = Some x2 ->
  num x1 * den x2 <= num x2 * den x1.
Proof.
  intros Hn E1 E2. unfold float_of_int in *.
  destruct (_ <=? _) in E1; [discriminate|]. destruct (_ <=? _) in E2; [discriminate|].
  injection E1 as <-. injection E2 as <-.
  apply round53_mono; lia.
Qed.

End RoundingFacts.

(** ** The width of what [human] prints *)

Module HumanFacts.
Import PyFloat PyFloatFacts.

Lemma of_Z_length_4 v : 0 <= v <= 1024 -> (String.length (PyStr.of_Z v) <= 4)%nat.
Proof.
  intros Hv.
  assert (A : forallb (fun i => String.length (PyStr.of_Z (Z.of_nat i)) <=? 4)%nat
                      (seq 0 1025) = true) by (vm_compute; reflexivity).
  rewrite forallb_forall in A.
  specialize (A (Z.to_nat v)). rewrite Z2Nat.id in A by lia.
  apply Nat.leb_le, A, in_seq. lia.
Qed.


(** [float()] of a count below 1 EiB is at most 1 EiB. *)
Lemma float_below_EiB n x v : 0 <= n < 2 ^ 60 ->
  float_of_int n = Some x -> num x = v * den x -> v <= 2 ^ 60.
Proof.
  intros Hn Hx Hv.
  assert (E : float_of_int (2 ^ 60) = Some (mkF (2 ^ 52) 8)) by (vm_compute; reflexivity).
  pose proof (RoundingFacts.float_of_int_mono n (2 ^ 60) x _ ltac:(lia) Hx E) as M.
  change (den (mkF (2 ^ 52) 8)) with 1 in M.
  change (num (mkF (2 ^ 52) 8)) with (2 ^ 60) in M.
  pose proof (pow2_pos (- fe x)) as P. fold (den x) in P.
  rewrite Hv in M. nia.
Qed.

(** A value under 1024 (or 1024 itself, to which a value just under it is
    rounded) with one decimal place and a unit of three letters takes at
    most ten characters. *)
Lemma format_width x v j u : 0 <= j -> 0 <= v <= 1024 ^ (j + 1) ->
  scaled_value x v j -> String.length u = 3%nat ->
  (String.length (format_1f x ++ " " ++ u) <= 10)%nat.
Proof.
  intros Hj Hv S Hu.
  destruct (format_1f_value x v j u Hj ltac:(lia) S) as (E & _ & _).
  cbv zeta in E. rewrite E.
  set (t := round_half_even (10 * v) (1024 ^ j)).
  assert (Q : 0 < 1024 ^ j) by (apply Z.pow_pos_nonneg; lia).
  assert (T0 : 0 <= t) by (apply (round_half_even_ge _ _ 0); lia).
  assert (T1 : t <= 10240).
  { apply round_half_even_le; [assumption|].
    rewrite Z.pow_add_r in Hv by lia. change (1024 ^ 1) with 1024 in Hv. lia. }
  pose proof (of_Z_length_4 (t / 10)) as L.
  assert (0 <= t / 10 <= 1024).
  { split; [apply Z.div_pos; lia|apply Z.div_le_upper_bound; lia]. }
  rewrite !ReportFacts.length_append. cbn [String.length]. rewrite ReportFacts.length_append.
  cbn [String.length]. rewrite Hu. specialize (L ltac:(assumption)). lia.
Qed.

End HumanFacts.

(** ** [human]: widths and negative counts *)

Lemma length_rjust w s : String.length (PyStr.rjust w s) = Nat.max w (String.length s).
Proof.
  unfold PyStr.rjust. rewrite ReportFacts.length_append, ReportFacts.length_repeat_char. lia.
Qed.

(** What [human] prints for a count below 1 EiB has at most ten characters. *)
Lemma human_width n : 0 <= n < 2 ^ 60 ->
  exists s, human n = Some s /\ (String.length s <= 10)%nat.
Proof.
  intros Hn.
  assert (Hn' : 0 <= n < 2 ^ 1023).
  { assert (2 ^ 60 <= 2 ^ 1023) by (apply Z.pow_le_mono_r; lia). lia. }
  destruct (PyFloatFacts.float_of_int_value n Hn') as (x & v & Hx & Hv & Hv0 & _ & _).
  pose proof (HumanFacts.float_below_EiB n x v Hn Hx Hv) as Hv1.
  assert (S0 : scaled_value x v 0).
  { unfold scaled_value. rewrite Z.mul_1_r. exact Hv. }
  pose proof (PyFloatFacts.div1024_value _ _ 0 ltac:(lia) S0) as S1.
  pose proof (PyFloatFacts.div1024_value _ _ 1 ltac:(lia) S1) as S2.
  pose proof (PyFloatFacts.div1024_value _ _ 2 ltac:(lia) S2) as S3.
  pose proof (PyFloatFacts.div1024_value _ _ 3 ltac:(lia) S3) as S4.
  pose proof (PyFloatFacts.div1024_value _ _ 4 ltac:(lia) S4) as S5.
  change (0 + 1) with 1 in S1. change (1 + 1) with 2 in S2.
  change (2 + 1) with 3 in S3. change (3 + 1) with 4 in S4.
  change (4 + 1) with 5 in S5.
  pose proof (PyFloatFacts.to_int_value x v S0) as Hint.
  pose proof (PyFloatFacts.ltb_value _ _ 0 ltac:(lia) S0) as L0.
  pose proof (PyFloatFacts.ltb_value _ _ 1 ltac:(lia) S1) as L1.
  pose proof (PyFloatFacts.ltb_value _ _ 2 ltac:(lia) S2) as L2.
  pose proof (PyFloatFacts.ltb_value _ _ 3 ltac:(lia) S3) as L3.
  pose proof (PyFloatFacts.ltb_value _ _ 4 ltac:(lia) S4) as L4.
  change (0 + 1) with 1 in L0. change (1 + 1) with 2 in L1.
  change (2 + 1) with 3 in L2. change (3 + 1) with 4 in L3.
  change (4 + 1) with 5 in L4.
  unfold human. rewrite Hx. unfold units.
  rewrite human_loop_step, L0.
  destruct (Z.ltb_spec v (1024 ^ 1)) as [H1|H1].
  { cbn [orb]. change (("B" =? "B")%string) with true. cbv iota.
    eexists. split; [reflexivity|]. rewrite Hint.
    rewrite ReportFacts.length_append. cbn [String.length].
    pose proof (HumanFacts.of_Z_length_4 v ltac:(lia)). lia. }
  change (("B" =? "PiB")%string) with false. cbn [orb].
  rewrite human_loop_step, L1.
  destruct (Z.ltb_spec v (1024 ^ 2)) as [H2|H2].
  { cbn [orb]. change (("KiB" =? "B")%string) with false. cbv iota.
    eexists. split; [reflexivity|].
    apply (HumanFacts.format_width _ v 1); [lia| |assumption|reflexivity].
    change (1 + 1) with 2. lia. }
  change (("KiB" =? "PiB")%string) with false. cbn [orb].
  rewrite human_loop_step, L2.
  destruct (Z.ltb_spec v (1024 ^ 3)) as [H3|H3].
  { cbn [orb]. change (("MiB" =? "B")%string) with false. cbv iota.
    eexists. split; [reflexivity|].
    apply (HumanFacts.format_width _ v 2); [lia| |assumption|reflexivity].
    change (2 + 1) with 3. lia. }
  change (("MiB" =? "PiB")%string) with false. cbn [orb].
  rewrite human_loop_step, L3.
  destruct (Z.ltb_spec v (1024 ^ 4)) as [H4|H4].
  { cbn [orb]. change (("GiB" =? "B")%string) with false. cbv iota.
    eexists. split; [reflexivity|].
    apply (HumanFacts.format_width _ v 3); [lia| |assumption|reflexivity].
    change (3 + 1) with 4. lia. }
  change (("GiB" =? "PiB")%string) with false. cbn [orb].
  rewrite human_loop_step, L4.
  destruct (Z.ltb_spec v (1024 ^ 5)) as [H5|H5].
  { cbn [orb]. change (("TiB" =? "B")%string) with false. cbv iota.
    eexists. split; [reflexivity|].
    apply (HumanFacts.format_width _ v 4); [lia| |assumption|reflexivity].
    change (4 + 1) with 5. lia. }
  change (("TiB" =? "PiB")%string) with false. cbn [orb].
  rewrite human_loop_step.
  change (("PiB" =? "PiB")%string) with true. rewrite orb_true_r.
  change (("PiB" =? "B")%string) with false. cbv iota.
  eexists. split; [reflexivity|].
  apply (HumanFacts.format_width _ v 5); [lia| |assumption|reflexivity].
  change (5 + 1) with 6. change (1024 ^ 6) with (2 ^ 60). lia.
Qed.

(** X8: for every byte count from 0 to below 1 EiB (2^60), [human] returns
    a text of at most ten characters, so the format [>12] of the table pads
    it to exactly twelve: the three byte columns never push the rest of a
    line to the right. *)
Theorem human_fits_column (n : Z) : 0 <= n < 2 ^ 60 ->
  exists s, human n = Some s
    /\ (String.length s <= 10)%nat
    /\ String.length (PyStr.rjust 12 s) = 12%nat.
Proof.
  intros Hn. destruct (human_width n Hn) as (s & E & L).
  exists s. rewrite length_rjust. repeat split; [assumption|assumption|lia].
Qed.

(** [float()] and [human] on a negative count. *)
Lemma human_below_zero n : - 2 ^ 1023 < n < 0 ->
  exists x, PyFloat.float_of_int n = Some x
    /\ human n = Some (PyStr.of_Z (PyFloat.to_int x) ++ " B")
    /\ (- 2 ^ 53 < n -> PyFloat.to_int x = n).
Proof.
  intros Hn.
  destruct (PyFloatFacts.float_of_int_value (- n) ltac:(lia)) as (x' & v & Hx & Hv & Hv0 & Hsmall & _).
  unfold PyFloat.float_of_int in Hx.
  set (y := PyFloat.round53 (- n) 1) in *.
  destruct (2 ^ 1024 * PyFloat.den y <=? Z.abs (PyFloat.num y)) eqn:Ht; [discriminate|].
  injection Hx as <-.
  assert (Hx : PyFloat.float_of_int n = Some (mkF (- fm y) (fe y))).
  { unfold PyFloat.float_of_int. replace n with (- - n) by lia.
    rewrite (PyFloatFacts.round53_opp (- n)) by lia. fold y.
    unfold PyFloat.num, PyFloat.den in *. cbn [fm fe].
    rewrite Z.mul_opp_l, Z.abs_opp, Ht. reflexivity. }
  exists (mkF (- fm y) (fe y)). split; [exact Hx|].
  pose proof (PyFloatFacts.pow2_pos (- fe y)) as P. fold (PyFloat.den y) in P.
  assert (Hnum : PyFloat.num (mkF (- fm y) (fe y)) = - v * PyFloat.den y).
  { unfold PyFloat.num in *. cbn [fm fe]. rewrite Z.mul_opp_l, Hv. ring. }
  split.
  - unfold human. rewrite Hx. unfold units. rewrite human_loop_step.
    assert (L : PyFloat.ltb (mkF (- fm y) (fe y)) (PyFloat.of_Z_exact 1024) = true).
    { unfold PyFloat.ltb. rewrite Hnum.
      change (PyFloat.den (PyFloat.of_Z_exact 1024)) with 1.
      change (PyFloat.num (PyFloat.of_Z_exact 1024)) with 1024.
      change (PyFloat.den (mkF (- fm y) (fe y))) with (PyFloat.den y).
      apply Z.ltb_lt. nia. }
    rewrite L. reflexivity.
  - intros Hs. unfold PyFloat.to_int. rewrite Hnum.
    change (PyFloat.den (mkF (- fm y) (fe y))) with (PyFloat.den y).
    rewrite Z.quot_mul by lia. rewrite Hsmall by lia. lia.
Qed.

(** X9: a negative byte count is never scaled: whatever its size, [human]
    prints it as an integer in the unit B.  Down to -2^53 the integer is
    the count itself; below, it is the count rounded by [float()]. *)
Theorem human_negative_in_bytes (n : Z) : - 2 ^ 1023 < n < 0 ->
  exists x, PyFloat.float_of_int n = Some x
    /\ human n = Some (PyStr.of_Z (PyFloat.to_int x) ++ " B")
    /\ (- 2 ^ 53 < n -> human n = Some (PyStr.of_Z n ++ " B")).
Proof.
  intros Hn. destruct (human_below_zero n Hn) as (x & E1 & E2 & E3).
  exists x. repeat split; [assumption|assumption|].
  intros Hs. rewrite E2, (E3 Hs). reflexivity.
Qed.

(** ** The percentage of [statvfs_row] *)

Module PercentFacts.
Import PyFloat PyFloatFacts.

(** A count divided by itself is 1.0. *)
Lemma round53_self n : 0 < n -> round53 n n = mkF (2 ^ 52) (- 52).
Proof.
  intros Hn. rewrite RoundingFacts.round53_pos by assumption.
  assert (E : ilog2 n n = 0).
  { unfold ilog2. rewrite Z.sub_diag. change (pow2 0) with 1. change (pow2 (- 0)) with 1.
    destruct (Z.leb_spec (n * 1) (n * 1)); lia. }
  rewrite E. change (0 - 52) with (- 52). f_equal.
  unfold scaled. change (pow2 (- - 52)) with (2 ^ 52). change (pow2 (- 52)) with 1.
  rewrite (round_half_even_scale n (2 ^ 52) 1) by lia.
  apply round_half_even_exact.
Qed.

(** The percentage grows with the part. *)
Lemma percent_mono u1 u2 size : 0 <= u1 <= u2 -> 0 < size ->
  let p1 := mul (int_truediv u1 size) (of_Z_exact 100) in
  let p2 := mul (int_truediv u2 size) (of_Z_exact 100) in
  num p1 * den p2 <= num p2 * den p1.
Proof.
  intros Hu Hs. cbv zeta.
  unfold int_truediv. rewrite Z.sgn_pos, !Z.mul_1_r, Z.abs_eq by lia.
  pose proof (RoundingFacts.round53_mono u1 size u2 size ltac:(lia) Hs Hs ltac:(nia)) as M.
  pose proof (round53_nonneg u1 size ltac:(lia) Hs) as N1.
  set (y1 := round53 u1 size) in *. set (y2 := round53 u2 size) in *.
  unfold mul. cbn [fm fe of_Z_exact]. rewrite !Z.add_0_r.
  pose proof (pow2_pos (fe y1)). pose proof (pow2_pos (- fe y1)).
  pose proof (pow2_pos (- fe y2)).
  apply RoundingFacts.round53_mono; [nia|assumption|assumption|].
  unfold num, den in M. nia.
Qed.

Lemma to_Q_le x y : num x * den y <= num y * den x -> (to_Q x <= to_Q y)%Q.
Proof.
  intros Hle. unfold to_Q, Qle. cbn [Qnum Qden].
  rewrite !Z2Pos.id by apply pow2_pos. exact Hle.
Qed.

Lemma block_size_nonneg s : 0 <= block_size s.
Proof.
  pose proof (StatFacts.statvfs_fields s). unfold block_size.
  destruct (f_frsize s =? 0); lia.
Qed.

(** [percent_of] by cases on the size. *)
Lemma percent_of_eq s :
  percent_of s =
    if f_blocks s * block_size s =? 0 then mkF 0 0
    else mul (int_truediv ((f_blocks s - f_bfree s) * block_size s)
                          (f_blocks s * block_size s)) (of_Z_exact 100).
Proof. reflexivity. Qed.

End PercentFacts.

(** X10: on a volume with no free block the percentage is exactly 100 and
    is printed as 100.0; on a volume whose blocks are all free it is 0.0.
    (The size is not 0: otherwise the percentage is 0.0 by case, C5.) *)
Theorem percent_of_full_and_empty (s : statvfs_result) :
  0 < f_blocks s * block_size s ->
  (f_bfree s = 0 ->
     (PyFloat.to_Q (percent_of s) == 100)%Q
     /\ PyFloat.format_1f (percent_of s) = "100.0")
  /\ (f_bfree s = f_blocks s ->
     percent_of s = mkF 0 0 /\ PyFloat.format_1f (percent_of s) = "0.0").
Proof.
  intros Hs. rewrite PercentFacts.percent_of_eq.
  destruct (Z.eqb_spec (f_blocks s * block_size s) 0) as [|_]; [lia|].
  split; intros ->.
  - rewrite Z.sub_0_r. unfold PyFloat.int_truediv.
    rewrite Z.sgn_pos, Z.mul_1_r, Z.abs_eq by lia.
    rewrite PercentFacts.round53_self by assumption.
    split; vm_compute; reflexivity.
  - rewrite Z.sub_diag, Z.mul_0_l. split; reflexivity.
Qed.

(** X11: the percentage follows the use: of two answers of [os.statvfs]
    with the same block size and the same number of blocks, the one with
    fewer free blocks never gets the smaller percentage, although each
    percentage is rounded twice. *)
Theorem percent_grows_with_use (s1 s2 : statvfs_result) :
  block_size s1 = block_size s2 -> f_blocks s1 = f_blocks s2 ->
  f_bfree s2 <= f_bfree s1 <= f_blocks s1 ->
  (PyFloat.to_Q (percent_of s1) <= PyFloat.to_Q (percent_of s2))%Q.
Proof.
  intros Hb Hn Hf. rewrite !PercentFacts.percent_of_eq, <- Hb, <- Hn.
  pose proof (PercentFacts.block_size_nonneg s1) as B.
  pose proof (StatFacts.statvfs_fields s1) as (_ & _ & F & _).
  destruct (Z.eqb_spec (f_blocks s1 * block_size s1) 0) as [|Hne]; [apply Qle_refl|].
  apply PercentFacts.to_Q_le, PercentFacts.percent_mono; nia.
Qed.

(** ** The loop of [get_rows]: where rows come from *)

Section LoopSources.

Context {World : Type} `{OS World}.

(** A row that a turn of the loop adds is a row of its line. *)
Lemma process_line_row line st w r :
  In r (rows (fst (process_line line st w))) -> In r (rows st) \/ row_of_line line r.
Proof.
  unfold process_line.
  destruct (parse_line line) as [[[dev mp] fs]|] eqn:L; [|auto].
  destruct (bool_decide (fs ∈ LOCAL_FS)) eqn:F1; cbn [negb]; [|auto].
  destruct (String.prefix "/" mp) eqn:F2; cbn [negb]; [|auto].
  destruct (String.prefix "/System/" mp) eqn:F3; [auto|].
  destruct (String.prefix "/Volumes/.time" mp) eqn:F4; [auto|].
  destruct (path_exists mp w) as [there w1] eqn:Ex.
  destruct there; cbn [negb]; [|auto].
  destruct (bool_decide (mp ∈ seen_mps st)); [auto|].
  unfold statvfs_row.
  destruct (os_statvfs mp w1) as [[s|] w2] eqn:St; cbn [option_map]; [|auto].
  destruct (statvfs_numbers s) as [[[size used] avail] pct] eqn:Nu.
  destruct (volume_name dev w2) as [name w3] eqn:Vn.
  cbn [fst rows]. intros Hin. apply in_app_iff in Hin as [Hin|[<-|[]]]; [auto|].
  right. exists fs, w, s. cbn [r_dev r_mp r_name r_size r_used r_avail r_pct].
  rewrite Ex. cbn [fst snd]. rewrite St. cbn [fst snd]. rewrite Vn.
  apply bool_decide_eq_true in F1.
  repeat split; auto.
Qed.

Lemma for_lines_row lines st w r :
  In r (rows (fst (for_lines lines st w))) ->
  In r (rows st) \/ exists line, In line lines /\ row_of_line line r.
Proof.
  revert st w. induction lines as [|line lines IH]; intros st w; cbn [for_lines]; [auto|].
  destruct (process_line line st w) as [st' w'] eqn:P. intros Hin.
  apply IH in Hin as [Hin|(l & Hl & R)].
  - pose proof (process_line_row line st w r) as Q. rewrite P in Q.
    destruct (Q Hin) as [|R]; [auto|]. right. exists line. split; [left; reflexivity|exact R].
  - right. exists l. split; [right; exact Hl|exact R].
Qed.

Lemma rows_of_lines_row lines w :
  Forall (fun r => exists line, In line lines /\ row_of_line line r)
         (fst (rows_of_lines lines w)).
Proof.
  apply List.Forall_forall. intros r Hr. apply rows_of_lines_In in Hr.
  apply for_lines_row in Hr as [[]|Hr]. exact Hr.
Qed.

(** X1: every row of [get_rows] comes from one line of the mount listing:
    device and mount path are groups of the match of that line, the type of
    the line in lower case is one of apfs, hfs, hfs+, the mount path starts
    with a slash and lies neither under /System/ nor under /Volumes/.time,
    [os.path.exists] answered yes for it, the numbers are those of the
    answer [os.statvfs] gave next, and the label is what [volume_name] gave
    after that.  When the listing cannot be obtained there are no rows at
    all. *)
Theorem rows_come_from_listing (w : World) :
  match fst (get_rows w) with
  | Ok rs =>
      exists out, mount_listing w = Some out
        /\ Forall (fun r => exists line, In line (splitlines out) /\ row_of_line line r) rs
  | Raise _ => mount_listing w = None
  end.
Proof.
  unfold get_rows, mount_listing.
  destruct (check_output ["/sbin/mount"] w) as [[out| |] w1].
  - pose proof (rows_of_lines_row (splitlines out) w1) as R.
    destruct (rows_of_lines (splitlines out) w1) as [rs w3]. cbn [fst] in *. eauto.
  - destruct (check_output ["mount"] w1) as [[out| |] w2]; cbn [fst]; try reflexivity.
    pose proof (rows_of_lines_row (splitlines out) w2) as R.
    destruct (rows_of_lines (splitlines out) w2) as [rs w3]. cbn [fst] in *. eauto.
  - reflexivity.
Qed.

(** A line that does not get past the tests on its fields changes
    nothing. *)
Lemma process_line_rejected line st w :
  rejected line = true -> process_line line st w = (st, w).
Proof.
  unfold rejected. destruct (parse_line line) as [[[dev mp] fs]|] eqn:L.
  - intros F. apply negb_true_iff in F. exact (process_line_filtered line st w dev mp fs L F).
  - intros _. apply process_line_no_match, L.
Qed.

Lemma for_lines_rejected lines st w :
  forallb rejected lines = true -> for_lines lines st w = (st, w).
Proof.
  induction lines as [|line lines IH]; cbn [forallb for_lines]; [reflexivity|].
  intros F. apply andb_true_iff in F as [F1 F2].
  rewrite (process_line_rejected line st w F1). exact (IH F2).
Qed.

(** X2: a listing in which no line gets past the tests on its fields (no
    match, a type other than apfs, hfs, hfs+, a mount path that is not
    absolute or lies in a hidden tree) costs one call: after the call of
    [/sbin/mount] the machine is not asked anything, neither
    [os.path.exists] nor [os.statvfs] nor [diskutil], and the rows are
    empty. *)
Theorem no_candidate_no_call (w w1 : World) (out : string) :
  check_output ["/sbin/mount"] w = (Output out, w1) ->
  forallb rejected (splitlines out) = true ->
  get_rows w = (Ok [], w1).
Proof.
  intros E F. unfold get_rows. rewrite E. unfold rows_of_lines.
  rewrite (for_lines_rejected _ _ _ F). reflexivity.
Qed.

(** Two rows of a list without a repeated mount path that share the mount
    path are the same row. *)
Lemma same_mount_path_same_row (l : list raw_row) (a b : raw_row) :
  NoDup (map r_mp l) -> In a l -> In b l -> r_mp a = r_mp b -> a = b.
Proof.
  induction l as [|x l IH]; [intros _ []|].
  cbn [map]. intros N Ha Hb E. apply NoDup_cons in N as [Nx N].
  destruct Ha as [<-|Ha], Hb as [<-|Hb].
  - reflexivity.
  - exfalso. apply Nx. rewrite E. apply list_elem_of_In, in_map, Hb.
  - exfalso. apply Nx. rewrite <- E. apply list_elem_of_In, in_map, Ha.
  - exact (IH N Ha Hb E).
Qed.

Lemma rows_of_lines_nodup lines w : NoDup (map r_mp (fst (rows_of_lines lines w))).
Proof.
  pose proof (for_lines_inv lines first_state w first_state_inv) as (_ & N & _).
  pose proof (Permutation_map r_mp (rows_of_lines_perm lines w)) as P.
  rewrite P. exact N.
Qed.

(** X3: the first entry of the listing for a mount path, when it passes
    the tests, its path exists and [os.statvfs] answers, is reported: the
    report has the row with the device of that entry, the numbers of that
    answer and the label [volume_name] gives next, and it is the only row
    of the report with that mount path, whatever the rest of the listing
    is. *)
Theorem first_entry_is_reported (l1 l2 : list string) (line dev mp fs : string)
    (w w1 w2 w3 : World) (st1 : loop_state) (s : statvfs_result) :
  (forall l dev' fs', In l l1 -> parse_line l <> Some (dev', mp, fs')) ->
  for_lines l1 first_state w = (st1, w1) ->
  parse_line line = Some (dev, mp, fs) ->
  passes_filters mp fs = true ->
  path_exists mp w1 = (true, w2) ->
  os_statvfs mp w2 = (Some s, w3) ->
  let '(size, used, avail, pct) := statvfs_numbers s in
  let r := mkRow dev (fst (volume_name dev w3)) mp size used avail pct in
  In r (fst (rows_of_lines (l1 ++ line :: l2) w))
  /\ forall r', In r' (fst (rows_of_lines (l1 ++ line :: l2) w)) -> r_mp r' = mp -> r' = r.
Proof.
  intros Hfirst E1 L F Ex St.
  pose proof (not_seen_before l1 mp w Hfirst) as Hnew. rewrite E1 in Hnew. cbn [fst] in Hnew.
  pose proof (process_line_new line st1 w1 dev mp fs w2 L F Ex Hnew) as P.
  rewrite St in P.
  destruct (statvfs_numbers s) as [[[size used] avail] pct]. cbv zeta.
  set (r := mkRow dev (fst (volume_name dev w3)) mp size used avail pct) in *.
  assert (Hin : In r (fst (rows_of_lines (l1 ++ line :: l2) w))).
  { apply rows_of_lines_In. rewrite for_lines_app, E1. cbn [for_lines]. rewrite P.
    destruct (for_lines_grows l2 (mkState (rows st1 ++ [r]) ({[ mp ]} ∪ seen_mps st1))
                (snd (volume_name dev w3))) as [[new E] _].
    rewrite E. cbn [rows]. apply in_app_iff. left. apply in_app_iff. right. left. reflexivity. }
  split; [exact Hin|].
  intros r' Hr' Hmp.
  apply (same_mount_path_same_row _ r' r (rows_of_lines_nodup _ w) Hr' Hin).
  rewrite Hmp. reflexivity.
Qed.

End LoopSources.

(** ** The sort of [get_rows] is stable *)

Module StableFacts.

Section AnyLabelStable.

Context {L : Type}.
Implicit Types (r x : row_of L) (l acc : list (row_of L)).

Lemma ltb_irrefl (s : string) : String.ltb s s = false.
Proof.
  unfold String.ltb. pose proof (String.compare_antisym s s) as A.
  destruct (String.compare s s); [reflexivity|discriminate A|reflexivity].
Qed.

(** No row of a sorted list behind a key greater than [k] has the key [k]. *)
Lemma with_key_above k x l :
  String.ltb k (sort_key x) = true -> StronglySorted key_le (x :: l) ->
  with_key k (x :: l) = [].
Proof.
  intros Hlt S. apply StronglySorted_inv in S as [_ F].
  unfold with_key. cbn [List.filter].
  destruct (String.eqb_spec (sort_key x) k) as [E|_].
  { rewrite E, ltb_irrefl in Hlt. discriminate. }
  induction l as [|y l IH]; [reflexivity|].
  apply List.Forall_cons_iff in F as [Fy F]. cbn [List.filter].
  destruct (String.eqb_spec (sort_key y) k) as [E|_]; [|exact (IH F)].
  unfold key_le in Fy. rewrite E, Hlt in Fy. discriminate.
Qed.

(** [insert_row] puts a row behind the rows of its key. *)
Lemma with_key_insert k r l : StronglySorted key_le l ->
  with_key k (insert_row r l) =
    (with_key k l ++ if (sort_key r =? k)%string then [r] else [])%list.
Proof.
  intros S. induction l as [|x l IH]; cbn [insert_row].
  - unfold with_key. cbn [List.filter]. destruct (sort_key r =? k)%string; reflexivity.
  - destruct (String.ltb (sort_key r) (sort_key x)) eqn:Hlt.
    + change (with_key k (r :: x :: l))
        with (if (sort_key r =? k)%string then r :: with_key k (x :: l) else with_key k (x :: l)).
      destruct (String.eqb_spec (sort_key r) k) as [E|_].
      * rewrite E in Hlt. rewrite (with_key_above k x l Hlt S). reflexivity.
      * rewrite app_nil_r. reflexivity.
    + apply StronglySorted_inv in S as [S _]. specialize (IH S).
      change (with_key k (x :: insert_row r l))
        with (if (sort_key x =? k)%string then x :: with_key k (insert_row r l)
              else with_key k (insert_row r l)).
      change (with_key k (x :: l))
        with (if (sort_key x =? k)%string then x :: with_key k l else with_key k l).
      rewrite IH. destruct (sort_key x =? k)%string; reflexivity.
Qed.

Lemma with_key_sort_from k l acc : StronglySorted key_le acc ->
  with_key k (fold_left (fun acc r => insert_row r acc) l acc)
  = (with_key k acc ++ with_key k l)%list.
Proof.
  revert acc. induction l as [|r l IH]; intros acc S; cbn [fold_left].
  - unfold with_key at 3. cbn [List.filter]. rewrite app_nil_r. reflexivity.
  - rewrite (IH _ (SortFacts.insert_row_sorted r acc S)), (with_key_insert k r acc S).
    rewrite <- app_assoc. f_equal.
    change (with_key k (r :: l))
      with (if (sort_key r =? k)%string then r :: with_key k l else with_key k l).
    destruct (sort_key r =? k)%string; reflexivity.
Qed.

End AnyLabelStable.

End StableFacts.

(** X4: the sort of [get_rows] loses and adds no row, and it is stable:
    the rows whose mount paths have the same lower-case form (paths that
    differ in the case of letters only) keep the order in which the loop
    appended them, the order of the listing. *)
Theorem sort_rows_stable {L : Type} (l : list (row_of L)) :
  Permutation (sort_rows l) l
  /\ forall k : string, with_key k (sort_rows l) = with_key k l.
Proof.
  split; [apply SortFacts.sort_rows_perm|].
  intros k. unfold sort_rows.
  rewrite StableFacts.with_key_sort_from by constructor. reflexivity.
Qed.

(** ** The table of [main] *)

Module TableFacts.
Import ReportFacts.

Lemma take_all n s : (String.length s <= n)%nat -> PyStr.take n s = s.
Proof.
  unfold PyStr.take. revert n. induction s as [|c s IH]; intros [|n] Hn; cbn in *;
    try reflexivity; try lia.
  rewrite IH by lia. reflexivity.
Qed.

Lemma column_width_cap title cap cells : (column_width title cap cells <= cap)%nat.
Proof. unfold column_width. lia. Qed.

Lemma column_width_title title cap cells : (String.length title <= cap)%nat ->
  (String.length title <= column_width title cap cells)%nat.
Proof. unfold column_width. cbn [list_max fold_right]. lia. Qed.

Lemma column_width_cell title cap cells c : In c cells ->
  (Nat.min (String.length c) cap <= column_width title cap cells)%nat.
Proof.
  intros Hc. unfold column_width.
  pose proof (proj1 (list_max_le (String.length title :: map String.length cells) _)
                (Nat.le_refl _)) as F.
  rewrite List.Forall_forall in F.
  specialize (F (String.length c) (or_intror (in_map String.length cells c Hc))).
  lia.
Qed.



Lemma length_dev_cell w (r : row) :
  String.length (dev_cell w r) = Nat.max w (String.length (r_dev r)).
Proof. unfold dev_cell. apply length_ljust. Qed.

Lemma length_header_line a b c :
  String.length (header_line a b c) = (Nat.max a 6 + Nat.max b 11 + Nat.max c 5 + 54)%nat.
Proof.
  unfold header_line. rewrite !length_append, !length_ljust, !length_rjust.
  cbn [String.length]. lia.
Qed.

Lemma ljust_full c w : PyStr.ljust w (PyStr.repeat_char c w) = PyStr.repeat_char c w.
Proof.
  unfold PyStr.ljust. rewrite length_repeat_char, Nat.sub_diag. apply ReFacts.append_nil_r.
Qed.

Lemma sep_line_eq a b c :
  sep_line a b c =
    PyStr.repeat_char "-" a ++ "  " ++ PyStr.repeat_char "-" b ++ "  "
    ++ PyStr.repeat_char "-" c
    ++ "  ------------  ------------  ------------  ------".
Proof. unfold sep_line. rewrite !ljust_full. reflexivity. Qed.

Lemma length_sep_line a b c : String.length (sep_line a b c) = (a + b + c + 54)%nat.
Proof.
  rewrite sep_line_eq, !length_append, !length_repeat_char. cbn [String.length]. lia.
Qed.




End TableFacts.

(** X6: the head of the table.  Whatever the rows are (with strings for
    labels, as the source annotates them), the three column
    widths lie between the length of the title and the cap (6 to 18, 11 to
    24, 5 to 40), the first two lines printed are the header and the
    separator at these widths, the separator is a run of dashes under each
    column, and both lines have the same length, the three widths and 54. *)
Theorem table_head (rs : list row) :
  let dev_w := column_width "Device" 18 (map r_dev rs) in
  let name_w := column_width "Volume name" 24 (map r_name rs) in
  let mp_w := column_width "Mount" 40 (map r_mp rs) in
  ((6 <= dev_w <= 18)%nat /\ (11 <= name_w <= 24)%nat /\ (5 <= mp_w <= 40)%nat)
  /\ nth 0 (fst (report rs)) "" = header_line dev_w name_w mp_w
  /\ nth 1 (fst (report rs)) "" = sep_line dev_w name_w mp_w
  /\ sep_line dev_w name_w mp_w =
       PyStr.repeat_char "-" dev_w ++ "  " ++ PyStr.repeat_char "-" name_w ++ "  "
       ++ PyStr.repeat_char "-" mp_w
       ++ "  ------------  ------------  ------------  ------"
  /\ String.length (header_line dev_w name_w mp_w) = (dev_w + name_w + mp_w + 54)%nat
  /\ String.length (sep_line dev_w name_w mp_w) = (dev_w + name_w + mp_w + 54)%nat.
Proof.
  intros dev_w name_w mp_w.
  pose proof (TableFacts.column_width_cap "Device" 18 (map r_dev rs)) as A1.
  pose proof (TableFacts.column_width_title "Device" 18 (map r_dev rs) ltac:(cbn; lia)) as A2.
  pose proof (TableFacts.column_width_cap "Volume name" 24 (map r_name rs)) as B1.
  pose proof (TableFacts.column_width_title "Volume name" 24 (map r_name rs) ltac:(cbn; lia)) as B2.
  pose proof (TableFacts.column_width_cap "Mount" 40 (map r_mp rs)) as C1.
  pose proof (TableFacts.column_width_title "Mount" 40 (map r_mp rs) ltac:(cbn; lia)) as C2.
  fold dev_w in A1, A2. fold name_w in B1, B2. fold mp_w in C1, C2.
  cbn [String.length] in A2, B2, C2.
  split; [lia|].
  assert (R : exists rest, fst (report rs)
                = header_line dev_w name_w mp_w :: sep_line dev_w name_w mp_w :: rest).
  { rewrite ReportFacts.report_text. cbv zeta. fold dev_w name_w mp_w.
    destruct (print_rows dev_w name_w mp_w rs) as [body [e|]]; cbn [fst]; eauto. }
  destruct R as [rest ->]. cbn [nth].
  repeat split.
  - apply TableFacts.sep_line_eq.
  - rewrite TableFacts.length_header_line. lia.
  - apply TableFacts.length_sep_line.
Qed.


(** X12: a label of at most 24 characters and a mount path of at most 40
    are printed in full, followed by the padding of their column; a longer
    one is cut to its first 24 or 40 characters; and the cell of a device
    name of at most 18 characters is as wide as its column. *)
Theorem cells_within_cap_in_full (rs : list row) :
  let dev_w := column_width "Device" 18 (map r_dev rs) in
  let name_w := column_width "Volume name" 24 (map r_name rs) in
  let mp_w := column_width "Mount" 40 (map r_mp rs) in
  Forall (fun r =>
    ((String.length (r_name r) <= 24)%nat ->
       name_cell name_w r
       = r_name r ++ PyStr.repeat_char " " (name_w - String.length (r_name r)))
    /\ ((24 < String.length (r_name r))%nat ->
       name_cell name_w r = PyStr.take 24 (r_name r))
    /\ ((String.length (r_mp r) <= 40)%nat ->
       mp_cell mp_w r = r_mp r ++ PyStr.repeat_char " " (mp_w - String.length (r_mp r)))
    /\ ((40 < String.length (r_mp r))%nat ->
       mp_cell mp_w r = PyStr.take 40 (r_mp r))
    /\ ((String.length (r_dev r) <= 18)%nat ->
       String.length (dev_cell dev_w r) = dev_w)) rs.
Proof.
  intros dev_w name_w mp_w. apply List.Forall_forall. intros r Hr.
  pose proof (TableFacts.column_width_cell "Device" 18 (map r_dev rs) (r_dev r)
                (in_map r_dev rs r Hr)) as Cd.
  pose proof (TableFacts.column_width_cell "Volume name" 24 (map r_name rs) (r_name r)
                (in_map r_name rs r Hr)) as Cn.
  pose proof (TableFacts.column_width_cell "Mount" 40 (map r_mp rs) (r_mp r)
                (in_map r_mp rs r Hr)) as Cm.
  pose proof (TableFacts.column_width_cap "Volume name" 24 (map r_name rs)) as Bn.
  pose proof (TableFacts.column_width_cap "Mount" 40 (map r_mp rs)) as Bm.
  fold dev_w in Cd. fold name_w in Cn, Bn. fold mp_w in Cm, Bm.
  repeat split; intros Hl.
  - unfold name_cell, PyStr.ljust. rewrite TableFacts.take_all by lia. reflexivity.
  - assert (E : name_w = 24%nat) by lia. rewrite E.
    unfold name_cell, PyStr.ljust. rewrite ReportFacts.length_take.
    replace (24 - Nat.min 24 (String.length (r_name r)))%nat with 0%nat by lia.
    apply ReFacts.append_nil_r.
  - unfold mp_cell, PyStr.ljust. rewrite TableFacts.take_all by lia. reflexivity.
  - assert (E : mp_w = 40%nat) by lia. rewrite E.
    unfold mp_cell, PyStr.ljust. rewrite ReportFacts.length_take.
    replace (40 - Nat.min 40 (String.length (r_mp r)))%nat with 0%nat by lia.
    apply ReFacts.append_nil_r.
  - rewrite TableFacts.length_dev_cell. lia.
Qed.

Section ProgramOutput.

Context {World : Type} `{OS World}.

(** The print loop gets as far as the first label that is no string. *)
Lemma print_rows_count dev_w name_w mp_w (rs : list raw_row) :
  Forall row_numbers_ok rs ->
  length (fst (print_rows dev_w name_w mp_w rs)) = rows_before_error rs.
Proof.
  induction 1 as [|r rs Hr Hrs IH]; cbn [print_rows rows_before_error]; [reflexivity|].
  pose proof (ReportFacts.row_line_some dev_w name_w mp_w r Hr) as E.
  destruct (r_name r) as [s| | | | | | | |] eqn:N;
    cbn [label_cell value_label is_text] in *; try (rewrite E; reflexivity).
  destruct E as [line E]. rewrite E.
  destruct (print_rows dev_w name_w mp_w rs) as [out e]. cbn [fst length] in *.
  rewrite IH. reflexivity.
Qed.

Lemma rows_before_error_all (rs : list raw_row) :
  forallb (fun r => is_text (r_name r)) rs = true -> rows_before_error rs = length rs.
Proof.
  induction rs as [|r rs IH]; cbn [forallb rows_before_error length]; [reflexivity|].
  intros F. apply andb_true_iff in F as [-> F]. rewrite (IH F). reflexivity.
Qed.

(** X5: how often the program calls [print] (each call writes its text and
    a line feed).  Never when the mount listing cannot be obtained or a
    label has no length: the exception leaves [main] before the first
    [print].  Otherwise it prints the header and the separator and then,
    when every label is a string, one line per row, or the one line of the
    message when there is no row; when a label is no string, the loop prints
    the rows before the first such label and is left by a TypeError. *)
Theorem program_print_count (w : World) :
  length (fst (fst (program w))) =
    match fst (get_rows w) with
    | Raise _ => 0%nat
    | Ok rs =>
        match label_width (map r_name rs) with
        | None => 0%nat
        | Some _ =>
            if forallb (fun r => is_text (r_name r)) rs
            then (2 + Nat.max 1 (length rs))%nat
            else (2 + rows_before_error rs)%nat
        end
    end.
Proof.
  unfold program, main. destruct (get_rows w) as [[rs|e] w'] eqn:E; cbn [fst]; [|reflexivity].
  pose proof (get_rows_numbers w rs w' E) as F.
  unfold report. destruct (label_width (map r_name rs)) as [name_w|]; [|reflexivity].
  pose proof (print_rows_count (column_width "Device" 18 (map r_dev rs)) name_w
                (column_width "Mount" 40 (map r_mp rs)) rs F) as C.
  pose proof (ReportFacts.print_rows_values (column_width "Device" 18 (map r_dev rs)) name_w
                (column_width "Mount" 40 (map r_mp rs)) rs F) as V.
  destruct (print_rows _ _ _ rs) as [body e]. cbn [fst snd] in C, V. subst e.
  destruct (forallb (fun r => is_text (r_name r)) rs) eqn:T; cbn [fst length].
  - rewrite length_app. cbn [length]. rewrite C, (rows_before_error_all rs T).
    destruct rs; cbn [length]; lia.
  - cbn [length]. rewrite C. reflexivity.
Qed.

(** Rows whose labels are strings are rows as the source annotates
    them. *)
Lemma text_rows_as_raw (rs : list raw_row) :
  forallb (fun r => is_text (r_name r)) rs = true ->
  exists rs' : list row, rs = map as_raw rs'.
Proof.
  induction rs as [|r rs IH]; cbn [forallb]; [exists []; reflexivity|].
  intros F. apply andb_true_iff in F as [Fr F]. destruct (IH F) as [rs' ->].
  destruct r as [dev name mp size used avail pct]. cbn [r_name] in Fr.
  destruct name as [s| | | | | | | |]; try discriminate Fr.
  exists (mkRow dev s mp size used avail pct :: rs'). reflexivity.
Qed.

(** X18: [main] on the rows of [get_rows].  With a label that is a string
    inside a property list [main] does what it does with the string, so on
    every run on which the listing is obtained and every label is a string,
    the rows are rows as the source annotates them, the program prints the
    table of these rows (the table of X6, X7 and X12) and ends with status
    0. *)
Theorem text_labels_give_annotated_table :
  (forall rs : list row, report (map as_raw rs) = report rs)
  /\ (forall (w w' : World) (raw : list raw_row),
        get_rows w = (Ok raw, w') ->
        forallb (fun r => is_text (r_name r)) raw = true ->
        exists rs : list row,
          raw = map as_raw rs /\ program w = (fst (report rs), 0, w')).
Proof.
  split; [exact ReportFacts.report_as_raw|].
  intros w w' raw E T. destruct (text_rows_as_raw raw T) as [rs ->].
  exists rs. split; [reflexivity|].
  pose proof (get_rows_numbers w _ w' E) as F.
  pose proof (ReportFacts.report_values _ F) as R. rewrite T in R.
  unfold program, main. rewrite E.
  rewrite ReportFacts.report_as_raw in *.
  destruct (report rs) as [out res]. cbn [snd fst] in *. subst res. reflexivity.
Qed.

End ProgramOutput.

(** ** [human]: the end of the loop and the overflow of [float()] *)

Module OverflowFacts.
Import PyFloat PyFloatFacts.

(** The loop of [human] returns at PiB at the latest. *)
Lemma human_loop_ends us b : In "PiB" us -> exists s, human_loop us b = Some s.
Proof.
  revert b. induction us as [|u us IH]; intros b; [intros []|].
  intros Hin. rewrite human_loop_step.
  destruct (ltb b (of_Z_exact 1024)); cbn [orb]; [eauto|].
  destruct (String.eqb_spec u "PiB") as [|Hne]; [eauto|].
  destruct Hin as [E|Hin]; [congruence|]. exact (IH _ Hin).
Qed.

(** [float()] overflows on an integer exactly when it does on its absolute
    value. *)
Lemma float_of_int_abs n : float_of_int n = None <-> float_of_int (Z.abs n) = None.
Proof.
  destruct (Z.le_gt_cases 0 n) as [Hpos|Hneg]; [rewrite Z.abs_eq by lia; tauto|].
  rewrite Z.abs_neq by lia. unfold float_of_int.
  assert (E : round53 n 1 = mkF (- fm (round53 (- n) 1)) (fe (round53 (- n) 1))).
  { rewrite <- (round53_opp (- n)) by lia. f_equal. lia. }
  rewrite E. set (y := round53 (- n) 1).
  unfold num, den. cbn [fm fe]. rewrite Z.mul_opp_l, Z.abs_opp.
  destruct (2 ^ 1024 * pow2 (- fe y) <=? Z.abs (fm y * pow2 (fe y))); [tauto|].
  split; discriminate.
Qed.

(** The largest binary64 and the bound of [float()]: the integers from
    2^1024 - 2^970 on round to 2^1024. *)
Lemma float_of_int_overflow n : 0 <= n ->
  float_of_int n = None <-> 2 ^ 1024 - 2 ^ 970 <= n.
Proof.
  intros Hn.
  assert (E1 : round53 (2 ^ 1024 - 2 ^ 970) 1 = mkF (2 ^ 53) 971) by (vm_compute; reflexivity).
  assert (E2 : round53 (2 ^ 1024 - 2 ^ 970 - 1) 1 = mkF (2 ^ 53 - 1) 971)
    by (vm_compute; reflexivity).
  assert (V1 : num (mkF (2 ^ 53) 971) = 2 ^ 1024) by (vm_compute; reflexivity).
  assert (V2 : num (mkF (2 ^ 53 - 1) 971) = 2 ^ 1024 - 2 ^ 971) by (vm_compute; reflexivity).
  assert (P971 : 0 < 2 ^ 971) by (apply Z.pow_pos_nonneg; lia).
  assert (P1024 : 0 < 2 ^ 1024) by (apply Z.pow_pos_nonneg; lia).
  assert (T0 : 0 <= 2 ^ 1024 - 2 ^ 970) by (vm_compute; discriminate).
  pose proof (round53_nonneg n 1 Hn ltac:(lia)) as N0.
  apply StatFacts.num_nonneg in N0.
  unfold float_of_int.
  pose proof (RoundingFacts.round53_mono (2 ^ 1024 - 2 ^ 970) 1 n 1) as M1.
  pose proof (RoundingFacts.round53_mono n 1 (2 ^ 1024 - 2 ^ 970 - 1) 1) as M2.
  rewrite E1, V1 in M1. rewrite E2, V2 in M2.
  change (den (mkF (2 ^ 53) 971)) with 1 in M1.
  change (den (mkF (2 ^ 53 - 1) 971)) with 1 in M2.
  set (x := round53 n 1) in *.
  pose proof (pow2_pos (- fe x)) as P. fold (den x) in P.
  rewrite (Z.abs_eq (num x)) by assumption.
  set (A := 2 ^ 1024) in *. set (B := 2 ^ 970) in *. set (C := 2 ^ 971) in *.
  destruct (Z.le_gt_cases (A - B) n) as [Hbig|Hsmall].
  - specialize (M1 T0 ltac:(lia) ltac:(lia) ltac:(lia)).
    destruct (Z.leb_spec (A * den x) (num x)); [tauto|lia].
  - specialize (M2 Hn ltac:(lia) ltac:(lia) ltac:(lia)).
    destruct (Z.leb_spec (A * den x) (num x)) as [Hov|_].
    + exfalso. nia.
    + split; [discriminate|lia].
Qed.

End OverflowFacts.

(** X13: the loop of [human] never ends without a [return]: at PiB, the
    last unit, the test [u == "PiB"] holds whatever the value.  The
    statement behind the loop, the second [return] of the function, is
    never reached, and [human] has no result only when [float()] has
    none. *)
Theorem human_loop_always_returns :
  (forall b : pyfloat, exists s, human_loop units b = Some s)
  /\ (forall n : Z, human n = None <-> PyFloat.float_of_int n = None).
Proof.
  assert (A : forall b, exists s, human_loop units b = Some s).
  { intros b. apply OverflowFacts.human_loop_ends. unfold units. cbn. tauto. }
  split; [exact A|].
  intros n. unfold human. destruct (PyFloat.float_of_int n) as [x|]; [|tauto].
  destruct (A x) as [s ->]. split; discriminate.
Qed.

(** X14: [human] raises the OverflowError of [float()] exactly on the
    integers of absolute value 2^1024 - 2^970 or more, those that round to
    2^1024; on every other integer it returns a text. *)
Theorem human_overflow_bound (n : Z) :
  human n = None <-> 2 ^ 1024 - 2 ^ 970 <= Z.abs n.
Proof.
  rewrite <- (OverflowFacts.float_of_int_overflow (Z.abs n)) by lia.
  rewrite <- OverflowFacts.float_of_int_abs.
  unfold human. destruct (PyFloat.float_of_int n) as [x|]; [|tauto].
  destruct (OverflowFacts.human_loop_ends units x) as [s ->]; [unfold units; cbn; tauto|].
  split; discriminate.
Qed.

(** ** The lines of the listing *)

Module LinesFacts.

(** No line of [splitlines_from] holds a line boundary. *)
Lemma splitlines_from_no_break (n : nat) : forall s cur,
  (String.length s <= n)%nat ->
  PyStr.all_chars no_break cur = true ->
  Forall (fun l => PyStr.all_chars no_break l = true) (splitlines_from cur s).
Proof.
  induction n as [|n IH]; intros s cur Hlen Hcur.
  - destruct s as [|c s]; [|cbn in Hlen; lia].
    cbn [splitlines_from]. destruct (cur =? "")%string; repeat constructor. exact Hcur.
  - destruct s as [|c s]; cbn [splitlines_from].
    { destruct (cur =? "")%string; repeat constructor. exact Hcur. }
    cbn [String.length] in Hlen.
    destruct (is_linebreak c) eqn:B.
    + destruct s as [|c' s'].
      * constructor; [exact Hcur|]. apply IH; [cbn; lia|reflexivity].
      * cbn [String.length] in Hlen.
        destruct (Ascii.eqb c "013" && Ascii.eqb c' "010");
          (constructor; [exact Hcur|]); apply IH; cbn [String.length]; try lia; reflexivity.
    + apply IH; [lia|]. rewrite ReFacts.all_chars_app, Hcur. cbn [PyStr.all_chars].
      unfold no_break. rewrite B. reflexivity.
Qed.

(** A line without a line boundary, closed by a line feed, is split off as
    it is. *)
Lemma splitlines_from_line l : forall cur rest,
  PyStr.all_chars no_break l = true ->
  splitlines_from cur (l ++ String "010" rest) = (cur ++ l) :: splitlines_from "" rest.
Proof.
  induction l as [|c l IH]; intros cur rest Hl.
  - rewrite append_nil_l, ReFacts.append_nil_r. cbn [splitlines_from].
    change (is_linebreak "010") with true. cbv iota.
    destruct rest as [|c' s']; reflexivity.
  - cbn [PyStr.all_chars] in Hl. apply andb_true_iff in Hl as [Hc Hl].
    rewrite append_cons. cbn [splitlines_from].
    unfold no_break in Hc. apply negb_true_iff in Hc. rewrite Hc.
    rewrite (IH _ _ Hl), append_assoc. reflexivity.
Qed.

End LinesFacts.

(** X15: the lines the loop of [get_rows] runs over.  No line that
    [splitlines] returns holds a line boundary, so the pattern never meets
    one; and a text that closes each of its lines with a line feed, as
    [mount] writes it, is split into exactly these lines, the empty ones
    included. *)
Theorem splitlines_lines :
  (forall s : string,
      Forall (fun l => PyStr.all_chars no_break l = true) (splitlines s))
  /\ (forall lines : list string,
      Forall (fun l => PyStr.all_chars no_break l = true) lines ->
      splitlines (text_of_lines lines) = lines).
Proof.
  split.
  - intros s. apply (LinesFacts.splitlines_from_no_break (String.length s)); [lia|reflexivity].
  - induction 1 as [|l lines Hl _ IH]; [reflexivity|].
    unfold splitlines in *. cbn [text_of_lines fold_right].
    rewrite (LinesFacts.splitlines_from_line l "" _ Hl), append_nil_l.
    f_equal. exact IH.
Qed.

(** ** The byte counts of [statvfs_row] *)

(** X17: the byte counts of [statvfs_row], for every answer of
    [os.statvfs]: size and free space are counted in the block size
    [f_frsize], or [f_bsize] when that is 0; used and free blocks add up to
    the size; size and available space lie from 0 to below 2^128, the used
    space is at most the size and is not negative when the answer has no
    more free blocks than blocks; and [human] accepts all three, so that no
    row makes [main] raise the OverflowError of [float()]. *)
Theorem byte_counts_printable (s : statvfs_result) :
  let '(size, used, avail, _) := statvfs_numbers s in
  size = f_blocks s * block_size s
  /\ avail = f_bavail s * block_size s
  /\ used + f_bfree s * block_size s = size
  /\ 0 <= size < 2 ^ 128
  /\ 0 <= avail < 2 ^ 128
  /\ - 2 ^ 128 < used <= size
  /\ (f_bfree s <= f_blocks s -> 0 <= used)
  /\ exists a b c : string,
       human size = Some a /\ human used = Some b /\ human avail = Some c.
Proof.
  destruct (statvfs_numbers s) as [[[size used] avail] pct] eqn:E.
  unfold statvfs_numbers in E. fold (block_size s) in E.
  injection E as <- <- <- _.
  pose proof (StatFacts.statvfs_fields s) as (B1 & B2 & B3 & B4 & B5).
  assert (Hbs : 0 <= block_size s < 2 ^ 64).
  { unfold block_size. destruct (f_frsize s =? 0); lia. }
  set (bs := block_size s) in *.
  assert (P128 : 2 ^ 128 = 2 ^ 64 * 2 ^ 64) by reflexivity.
  assert (Hbig : 2 ^ 128 < 2 ^ 1023) by (vm_compute; reflexivity).
  assert (P64 : 0 < 2 ^ 64) by reflexivity.
  assert (S1 : 0 <= f_blocks s * bs < 2 ^ 128) by nia.
  assert (S2 : 0 <= f_bavail s * bs < 2 ^ 128) by nia.
  assert (S3 : - 2 ^ 128 < (f_blocks s - f_bfree s) * bs <= f_blocks s * bs) by nia.
  destruct (human_some (f_blocks s * bs)) as [a Ha]; [apply Z.abs_lt; lia|].
  destruct (human_some ((f_blocks s - f_bfree s) * bs)) as [b Hb]; [apply Z.abs_lt; lia|].
  destruct (human_some (f_bavail s * bs)) as [c Hc]; [apply Z.abs_lt; lia|].
  repeat split; try lia; try nia.
  exists a, b, c. auto.
Qed.

(** * The further properties on the example machines *)

(** [no_candidate_no_call] on a listing of two lines, one under /System/
    and one of type nfs. *)
Lemma no_candidate_no_call_witness :
  forallb rejected [Example.line_vm; Example.line_data_nfs] = true
  /\ @get_rows nat
       (Example.machine (text_of_lines [Example.line_vm; Example.line_data_nfs])) 0%nat
     = (Ok [], 0%nat).
Proof.
  split; [vm_compute; reflexivity|].
  apply (@no_candidate_no_call nat
           (Example.machine (text_of_lines [Example.line_vm; Example.line_data_nfs]))
           0%nat 0%nat (text_of_lines [Example.line_vm; Example.line_data_nfs])).
  - reflexivity.
  - vm_compute. reflexivity.
Defined.

(** [first_entry_is_reported] on [Example.machine]: the entry of
    [/Volumes/Data] behind a hidden volume and before a second entry for
    the same path. *)
Lemma first_entry_is_reported_witness :
  let r := mkRow "/dev/disk4s2" (PString "") "/Volumes/Data" 4096000 3072000 819200
             (PyFloat.mul (PyFloat.int_truediv 3072000 4096000) (PyFloat.of_Z_exact 100)) in
  let report := fst (@rows_of_lines nat (Example.machine "")
                       [Example.line_vm; Example.line_data; Example.line_data_again] 0%nat) in
  In r report /\ forall r', In r' report -> r_mp r' = "/Volumes/Data" -> r' = r.
Proof.
  apply (@first_entry_is_reported nat (Example.machine "")
           [Example.line_vm] [Example.line_data_again] Example.line_data
           "/dev/disk4s2" "/Volumes/Data" "hfs" 0%nat 0%nat 0%nat 1%nat first_state
           Example.stat1).
  - intros l dev' fs' [<-|[]] E. vm_compute in E. discriminate E.
  - vm_compute. reflexivity.
  - vm_compute. reflexivity.
  - vm_compute. reflexivity.
  - reflexivity.
  - reflexivity.
Defined.


(** [human_fits_column] at 1536 bytes. *)
Lemma human_fits_column_witness :
  exists s, human 1536 = Some s
    /\ (String.length s <= 10)%nat
    /\ String.length (PyStr.rjust 12 s) = 12%nat.
Proof.
  apply (human_fits_column 1536). split; [discriminate|reflexivity].
Defined.

(** [human_negative_in_bytes] at -4096, the used bytes of an answer of
    [os.statvfs] with two free blocks out of one. *)
Lemma human_negative_in_bytes_witness :
  exists x, PyFloat.float_of_int (- 4096) = Some x
    /\ human (- 4096) = Some (PyStr.of_Z (PyFloat.to_int x) ++ " B")
    /\ (- 2 ^ 53 < - 4096 -> human (- 4096) = Some (PyStr.of_Z (- 4096) ++ " B")).
Proof.
  apply (human_negative_in_bytes (- 4096)). split; reflexivity.
Defined.

(** [percent_of_full_and_empty] on a volume of 1000 blocks, none free. *)
Lemma percent_of_full_and_empty_witness :
  (PyFloat.to_Q (percent_of (mkStatvfs 4096 4096 1000 0 0 eq_refl)) == 100)%Q
  /\ PyFloat.format_1f (percent_of (mkStatvfs 4096 4096 1000 0 0 eq_refl)) = "100.0".
Proof.
  apply (proj1 (percent_of_full_and_empty (mkStatvfs 4096 4096 1000 0 0 eq_refl) eq_refl)).
  reflexivity.
Defined.

(** [percent_grows_with_use] on two answers for a volume of 1000 blocks,
    with 250 and with 100 free blocks. *)
Lemma percent_grows_with_use_witness :
  (PyFloat.to_Q (percent_of Example.stat1)
   <= PyFloat.to_Q (percent_of (mkStatvfs 4096 4096 1000 100 50 eq_refl)))%Q.
Proof.
  apply (percent_grows_with_use Example.stat1 (mkStatvfs 4096 4096 1000 100 50 eq_refl)).
  - reflexivity.
  - reflexivity.
  - cbn. lia.
Defined.
